(** * PrismStyle dataset tooling: a shallow embedding and its properties

    The repository's [tools/] scripts normalise fashion datasets into
    line-delimited manifests.  Each script is embedded below in a module of
    its own, named after the script; [Py] holds the Python built-ins the
    scripts rely on (string searching, [sorted], JSON values, binary64
    arithmetic, exceptions).

    Conventions.
    - A Python [str] is the list of its code points ([list N]); [py "abc"]
      is the literal.  [str] comparison is lexicographic on code points.
    - A value read with [json.load] is a [json]; a Python [dict] is the
      association list of its items in insertion order.
    - A Python [float] is a binary64 primitive float.
    - Code that can raise returns a [result]; a [try]/[except] is a match
      on it. *)

From Stdlib Require Import ZArith NArith List String Ascii Lia Bool.
From Stdlib Require Import QArith.
From Stdlib Require Import Floats.
From stdpp Require Import base option list gmap sorting pretty.
Import ListNotations.

Set Warnings "-register-all".
Open Scope Z_scope.

(* ===================================================================== *)
(** * Python built-ins                                                    *)
(* ===================================================================== *)

Module Py.

Abbreviation pystr := (list N).

(** The [str] literal with the characters of [s]. *)
Definition py (s : string) : pystr := map N_of_ascii (list_ascii_of_string s).

Definition LF : N := 10%N.
Definition CR : N := 13%N.
Definition DOT : N := 46%N.
Definition UNDERSCORE : N := 95%N.

(** Exceptions the scripts meet.  Every constructor but [SystemExit] is a
    subclass of [Exception]; [RuntimeError] is kept apart because
    [_check_zip] has a handler for it. *)
Inductive exn :=
| SystemExit (msg : pystr)
| RuntimeError (msg : pystr)
| AttributeError
| TypeError
| OverflowError
| NotADirectoryError
| FileNotFoundError
| OtherException (type_name msg : pystr).

Inductive result (A : Type) :=
| Ok (a : A)
| Raise (e : exn).
Arguments Ok {A} a.
Arguments Raise {A} e.

#[global] Instance result_ret : MRet result := fun A a => Ok a.

#[global] Instance result_bind : MBind result := fun A B k r =>
  match r with
  | Ok a => k a
  | Raise e => Raise e
  end.

(** [len(s)] *)
Definition len {A} (s : list A) : Z := Z.of_nat (length s).

(** [s.startswith(p)] *)
Fixpoint startswith (p s : pystr) : bool :=
  match p, s with
  | [], _ => true
  | a :: p', b :: s' => (a =? b)%N && startswith p' s'
  | _ :: _, [] => false
  end.

(** [s.endswith(p)] *)
Definition endswith (p s : pystr) : bool := startswith (rev p) (rev s).

(** [needle in hay] *)
Fixpoint contains (needle hay : pystr) : bool :=
  startswith needle hay ||
  match hay with
  | [] => false
  | _ :: hay' => contains needle hay'
  end.

(** [s.find(needle)]: the least index where [needle] starts, [-1] if none. *)
Fixpoint find_from (needle s : pystr) (i : Z) : Z :=
  if startswith needle s then i
  else match s with
       | [] => -1
       | _ :: s' => find_from needle s' (i + 1)
       end.

Definition find (needle s : pystr) : Z := find_from needle s 0.

(** [s.rfind(c)] for a one-character [c]. *)
Fixpoint rfind_from (c : N) (s : pystr) (i : Z) (last : Z) : Z :=
  match s with
  | [] => last
  | a :: s' => rfind_from c s' (i + 1) (if (a =? c)%N then i else last)
  end.

Definition rfind (c : N) (s : pystr) : Z := rfind_from c s 0 (-1).

(** [s[:e]] for [0 <= e] *)
Definition slice_to (e : Z) (s : pystr) : pystr := take (Z.to_nat e) s.

(** [Path(name).stem]: the name without its last suffix. *)
Definition stem (name : pystr) : pystr :=
  let i := rfind DOT name in
  if (0 <? i) && (i <? len name - 1) then slice_to i name else name.

(** [s.replace(old, new)] for a non-empty [old]: occurrences are found left
    to right and do not overlap.  [skip] counts the characters of a matched
    occurrence still to be consumed. *)
Fixpoint replace_go (old new : pystr) (skip : nat) (s : pystr) : pystr :=
  match s with
  | [] => []
  | c :: s' =>
      match skip with
      | S k => replace_go old new k s'
      | O => if startswith old s
             then new ++ replace_go old new (length old - 1) s'
             else c :: replace_go old new 0 s'
      end
  end.

Definition replace (old new s : pystr) : pystr := replace_go old new 0 s.

(** Truthiness of a [str]. *)
Definition truthy_str (s : pystr) : bool :=
  match s with [] => false | _ => true end.

(** Lexicographic comparison of [str] by code point. *)
Fixpoint str_compare (a b : pystr) : comparison :=
  match a, b with
  | [], [] => Eq
  | [], _ :: _ => Lt
  | _ :: _, [] => Gt
  | x :: a', y :: b' =>
      match (x ?= y)%N with
      | Eq => str_compare a' b'
      | c => c
      end
  end.

Definition str_leb (a b : pystr) : bool :=
  match str_compare a b with Gt => false | _ => true end.

Definition str_eqb (a b : pystr) : bool :=
  match str_compare a b with Eq => true | _ => false end.

(** [sorted(l, key=key)]: Python's sort is stable, so it is the insertion
    sort that places an element before the first element of the sorted
    tail whose key is not smaller. *)
Section Sorted.
Context {A K : Type} (key : A -> K) (leb : K -> K -> bool).

Fixpoint insert_sorted (x : A) (l : list A) : list A :=
  match l with
  | [] => [x]
  | y :: l' => if leb (key x) (key y) then x :: y :: l'
               else y :: insert_sorted x l'
  end.

Fixpoint sorted (l : list A) : list A :=
  match l with
  | [] => []
  | x :: l' => insert_sorted x (sorted l')
  end.
End Sorted.

(** Values of [json.load]. *)
Inductive json :=
| JNull
| JBool (b : bool)
| JInt (z : Z)
| JFloat (f : float)
| JStr (s : pystr)
| JList (l : list json)
| JObj (items : list (pystr * json)).

(** The value stored under [k], if the dict has the key. *)
Fixpoint dict_lookup (k : pystr) (d : list (pystr * json)) : option json :=
  match d with
  | [] => None
  | (k', v) :: d' => if str_eqb k k' then Some v else dict_lookup k d'
  end.

(** [o.get(k, dflt)]; only a dict has the method. *)
Definition get_default (o : json) (k : pystr) (dflt : json) : result json :=
  match o with
  | JObj d => Ok (default dflt (dict_lookup k d))
  | _ => Raise AttributeError
  end.

(** [o.get(k)] *)
Definition get (o : json) (k : pystr) : result json := get_default o k JNull.

(** [bool(v)] *)
Definition truthy (v : json) : bool :=
  match v with
  | JNull => false
  | JBool b => b
  | JInt z => negb (z =? 0)
  | JFloat f => negb (f =? 0)%float
  | JStr s => truthy_str s
  | JList l => match l with [] => false | _ => true end
  | JObj d => match d with [] => false | _ => true end
  end.

(** [isinstance(v, int)]; [bool] is a subclass of [int]. *)
Definition isinstance_int (v : json) : option Z :=
  match v with
  | JInt z => Some z
  | JBool b => Some (if b then 1 else 0)
  | _ => None
  end.

(** [float(z)] for an [int]: the nearest binary64, ties to even;
    [OverflowError] when it is out of range. *)
Definition float_of_int (z : Z) : result float :=
  match binary_normalize prec emax z 0 false with
  | S754_infinity _ => Raise OverflowError
  | sf => Ok (SF2Prim sf)
  end.

(** [isinstance(v, (int, float))] *)
Definition is_number (v : json) : bool :=
  match v with
  | JInt _ | JFloat _ | JBool _ => true
  | _ => false
  end.

(** [float(v)] *)
Definition to_float (v : json) : result float :=
  match v with
  | JFloat f => Ok f
  | JInt z => float_of_int z
  | JBool b => Ok (if b then 1%float else 0%float)
  | _ => Raise TypeError
  end.

(** [max(0.0, d)]: the second argument wins only when it is greater. *)
Definition max0 (d : float) : float :=
  if (0 <? d)%float then d else 0%float.

End Py.

Import Py.

(** ** Facts about the built-ins *)

Module PyFacts.

Lemma startswith_spec (p s : pystr) :
  startswith p s = true <-> exists t, s = p ++ t.
Proof.
  revert s. induction p as [|a p IH]; intros s; simpl.
  - split; [intros _; exists s; reflexivity | reflexivity].
  - destruct s as [|b s].
    + split; [discriminate | intros [t Ht]; discriminate].
    + rewrite andb_true_iff, N.eqb_eq, IH. split.
      * intros [-> [t ->]]. exists t. reflexivity.
      * intros [t Ht]. inversion Ht; subst. split; [reflexivity | exists t; reflexivity].
Qed.

Lemma endswith_spec (p s : pystr) :
  endswith p s = true <-> exists t, s = t ++ p.
Proof.
  unfold endswith. rewrite startswith_spec. split.
  - intros [t Ht]. exists (rev t).
    rewrite <- (rev_involutive s), Ht, rev_app_distr, rev_involutive. reflexivity.
  - intros [t ->]. exists (rev t). apply rev_app_distr.
Qed.

Lemma contains_spec (needle hay : pystr) :
  contains needle hay = true <-> exists a b, hay = a ++ needle ++ b.
Proof.
  induction hay as [|c hay IH]; simpl.
  - rewrite orb_false_r, startswith_spec. split.
    + intros [t Ht]. exists [], t. exact Ht.
    + intros (a & b & H). symmetry in H.
      apply app_eq_nil in H as [-> H]. exists b. symmetry. exact H.
  - rewrite orb_true_iff, startswith_spec, IH. split.
    + intros [[t Ht] | (a & b & ->)].
      * exists [], t. exact Ht.
      * exists (c :: a), b. reflexivity.
    + intros (a & b & H). destruct a as [|a0 a]; simpl in H.
      * left. exists b. exact H.
      * right. inversion H. exists a, b. reflexivity.
Qed.


Lemma contains_app_r (m a b : pystr) :
  contains m b = true -> contains m (a ++ b) = true.
Proof.
  rewrite !contains_spec. intros (x & y & ->). exists (a ++ x), y.
  rewrite <- !app_assoc. reflexivity.
Qed.




Lemma find_from_absent (u : N) (s : pystr) (i : Z) :
  u ∉ s -> find_from [u] s i = -1.
Proof.
  revert i. induction s as [|c s IH]; intros i Hu; simpl; [reflexivity|].
  apply not_elem_of_cons in Hu as [Hne Hu].
  destruct (N.eqb_spec u c) as [->|_]; [congruence|]. simpl. apply IH, Hu.
Qed.

(** *** [replace] *)

Lemma replace_go_skip (old new a s : pystr) :
  replace_go old new (length a) (a ++ s) = replace_go old new 0 s.
Proof.
  induction a as [|c a IH]; simpl; [reflexivity | exact IH].
Qed.

(** Without an occurrence there is nothing to replace. *)
Lemma replace_absent (old new s : pystr) :
  contains old s = false -> replace old new s = s.
Proof.
  unfold replace. induction s as [|c s IH]; [reflexivity|].
  cbn [contains replace_go]. intros H. apply orb_false_iff in H as [H1 H2].
  rewrite H1, (IH H2). reflexivity.
Qed.


(** A separator that occurs in neither left part splits in one way only. *)
Lemma split_at_first {A} (u : A) (a b x y : list A) :
  u ∉ a -> u ∉ b -> a ++ u :: x = b ++ u :: y -> a = b /\ x = y.
Proof.
  revert b. induction a as [|c a IH]; intros [|d b] Ha Hb H; simpl in H.
  - inversion H. auto.
  - inversion H; subst. exfalso. apply Hb. left.
  - inversion H; subst. exfalso. apply Ha. left.
  - inversion H; subst.
    destruct (IH b) as [-> ->]; auto.
    + intros Hin. apply Ha. right. exact Hin.
    + intros Hin. apply Hb. right. exact Hin.
Qed.

(** The same for a separator that occurs in neither right part. *)
Lemma split_at_last {A} (u : A) (a b x y : list A) :
  u ∉ x -> u ∉ y -> a ++ u :: x = b ++ u :: y -> a = b /\ x = y.
Proof.
  intros Hx Hy H.
  assert (Hr : rev x ++ u :: rev a = rev y ++ u :: rev b).
  { apply (f_equal (@rev A)) in H.
    rewrite !rev_app_distr in H. simpl in H.
    rewrite <- !app_assoc in H. exact H. }
  apply split_at_first in Hr as [Hxy Hab].
  - split; [apply rev_inj, Hab | apply rev_inj, Hxy].
  - rewrite list_elem_of_In, <- in_rev, <- list_elem_of_In. exact Hx.
  - rewrite list_elem_of_In, <- in_rev, <- list_elem_of_In. exact Hy.
Qed.

(** *** The order of [str] *)

Lemma str_compare_eq (a b : pystr) : str_compare a b = Eq <-> a = b.
Proof.
  revert b. induction a as [|x a IH]; intros [|y b]; simpl;
    try (split; [discriminate | discriminate]); [split; reflexivity|].
  destruct (N.compare_spec x y) as [->|H|H].
  - rewrite IH. split; [intros ->; reflexivity | intros H; inversion H; reflexivity].
  - split; [discriminate | intros E; inversion E; lia].
  - split; [discriminate | intros E; inversion E; lia].
Qed.

Lemma str_compare_antisym (a b : pystr) :
  str_compare b a = CompOpp (str_compare a b).
Proof.
  revert b. induction a as [|x a IH]; intros [|y b]; simpl; try reflexivity.
  rewrite (N.compare_antisym x y).
  destruct (x ?= y)%N; simpl; [apply IH | reflexivity | reflexivity].
Qed.

Lemma str_compare_lt_trans (a b c : pystr) :
  str_compare a b = Lt -> str_compare b c = Lt -> str_compare a c = Lt.
Proof.
  revert b c. induction a as [|x a IH]; intros [|y b] [|z c]; simpl;
    try discriminate; try reflexivity.
  destruct (N.compare_spec x y) as [->|Hxy|Hxy]; try discriminate.
  - destruct (N.compare_spec y z) as [->|Hyz|Hyz]; try discriminate.
    + apply IH.
    + reflexivity.
  - intros _. destruct (N.compare_spec y z) as [->|Hyz|Hyz]; try discriminate.
    + intros _. apply N.compare_lt_iff in Hxy. rewrite Hxy. reflexivity.
    + intros _. assert (H : (x < z)%N) by lia.
      apply N.compare_lt_iff in H. rewrite H. reflexivity.
Qed.

Lemma str_leb_spec (a b : pystr) :
  str_leb a b = true <-> str_compare a b = Lt \/ a = b.
Proof.
  unfold str_leb. rewrite <- str_compare_eq.
  destruct (str_compare a b); split; intros H; auto; try discriminate;
    destruct H; discriminate.
Qed.

Lemma str_leb_total (a b : pystr) : str_leb a b = true \/ str_leb b a = true.
Proof.
  unfold str_leb. rewrite (str_compare_antisym a b).
  destruct (str_compare a b); simpl; auto.
Qed.

Lemma str_leb_trans (a b c : pystr) :
  str_leb a b = true -> str_leb b c = true -> str_leb a c = true.
Proof.
  rewrite !str_leb_spec. intros [H1| ->] [H2| ->]; auto.
  left. exact (str_compare_lt_trans _ _ _ H1 H2).
Qed.

Lemma str_leb_antisym (a b : pystr) :
  str_leb a b = true -> str_leb b a = true -> a = b.
Proof.
  rewrite !str_leb_spec. intros [H1| ->] [H2|H2]; auto.
  rewrite (str_compare_antisym a b), H1 in H2. discriminate.
Qed.

Section SortedFacts.
Context {A K : Type} (key : A -> K) (leb : K -> K -> bool).

Lemma insert_sorted_Permutation (x : A) (l : list A) :
  insert_sorted key leb x l ≡ₚ x :: l.
Proof.
  induction l as [|y l IH]; simpl; [reflexivity|].
  destruct (leb (key x) (key y)); [reflexivity|].
  rewrite IH. apply Permutation_swap.
Qed.

Lemma sorted_Permutation (l : list A) : sorted key leb l ≡ₚ l.
Proof.
  induction l as [|x l IH]; simpl; [reflexivity|].
  rewrite insert_sorted_Permutation, IH. reflexivity.
Qed.

Lemma elem_of_sorted (x : A) (l : list A) : x ∈ sorted key leb l <-> x ∈ l.
Proof. rewrite sorted_Permutation. reflexivity. Qed.

(** The order [sorted] establishes between neighbours. *)
Definition key_le (x y : A) : Prop := leb (key x) (key y) = true.

Hypothesis leb_total : forall a b, leb a b = true \/ leb b a = true.

Lemma HdRel_insert_sorted (a x : A) (l : list A) :
  key_le a x -> HdRel key_le a l -> HdRel key_le a (insert_sorted key leb x l).
Proof.
  intros Hax Hal. destruct l as [|y l]; simpl; [constructor; exact Hax|].
  destruct (leb (key x) (key y)); constructor; [exact Hax|].
  inversion Hal; assumption.
Qed.

Lemma Sorted_insert_sorted (x : A) (l : list A) :
  Sorted key_le l -> Sorted key_le (insert_sorted key leb x l).
Proof.
  induction 1 as [|y l Hl IH Hy]; simpl; [repeat constructor|].
  destruct (leb (key x) (key y)) eqn:Hxy.
  - constructor; [constructor; assumption | constructor; exact Hxy].
  - constructor; [exact IH|]. apply HdRel_insert_sorted; [|exact Hy].
    destruct (leb_total (key x) (key y)) as [H|H]; [congruence | exact H].
Qed.

Lemma Sorted_sorted (l : list A) : Sorted key_le (sorted key leb l).
Proof.
  induction l as [|x l IH]; simpl; [constructor | apply Sorted_insert_sorted, IH].
Qed.

End SortedFacts.

(** With a transitive order, [sorted] depends on the order of its input
    only through elements that compare equal both ways. *)
Section SortedUnique.
Context {A K : Type} (key : A -> K) (leb : K -> K -> bool).
Hypothesis leb_total : forall a b, leb a b = true \/ leb b a = true.
Hypothesis leb_trans : forall a b c, leb a b = true -> leb b c = true -> leb a c = true.

Lemma key_le_trans : Transitive (key_le key leb).
Proof. intros x y z. unfold key_le. apply leb_trans. Qed.

Lemma StronglySorted_sorted (l : list A) :
  StronglySorted (key_le key leb) (sorted key leb l).
Proof.
  apply Sorted_StronglySorted; [exact key_le_trans|].
  apply Sorted_sorted, leb_total.
Qed.

Lemma sorted_unique (l1 l2 : list A) :
  l1 ≡ₚ l2 ->
  (forall x y, x ∈ l1 -> y ∈ l1 ->
               leb (key x) (key y) = true -> leb (key y) (key x) = true -> x = y) ->
  sorted key leb l1 = sorted key leb l2.
Proof.
  intros Hp Huniq. pose proof key_le_trans as Htrans.
  apply (Sorted_unique_strong (key_le key leb)).
  - intros x y Hx Hy. apply Huniq.
    + apply elem_of_sorted in Hx. exact Hx.
    + apply elem_of_sorted in Hy. rewrite Hp. exact Hy.
  - apply Sorted_sorted, leb_total.
  - apply Sorted_sorted, leb_total.
  - rewrite !sorted_Permutation. exact Hp.
Qed.

End SortedUnique.

(** Swapping the operands of a binary64 comparison flips its outcome. *)
Lemma SFcompare_flip (x y : spec_float) :
  SFcompare y x = CompOpp <$> SFcompare x y.
Proof.
  destruct x as [sx|sx| |sx mx ex], y as [sy|sy| |sy my ey]; simpl; try reflexivity;
    try (destruct sx; reflexivity); try (destruct sy; reflexivity);
    try (destruct sx, sy; reflexivity).
  destruct sx, sy; simpl; try reflexivity.
  - rewrite (Z.compare_antisym ex ey). destruct (ex ?= ey) eqn:E; simpl; try reflexivity.
    change Eq with (CompOpp Eq) at 1.
    rewrite <- (Pos.compare_cont_antisym mx my Eq). reflexivity.
  - rewrite (Z.compare_antisym ex ey). destruct (ex ?= ey) eqn:E; simpl; try reflexivity.
    change Eq with (CompOpp Eq) at 1.
    rewrite <- (Pos.compare_cont_antisym mx my Eq). reflexivity.
Qed.

(** A comparison is undefined only when an operand is NaN. *)
Lemma SFcompare_None (x y : spec_float) :
  SFcompare x y = None -> x = S754_nan \/ y = S754_nan.
Proof.
  destruct x as [sx|sx| |sx mx ex], y as [sy|sy| |sy my ey];
    cbv beta iota delta [SFcompare]; auto; discriminate.
Qed.

(** [max(0.0, d)] is never NaN, so failing [<= 1.0] means exceeding 1. *)
Lemma max0_above_1 (d : float) :
  (max0 d <=? 1)%float = false -> (1 <? max0 d)%float = true.
Proof.
  unfold max0. destruct (0 <? d)%float eqn:Hpos.
  - rewrite leb_spec, ltb_spec. rewrite ltb_spec in Hpos.
    unfold SFleb, SFltb in *. rewrite (SFcompare_flip (Prim2SF d) (Prim2SF 1)).
    destruct (SFcompare (Prim2SF d) (Prim2SF 1)) as [[]|] eqn:Hc;
      cbv beta iota delta [fmap option_fmap option_map CompOpp];
      intros H; try discriminate H; try reflexivity.
    apply SFcompare_None in Hc as [Hc|Hc].
    + rewrite Hc in Hpos. destruct (Prim2SF 0) as [| | |]; discriminate Hpos.
    + exfalso. revert Hc. vm_compute. discriminate.
  - intros H. vm_compute in H. discriminate.
Qed.

(** Inversion of a successful [x ← r; k x]. *)
Lemma bind_Ok {A B} (r : result A) (k : A -> result B) (b : B) :
  r ≫= k = Ok b -> exists a, r = Ok a /\ k a = Ok b.
Proof. destruct r as [a|e]; simpl; [eauto | discriminate]. Qed.

End PyFacts.

Import PyFacts.

(* ===================================================================== *)
(** * tools/ml/ingest_polyvore.py                                         *)
(* ===================================================================== *)

Module IngestPolyvore.

Record NormItem := {
  item_uid : pystr;
  item_set_id : pystr;
  index : json;
  categoryid : json;
  name : json;
  price : json;
  likes : json;
  image_url : json
}.

Record OutfitRecord := {
  source : pystr;
  split : pystr;
  outfit_uid : pystr;
  set_id : pystr;
  set_url : json;
  date : json;
  desc : json;
  items : list NormItem
}.

(** What [main] has written to [--out-outfits] so far, with its counters. *)
Record Written := {
  lines : list OutfitRecord;
  outfits_written : Z;
  items_written : Z
}.

(** The three split files, [None] when the file does not exist. *)
Record PolyvoreDir := {
  train_no_dup : option json;
  valid_no_dup : option json;
  test_no_dup : option json
}.

Section Main.

(** [str(v)] of a float, list or dict; the scripts only format such a value
    when the metadata is malformed. *)
Variable repr_other : json -> pystr.

(** [str(v)], which is also how an f-string formats [v]. *)
Definition py_str (v : json) : pystr :=
  match v with
  | JNull => py "None"
  | JBool true => py "True"
  | JBool false => py "False"
  | JInt z => py (pretty z)
  | JStr s => s
  | _ => repr_other v
  end.

(** [f"polyvore:{set_id}_{idx}"] *)
Definition compose_uid (set_id idx : pystr) : pystr :=
  py "polyvore:" ++ set_id ++ py "_" ++ idx.

(** [items[:8]] as the sequence the [for] loop iterates. *)
Definition first8 (items : json) : result (list json) :=
  match items with
  | JList l => Ok (take 8 l)
  | JStr s => Ok ((fun c => JStr [c]) <$> take 8 s)
  | _ => Raise TypeError  (* a dict raises KeyError from Python 3.12 on *)
  end.

(** The body of [for it in items[:8]]. *)
Definition norm_item (set_id : pystr) (it : json) : result NormItem :=
  idx ← get it (py "index");
  cid ← get it (py "categoryid");
  nm ← get it (py "name");
  pr ← get it (py "price");
  lk ← get it (py "likes");
  im ← get it (py "image");
  mret {| item_uid := compose_uid set_id (py_str idx);
          item_set_id := set_id;
          index := idx;
          categoryid := cid;
          name := nm;
          price := pr;
          likes := lk;
          image_url := im |}.

Fixpoint norm_items (set_id : pystr) (its : list json) : result (list NormItem) :=
  match its with
  | [] => Ok []
  | it :: rest =>
      n ← norm_item set_id it;
      ns ← norm_items set_id rest;
      mret (n :: ns)
  end.

(** The body of [for o in outfits]: [None] when the outfit is skipped. *)
Definition outfit_record (split : pystr) (o : json) : result (option OutfitRecord) :=
  sid ← get_default o (py "set_id") (JStr []);
  let set_id := py_str sid in
  if negb (truthy_str set_id) then mret None
  else
    raw ← get_default o (py "items") (JList []);
    let items := if truthy raw then raw else JList [] in
    its ← first8 items;
    norm ← norm_items set_id its;
    su ← get o (py "set_url");
    da ← get o (py "date");
    de ← get o (py "desc");
    mret (Some {| source := py "polyvore";
                  split := split;
                  outfit_uid := py "polyvore:" ++ set_id;
                  set_id := set_id;
                  set_url := su;
                  date := da;
                  desc := de;
                  items := norm |}).

(** [for o in outfits]: records are written as they are produced, so the
    ones written before an exception stay in the file. *)
Fixpoint write_outfits (split : pystr) (outfits : list json) (w : Written)
  : Written * option exn :=
  match outfits with
  | [] => (w, None)
  | o :: rest =>
      match outfit_record split o with
      | Raise e => (w, Some e)
      | Ok None => write_outfits split rest w
      | Ok (Some r) =>
          write_outfits split rest
            {| lines := lines w ++ [r];
               outfits_written := outfits_written w + 1;
               items_written := items_written w + len (items r) |}
      end
  end.

(** One iteration of [for split, path in split_map.items()]. *)
Definition write_split (split path : pystr) (file : option json) (w : Written)
  : Written * option exn :=
  match file with
  | None => (w, Some (SystemExit (py "Missing split file: " ++ path)))
  | Some (JList outfits) => write_outfits split outfits w
  | Some _ => (w, Some (SystemExit (py "Unexpected JSON structure in " ++ path)))
  end.

(** The outfit part of [main] (up to the FITB questions). *)
Definition main_outfits (d : PolyvoreDir) : Written * option exn :=
  let w0 := {| lines := []; outfits_written := 0; items_written := 0 |} in
  match write_split (py "train") (py "train_no_dup.json") (train_no_dup d) w0 with
  | (w1, Some e) => (w1, Some e)
  | (w1, None) =>
      match write_split (py "val") (py "valid_no_dup.json") (valid_no_dup d) w1 with
      | (w2, Some e) => (w2, Some e)
      | (w2, None) =>
          write_split (py "test") (py "test_no_dup.json") (test_no_dup d) w2
      end
  end.

End Main.

(** ** Properties *)

Section Properties.
Variable repr_other : json -> pystr.

Lemma first8_length (v : json) (l : list json) :
  first8 v = Ok l -> (length l <= 8)%nat.
Proof.
  destruct v; simpl; intros H; inversion H; subst.
  - rewrite length_fmap, length_take. lia.
  - rewrite length_take. lia.
Qed.

Lemma norm_items_length sid its ns :
  norm_items repr_other sid its = Ok ns -> length ns = length its.
Proof.
  revert ns. induction its as [|it its IH]; simpl; intros ns H.
  - inversion H. reflexivity.
  - destruct (norm_item repr_other sid it) as [n|e]; simpl in H; [|discriminate].
    destruct (norm_items repr_other sid its) as [ns'|e]; simpl in H; [|discriminate].
    inversion H; subst. simpl. f_equal. apply IH. reflexivity.
Qed.

Lemma norm_items_Forall2 sid its ns :
  norm_items repr_other sid its = Ok ns ->
  Forall2 (fun it n => norm_item repr_other sid it = Ok n) its ns.
Proof.
  revert ns. induction its as [|it its IH]; simpl; intros ns H.
  - inversion H. constructor.
  - destruct (norm_item repr_other sid it) as [n|e] eqn:Hn; simpl in H; [|discriminate].
    destruct (norm_items repr_other sid its) as [ns'|e]; simpl in H; [|discriminate].
    inversion H; subst. constructor; [exact Hn | apply IH; reflexivity].
Qed.


(** What [outfit_record] returns, read off its successful runs. *)
Lemma outfit_record_items split o r :
  outfit_record repr_other split o = Ok (Some r) ->
  exists raw its,
    get_default o (py "items") (JList []) = Ok raw /\
    first8 (if truthy raw then raw else JList []) = Ok its /\
    norm_items repr_other (set_id r) its = Ok (items r).
Proof.
  unfold outfit_record. intros H.
  destruct (get_default o (py "set_id") (JStr [])) as [sid|e]; simpl in H; [|discriminate].
  destruct (negb (truthy_str (py_str repr_other sid))); [discriminate|].
  destruct (get_default o (py "items") (JList [])) as [raw|e]; simpl in H; [|discriminate].
  destruct (first8 (if truthy raw then raw else JList [])) as [its|e] eqn:H8;
    simpl in H; [|discriminate].
  destruct (norm_items repr_other (py_str repr_other sid) its) as [ns|e] eqn:Hn;
    simpl in H; [|discriminate].
  destruct (get o (py "set_url")) as [su|e]; simpl in H; [|discriminate].
  destruct (get o (py "date")) as [da|e]; simpl in H; [|discriminate].
  destruct (get o (py "desc")) as [de|e]; simpl in H; [|discriminate].
  inversion H; subst; simpl. exists raw, its. auto.
Qed.

Lemma outfit_record_le8 split o r :
  outfit_record repr_other split o = Ok (Some r) -> (length (items r) <= 8)%nat.
Proof.
  intros H. destruct (outfit_record_items _ _ _ H) as (raw & its & _ & H8 & Hn).
  rewrite (norm_items_length _ _ _ Hn). exact (first8_length _ _ H8).
Qed.





End Properties.

(** An outfit with nine items: the record keeps the first eight. *)
Definition nine_items : list json :=
  (fun i => JObj [(py "index", JInt i)]) <$> [1; 2; 3; 4; 5; 6; 7; 8; 9].

Definition outfit9 : list (pystr * json) :=
  [(py "set_id", JStr (py "123")); (py "items", JList nine_items)].

Section Written.
Variable repr_other : json -> pystr.









End Written.



End IngestPolyvore.

(* ===================================================================== *)
(** * tools/ml/index_polyvore_images.py                                   *)
(* ===================================================================== *)

Module IndexPolyvoreImages.

(** A file-system tree under [--images-root]: a directory lists its
    entries by name, in the order [iterdir] yields them. *)
Inductive fsnode :=
| File
| Dir (entries : list (pystr * fsnode)).

Record ImageIndexEntry := {
  item_uid : pystr;
  set_id : pystr;
  index : pystr;
  image_relpath : pystr;
  exists_ : bool
}.

(** [f"polyvore:{set_id}_{idx}"] *)
Definition item_uid_of (set_id idx : pystr) : pystr :=
  py "polyvore:" ++ set_id ++ py "_" ++ idx.

(** [p.iterdir()] *)
Definition iterdir (p : fsnode) : result (list (pystr * fsnode)) :=
  match p with
  | Dir es => Ok es
  | File => Raise NotADirectoryError
  end.

Definition is_dir (p : fsnode) : bool :=
  match p with Dir _ => true | File => false end.

(** [set_dir.glob("*.jpg")]: the names in the directory that end in [.jpg]. *)
Definition glob_jpg (set_dir : fsnode) : list pystr :=
  match set_dir with
  | Dir es => filter (fun n => endswith (py ".jpg") n = true) (fst <$> es)
  | File => []
  end.

(** The record written for one image; [prefix] is the path of [base]
    relative to [root], so that [prefix ++ set_id ++ "/" ++ jpg] is
    [jpg.relative_to(root).as_posix()]. *)
Definition entry_of (prefix set_id jpg : pystr) : ImageIndexEntry :=
  let idx := stem jpg in
  {| item_uid := item_uid_of set_id idx;
     set_id := set_id;
     index := idx;
     image_relpath := prefix ++ set_id ++ py "/" ++ jpg;
     exists_ := true |}.

(** [for jpg in sorted(set_dir.glob("*.jpg"))] *)
Definition index_set (prefix : pystr) (set_dir : pystr * fsnode) : list ImageIndexEntry :=
  entry_of prefix set_dir.1 <$> sorted id str_leb (glob_jpg set_dir.2).

(** [for set_dir in sorted(p for p in base.iterdir() if p.is_dir())] *)
Definition index_base (prefix : pystr) (entries : list (pystr * fsnode)) : list ImageIndexEntry :=
  set_dir ← sorted fst str_leb (filter (fun p => is_dir p.2 = true) entries);
  index_set prefix set_dir.

(** The entry called [name] among [es]. *)
Fixpoint child (name : pystr) (es : list (pystr * fsnode)) : option fsnode :=
  match es with
  | [] => None
  | (n, p) :: es' => if str_eqb n name then Some p else child name es'
  end.

(** [root / "images"], if it exists. *)
Definition images_child (root : fsnode) : option fsnode :=
  match root with
  | Dir es => child (py "images") es
  | File => None
  end.

(** [main]: [root] is [None] when [--images-root] does not exist,
    [root_name] is its last path component.  The result is the content of
    the output file, one entry per line. *)
Definition main (root_name : pystr) (root : option fsnode) : result (list ImageIndexEntry) :=
  match root with
  | None => Raise (SystemExit (py "Not found: " ++ root_name))
  | Some r =>
      match images_child r with
      | Some base => es ← iterdir base; mret (index_base (py "images/") es)
      | None =>
          if str_eqb root_name (py "images")
          then es ← iterdir r; mret (index_base [] es)
          else Raise (SystemExit (py "Missing expected folder: images"))
      end
  end.

(** The (collection directory, file name) pairs under [base]. *)
Definition files (entries : list (pystr * fsnode)) : list (pystr * pystr) :=
  p ← entries;
  match p.2 with
  | Dir es => (fun c => (p.1, c.1)) <$> es
  | File => []
  end.

(** ** Properties *)

Lemma elem_of_files (es : list (pystr * fsnode)) (s n : pystr) :
  (s, n) ∈ files es <->
  exists cs c, (s, Dir cs) ∈ es /\ (n, c) ∈ cs.
Proof.
  unfold files. rewrite list_elem_of_bind. split.
  - intros ([s' [|cs]] & Hin & Hp); simpl in Hin.
    + apply elem_of_nil in Hin as [].
    + apply list_elem_of_fmap in Hin as ([n' c] & Heq & Hc).
      inversion Heq; subst. exists cs, c. auto.
  - intros (cs & c & Hs & Hc). exists (s, Dir cs). split; [|exact Hs].
    simpl. apply list_elem_of_fmap. exists (n, c). auto.
Qed.

(** The entries written for [base] are the records of the [.jpg] names
    found in its sub-directories. *)
Lemma elem_of_index_base (prefix : pystr) (es : list (pystr * fsnode)) (e : ImageIndexEntry) :
  e ∈ index_base prefix es <->
  exists s n, (s, n) ∈ files es /\ endswith (py ".jpg") n = true /\ e = entry_of prefix s n.
Proof.
  unfold index_base. rewrite list_elem_of_bind. split.
  - intros ([s p] & He & Hp).
    apply elem_of_sorted, list_elem_of_filter in Hp as [Hd Hp]. simpl in Hd.
    destruct p as [|cs]; [discriminate|].
    unfold index_set in He. simpl in He.
    apply list_elem_of_fmap in He as (n & -> & Hn).
    apply elem_of_sorted, list_elem_of_filter in Hn as [Hjpg Hn].
    apply list_elem_of_fmap in Hn as ([n' c] & -> & Hc). simpl in *.
    exists s, n'. split; [|auto]. apply elem_of_files. eauto.
  - intros (s & n & Hf & Hjpg & ->).
    apply elem_of_files in Hf as (cs & c & Hs & Hc).
    exists (s, Dir cs). split.
    + unfold index_set. simpl. apply list_elem_of_fmap. exists n. split; [reflexivity|].
      apply elem_of_sorted, list_elem_of_filter. split; [exact Hjpg|].
      apply list_elem_of_fmap. exists (n, c). auto.
    + apply elem_of_sorted, list_elem_of_filter. auto.
Qed.



End IndexPolyvoreImages.

(* ===================================================================== *)
(** * tools/ml/augment_polyvore_outfits_with_images.py                    *)
(* ===================================================================== *)

Module AugmentPolyvore.

Import IndexPolyvoreImages.

(** An item reference of the outfit manifest after the join: the fields
    [ingest_polyvore.py] wrote, and the two the join may add. *)
Record AugItem := {
  ref : IngestPolyvore.NormItem;
  local_image_relpath : option pystr;
  local_image_abspath : option pystr
}.

(** An outfit line of the output: the input record with its items replaced. *)
Record AugOutfit := {
  outfit : IngestPolyvore.OutfitRecord;
  aug_items : list AugItem
}.

(** The counters [main] keeps and the percentage it prints.  The
    percentage is kept as the exact quotient. *)
Record Counters := {
  total_outfits : Z;
  total_items : Z;
  resolved : Z
}.

Definition pct (c : Counters) : Q :=
  if total_items c =? 0 then 0%Q
  else (inject_Z (resolved c) / inject_Z (total_items c) * 100)%Q.

(** [_load_item_map] on the lines of the index file. *)
Definition _load_item_map (index : list ImageIndexEntry) : gmap pystr pystr :=
  foldl (fun out e =>
           if truthy_str (item_uid e) && truthy_str (image_relpath e)
           then <[item_uid e := image_relpath e]> out
           else out)
        ∅ index.

Section Main.

(** [str((images_root / rel).resolve())] *)
Variable abspath : pystr -> pystr.

(** The body of [for it in items]. *)
Definition join_item (mapping : gmap pystr pystr) (c : Counters)
  (it : IngestPolyvore.NormItem) : Counters * AugItem :=
  let c1 := {| total_outfits := total_outfits c;
               total_items := total_items c + 1;
               resolved := resolved c |} in
  match mapping !! IngestPolyvore.item_uid it with
  | Some rel =>
      if truthy_str rel
      then ({| total_outfits := total_outfits c1;
               total_items := total_items c1;
               resolved := resolved c1 + 1 |},
            {| ref := it;
               local_image_relpath := Some rel;
               local_image_abspath := Some (abspath rel) |})
      else (c1, {| ref := it; local_image_relpath := None; local_image_abspath := None |})
  | None => (c1, {| ref := it; local_image_relpath := None; local_image_abspath := None |})
  end.

Fixpoint join_items (mapping : gmap pystr pystr) (c : Counters)
  (its : list IngestPolyvore.NormItem) : Counters * list AugItem :=
  match its with
  | [] => (c, [])
  | it :: rest =>
      let '(c1, a) := join_item mapping c it in
      let '(c2, l) := join_items mapping c1 rest in
      (c2, a :: l)
  end.

(** The body of [for line in fin]. *)
Definition join_outfit (mapping : gmap pystr pystr) (c : Counters)
  (o : IngestPolyvore.OutfitRecord) : Counters * AugOutfit :=
  let '(c1, l) := join_items mapping c (IngestPolyvore.items o) in
  ({| total_outfits := total_outfits c1 + 1;
      total_items := total_items c1;
      resolved := resolved c1 |},
   {| outfit := o; aug_items := l |}).

Fixpoint join_outfits (mapping : gmap pystr pystr) (c : Counters)
  (os : list IngestPolyvore.OutfitRecord) : Counters * list AugOutfit :=
  match os with
  | [] => (c, [])
  | o :: rest =>
      let '(c1, a) := join_outfit mapping c o in
      let '(c2, l) := join_outfits mapping c1 rest in
      (c2, a :: l)
  end.

(** [main]: the lines written to [--outfits-out] and the counters printed. *)
Definition main (images_root_exists : bool) (index : list ImageIndexEntry)
  (outfits : list IngestPolyvore.OutfitRecord) : result (list AugOutfit * Counters) :=
  if negb images_root_exists then Raise (SystemExit (py "Not found: images_root"))
  else
    let mapping := _load_item_map index in
    let '(c, out) :=
      join_outfits mapping {| total_outfits := 0; total_items := 0; resolved := 0 |} outfits in
    mret (out, c).

End Main.

(** ** Properties *)

(** Both scripts compose the identifier in the same way. *)
Lemma compose_uid_agrees (set_id idx : pystr) :
  IngestPolyvore.compose_uid set_id idx = item_uid_of set_id idx.
Proof. reflexivity. Qed.

(** Every binding of the loaded map comes from an index line, and its path
    is not empty. *)
Lemma load_item_map_lookup (index : list ImageIndexEntry) (u r : pystr) :
  _load_item_map index !! u = Some r ->
  truthy_str r = true /\
  exists e, e ∈ index /\ item_uid e = u /\ image_relpath e = r.
Proof.
  unfold _load_item_map.
  induction index as [|e index IH] using rev_ind; simpl.
  - rewrite lookup_empty. discriminate.
  - rewrite foldl_snoc.
    destruct (truthy_str (item_uid e) && truthy_str (image_relpath e)) eqn:Ht.
    + rewrite lookup_insert. case_decide as Heq.
      * intros H. inversion H; subst. apply andb_true_iff in Ht as [_ Ht].
        split; [exact Ht|]. exists e. split; [|auto].
        apply elem_of_app. right. apply list_elem_of_here.
      * intros H. destruct (IH H) as (Hr & e' & He' & Hu & Hp).
        split; [exact Hr|]. exists e'. split; [|auto].
        apply elem_of_app. left. exact He'.
    + intros H. destruct (IH H) as (Hr & e' & He' & Hu & Hp).
      split; [exact Hr|]. exists e'. split; [|auto].
      apply elem_of_app. left. exact He'.
Qed.

Section JoinFacts.
Variable abspath : pystr -> pystr.
Variable index : list ImageIndexEntry.

Lemma join_item_present (c : Counters) (it : IngestPolyvore.NormItem) (rel : pystr) :
  _load_item_map index !! IngestPolyvore.item_uid it = Some rel ->
  join_item abspath (_load_item_map index) c it =
    ({| total_outfits := total_outfits c;
        total_items := total_items c + 1;
        resolved := resolved c + 1 |},
     {| ref := it;
        local_image_relpath := Some rel;
        local_image_abspath := Some (abspath rel) |}).
Proof.
  intros H. unfold join_item. rewrite H.
  destruct (load_item_map_lookup _ _ _ H) as [-> _]. reflexivity.
Qed.

Lemma join_item_absent (c : Counters) (it : IngestPolyvore.NormItem) :
  _load_item_map index !! IngestPolyvore.item_uid it = None ->
  join_item abspath (_load_item_map index) c it =
    ({| total_outfits := total_outfits c;
        total_items := total_items c + 1;
        resolved := resolved c |},
     {| ref := it; local_image_relpath := None; local_image_abspath := None |}).
Proof. intros H. unfold join_item. rewrite H. reflexivity. Qed.

(** Items all found in the map: both counters advance by their number. *)
Lemma join_items_present (c : Counters) (its : list IngestPolyvore.NormItem) :
  (forall it, it ∈ its -> is_Some (_load_item_map index !! IngestPolyvore.item_uid it)) ->
  let r := join_items abspath (_load_item_map index) c its in
  total_outfits r.1 = total_outfits c /\
  total_items r.1 = total_items c + len its /\
  resolved r.1 = resolved c + len its /\
  Forall (fun a => is_Some (local_image_relpath a)) r.2.
Proof.
  revert c. induction its as [|it its IH]; intros c Hall; simpl.
  - unfold len. simpl. repeat split; [lia | lia | constructor].
  - destruct (Hall it (list_elem_of_here _ _)) as [rel Hrel].
    rewrite (join_item_present c it rel Hrel).
    specialize (IH {| total_outfits := total_outfits c;
                      total_items := total_items c + 1;
                      resolved := resolved c + 1 |}
                   (fun it' H => Hall it' (list_elem_of_further _ _ _ H))).
    destruct (join_items abspath (_load_item_map index) _ its) as [c2 l].
    simpl in *. destruct IH as (H1 & H2 & H3 & H4).
    unfold len in *. simpl length. repeat split; [exact H1 | lia | lia |].
    constructor; [eexists; reflexivity | exact H4].
Qed.

Lemma join_outfits_present (c : Counters) (os : list IngestPolyvore.OutfitRecord) :
  (forall o it, o ∈ os -> it ∈ IngestPolyvore.items o ->
                is_Some (_load_item_map index !! IngestPolyvore.item_uid it)) ->
  let r := join_outfits abspath (_load_item_map index) c os in
  total_items r.1 - resolved r.1 = total_items c - resolved c /\
  total_items r.1 =
    total_items c + foldr (fun o n => len (IngestPolyvore.items o) + n) 0 os /\
  Forall (fun a => Forall (fun i => is_Some (local_image_relpath i)) (aug_items a)) r.2.
Proof.
  revert c. induction os as [|o os IH]; intros c Hall; simpl.
  - repeat split; [lia | constructor].
  - unfold join_outfit.
    pose proof (join_items_present c (IngestPolyvore.items o)
                  (fun it H => Hall o it (list_elem_of_here _ _) H)) as Hi.
    destruct (join_items abspath (_load_item_map index) c (IngestPolyvore.items o))
      as [c1 l]. simpl in Hi. destruct Hi as (_ & Hi2 & Hi3 & Hi4).
    specialize (IH {| total_outfits := total_outfits c1 + 1;
                      total_items := total_items c1;
                      resolved := resolved c1 |}
                   (fun o' it Ho H => Hall o' it (list_elem_of_further _ _ _ Ho) H)).
    destruct (join_outfits abspath (_load_item_map index) _ os) as [c2 l2].
    simpl in *. destruct IH as (H1 & H2 & H3).
    repeat split; [lia | lia |]. constructor; [exact Hi4 | exact H3].
Qed.

End JoinFacts.

Lemma total_items_positive (os : list IngestPolyvore.OutfitRecord) :
  (exists o, o ∈ os /\ IngestPolyvore.items o <> []) ->
  0 < foldr (fun o n => len (IngestPolyvore.items o) + n) 0 os.
Proof.
  assert (Hnn : forall l : list IngestPolyvore.OutfitRecord,
             0 <= foldr (fun o n => len (IngestPolyvore.items o) + n) 0 l).
  { induction l; simpl; unfold len in *; lia. }
  induction os as [|o os IH]; intros (o' & Ho' & Hne); simpl.
  - apply elem_of_nil in Ho' as [].
  - apply elem_of_cons in Ho' as [->|Ho'].
    + specialize (Hnn os). destruct (IngestPolyvore.items o); [congruence|].
      unfold len in *. simpl length. lia.
    + specialize (IH (ex_intro _ o' (conj Ho' Hne))). unfold len in *. lia.
Qed.

Lemma pct_all_resolved (c : Counters) :
  0 < total_items c -> resolved c = total_items c -> (pct c == 100)%Q.
Proof.
  intros Hpos Heq. unfold pct. rewrite Heq.
  destruct (Z.eqb_spec (total_items c) 0) as [H0|H0]; [lia|].
  unfold Qdiv. rewrite Qmult_inv_r; [apply Qmult_1_l|].
  intros H. apply H0, inject_Z_injective. exact H.
Qed.

(** C1 (amended).  The identifier "polyvore:<set_id>_<index>" separates
    distinct (collection, index) pairs whenever the indices, or else the
    collection ids, contain no underscore (as numbered files and numeric
    set ids do); and when every referenced identifier is bound in the
    loaded index and at least one reference exists, the join resolves
    every reference and the reported percentage is 100. *)
Theorem item_uid_injective_and_join_complete :
  (forall s1 i1 s2 i2 : pystr,
      ((UNDERSCORE ∉ i1) /\ (UNDERSCORE ∉ i2)) \/
      ((UNDERSCORE ∉ s1) /\ (UNDERSCORE ∉ s2)) ->
      (s1, i1) <> (s2, i2) ->
      item_uid_of s1 i1 <> item_uid_of s2 i2)
  /\
  (forall (abspath : pystr -> pystr) (index : list ImageIndexEntry)
          (outfits : list IngestPolyvore.OutfitRecord),
      (forall o it, o ∈ outfits -> it ∈ IngestPolyvore.items o ->
                    is_Some (_load_item_map index !! IngestPolyvore.item_uid it)) ->
      (exists o, o ∈ outfits /\ IngestPolyvore.items o <> []) ->
      exists out c,
        main abspath true index outfits = Ok (out, c) /\
        resolved c = total_items c /\
        (pct c == 100)%Q /\
        Forall (fun a => Forall (fun i => is_Some (local_image_relpath i)) (aug_items a)) out).
Proof.
  split.
  - intros s1 i1 s2 i2 Hsep Hne Heq. apply Hne.
    unfold item_uid_of in Heq. apply app_inv_head in Heq.
    change (py "_") with [UNDERSCORE] in Heq. simpl in Heq.
    destruct Hsep as [[H1 H2]|[H1 H2]].
    + apply split_at_last in Heq as [-> ->]; auto.
    + apply split_at_first in Heq as [-> ->]; auto.
  - intros abspath index outfits Hall Hne. unfold main. simpl.
    pose proof (join_outfits_present abspath index
                  {| total_outfits := 0; total_items := 0; resolved := 0 |}
                  outfits Hall) as H.
    destruct (join_outfits abspath (_load_item_map index) _ outfits) as [c out].
    simpl in H. destruct H as (H1 & H2 & H3).
    exists out, c. split; [reflexivity|].
    assert (Hres : resolved c = total_items c) by lia.
    split; [exact Hres|]. split; [|exact H3].
    apply pct_all_resolved; [|exact Hres].
    rewrite H2. pose proof (total_items_positive outfits Hne). lia.
Qed.

(** The join of the specification's scenario: two outfits refer to
    "polyvore:123_0" and the index maps it to "images/123/0.jpg". *)
Definition item_123_0 : IngestPolyvore.NormItem :=
  {| IngestPolyvore.item_uid := py "polyvore:123_0";
     IngestPolyvore.item_set_id := py "123";
     IngestPolyvore.index := JInt 0;
     IngestPolyvore.categoryid := JInt 4;
     IngestPolyvore.name := JStr (py "shirt");
     IngestPolyvore.price := JNull;
     IngestPolyvore.likes := JNull;
     IngestPolyvore.image_url := JNull |}.

Definition outfit_with (uid : pystr) (its : list IngestPolyvore.NormItem)
  : IngestPolyvore.OutfitRecord :=
  {| IngestPolyvore.source := py "polyvore";
     IngestPolyvore.split := py "train";
     IngestPolyvore.outfit_uid := uid;
     IngestPolyvore.set_id := py "123";
     IngestPolyvore.set_url := JNull;
     IngestPolyvore.date := JNull;
     IngestPolyvore.desc := JNull;
     IngestPolyvore.items := its |}.

Definition images_123 : list (pystr * fsnode) :=
  [(py "123", Dir [(py "0.jpg", File)])].

Lemma item_uid_injective_and_join_complete_witness :
  item_uid_of (py "123") (py "0") <> item_uid_of (py "124") (py "0") /\
  exists out c,
    main (fun rel => py "/data/" ++ rel) true (index_base (py "images/") images_123)
         [outfit_with (py "polyvore:a") [item_123_0];
          outfit_with (py "polyvore:b") [item_123_0]] = Ok (out, c) /\
    resolved c = total_items c /\
    (pct c == 100)%Q /\
    Forall (fun a => Forall (fun i => is_Some (local_image_relpath i)) (aug_items a)) out.
Proof.
  split.
  - apply (proj1 item_uid_injective_and_join_complete).
    + left. split; intros H; apply list_elem_of_In in H; vm_compute in H;
        destruct H as [H|[]]; discriminate.
    + discriminate.
  - apply (proj2 item_uid_injective_and_join_complete).
    + intros o it Ho Hit.
      apply list_elem_of_In in Ho. simpl in Ho.
      destruct Ho as [<-|[<-|[]]]; apply list_elem_of_In in Hit; simpl in Hit;
        destruct Hit as [<-|[]]; exists (py "images/123/0.jpg"); vm_compute; reflexivity.
    + exists (outfit_with (py "polyvore:a") [item_123_0]).
      split; [apply list_elem_of_here | discriminate].
Defined.

(** C1 as stated fails twice: two distinct pairs compose the same
    identifier, and a run whose outfits hold no item reference (so that
    every referenced identifier is in the index) reports 0, not 100. *)
Lemma item_uid_collision_and_empty_join :
  ((py "1_2", py "3") <> (py "1", py "2_3") /\
   item_uid_of (py "1_2") (py "3") = item_uid_of (py "1") (py "2_3"))
  /\
  ((forall o it, o ∈ [outfit_with (py "polyvore:a") []] ->
                 it ∈ IngestPolyvore.items o ->
                 is_Some (_load_item_map (index_base (py "images/") images_123)
                            !! IngestPolyvore.item_uid it)) /\
   exists out c,
     main (fun rel => rel) true (index_base (py "images/") images_123)
          [outfit_with (py "polyvore:a") []] = Ok (out, c) /\
     (pct c == 0)%Q /\ ~ (pct c == 100)%Q).
Proof.
  split; [split; [discriminate | reflexivity]|].
  split.
  - intros o it Ho Hit. apply list_elem_of_In in Ho. simpl in Ho.
    destruct Ho as [<-|[]]. simpl in Hit. apply elem_of_nil in Hit as [].
  - eexists _, _. split; [vm_compute; reflexivity|].
    split; [reflexivity | discriminate].
Qed.




End AugmentPolyvore.

(* ===================================================================== *)
(** * tools/ml/convert_deepfashion2_to_coco.py                            *)
(* ===================================================================== *)

Module ConvertDeepFashion2ToCoco.

Inductive Split := train | validation | test.

Definition split_name (s : Split) : pystr :=
  match s with
  | train => py "train"
  | validation => py "validation"
  | test => py "test"
  end.

(** [img_id] is the record's ["id"]. *)
Record CanonicalImage := {
  img_id : Z;
  file_name : pystr;
  width : Z;
  height : Z
}.

(** [category_id] is the value of the source's integer ([True] counts as 1). *)
Record CanonicalAnnotation := {
  ann_id : Z;
  image_id : Z;
  category_id : Z;
  bbox : float * float * float * float;
  area : float;
  iscrowd : Z;
  segmentation : list json
}.

Record Category := {
  cat_id : Z;
  cat_name : pystr;
  supercategory : pystr
}.

(** The bundle written to [instances_<split>.json] and the lines of
    [classes.txt]. *)
Record Coco := {
  images : list CanonicalImage;
  annotations : list CanonicalAnnotation;
  categories : list Category;
  classes : list (Z * pystr)
}.

(** The [image] directory: which file names exist, and the pixel size PIL
    reads from a file, as (width, height). *)
Record ImageDir := {
  img_exists : pystr -> bool;
  pil_size : pystr -> result (Z * Z)
}.

(** The variables of [main]'s loop; [cat_id_to_name] is a dict, kept as
    its items in insertion order. *)
Record State := {
  st_images : list CanonicalImage;
  st_annotations : list CanonicalAnnotation;
  cat_id_to_name : list (Z * pystr);
  st_image_id : Z;
  st_ann_id : Z
}.

(** [k in d] and [d[k]] for the registry. *)
Fixpoint reg_lookup (cid : Z) (reg : list (Z * pystr)) : option pystr :=
  match reg with
  | [] => None
  | (c, n) :: reg' => if c =? cid then Some n else reg_lookup cid reg'
  end.

(** [d.setdefault(cid, name)] *)
Definition setdefault (cid : Z) (name : pystr) (reg : list (Z * pystr)) : list (Z * pystr) :=
  match reg_lookup cid reg with
  | Some _ => reg
  | None => reg ++ [(cid, name)]
  end.

(** [_iter_annos]: the [*.json] names of the directory, sorted. *)
Definition _iter_annos (annos_dir : list (pystr * json)) : list (pystr * json) :=
  sorted fst str_leb (filter (fun p => endswith (py ".json") p.1 = true) annos_dir).

(** The image paired with an annotation file: [.jpg], else [.png]. *)
Definition paired_image (dir : ImageDir) (img_stem : pystr) : option pystr :=
  if img_exists dir (img_stem ++ py ".jpg") then Some (img_stem ++ py ".jpg")
  else if img_exists dir (img_stem ++ py ".png") then Some (img_stem ++ py ".png")
  else None.

(** The structural test on [bounding_box]: a list of four numbers. *)
Definition bbox4 (v : json) : option (json * json * json * json) :=
  match v with
  | JList [x1; y1; x2; y2] =>
      if is_number x1 && is_number y1 && is_number x2 && is_number y2
      then Some (x1, y1, x2, y2) else None
  | _ => None
  end.

(** [w] and [h] of a box. *)
Definition box_size (x1 y1 x2 y2 : json) : result (float * float) :=
  fx2 ← to_float x2;
  fx1 ← to_float x1;
  fy2 ← to_float y2;
  fy1 ← to_float y1;
  mret (max0 (fx2 - fx1), max0 (fy2 - fy1)).

(** The body of [for k, v in anno.items()]. *)
Definition convert_item (kv : pystr * json) (st : State) : result State :=
  let '(k, v) := kv in
  if negb (startswith (py "item") k) then Ok st
  else match v with
  | JObj d =>
      match bbox4 (default JNull (dict_lookup (py "bounding_box") d)),
            isinstance_int (default JNull (dict_lookup (py "category_id") d)) with
      | Some (x1, y1, x2, y2), Some cid =>
          let reg :=
            match default JNull (dict_lookup (py "category_name") d) with
            | JStr name => setdefault cid name (cat_id_to_name st)
            | _ => cat_id_to_name st
            end in
          '(w, h) ← box_size x1 y1 x2 y2;
          if (w <=? 1)%float || (h <=? 1)%float
          then Ok {| st_images := st_images st;
                     st_annotations := st_annotations st;
                     cat_id_to_name := reg;
                     st_image_id := st_image_id st;
                     st_ann_id := st_ann_id st |}
          else
            fx1 ← to_float x1;
            fy1 ← to_float y1;
            Ok {| st_images := st_images st;
                  st_annotations := st_annotations st ++
                    [{| ann_id := st_ann_id st;
                        image_id := st_image_id st;
                        category_id := cid;
                        bbox := (fx1, fy1, w, h);
                        area := (w * h)%float;
                        iscrowd := 0;
                        segmentation := [] |}];
                  cat_id_to_name := reg;
                  st_image_id := st_image_id st;
                  st_ann_id := st_ann_id st + 1 |}
      | _, _ => Ok st
      end
  | _ => Ok st
  end.

Fixpoint convert_items (items : list (pystr * json)) (st : State) : result State :=
  match items with
  | [] => Ok st
  | kv :: rest => st' ← convert_item kv st; convert_items rest st'
  end.

(** [anno.items()] *)
Definition dict_items (anno : json) : result (list (pystr * json)) :=
  match anno with
  | JObj d => Ok d
  | _ => Raise AttributeError
  end.

(** (width, height) of the image: the document's fields when both are
    integers, the decoded file otherwise. *)
Definition image_size (dir : ImageDir) (img_name : pystr) (anno : json) : result (Z * Z) :=
  hv ← get anno (py "height");
  wv ← get anno (py "width");
  match isinstance_int hv, isinstance_int wv with
  | Some h, Some w => Ok (w, h)
  | _, _ => pil_size dir img_name
  end.

(** One annotation document whose image [img_name] was found: the image
    record, then the items. *)
Definition convert_doc (dir : ImageDir) (img_name : pystr) (anno : json) (st : State)
  : result State :=
  '(w, h) ← image_size dir img_name anno;
  let st1 := {| st_images := st_images st ++
                  [{| img_id := st_image_id st; file_name := img_name;
                      width := w; height := h |}];
                st_annotations := st_annotations st;
                cat_id_to_name := cat_id_to_name st;
                st_image_id := st_image_id st;
                st_ann_id := st_ann_id st |} in
  items ← dict_items anno;
  st2 ← convert_items items st1;
  Ok {| st_images := st_images st2;
        st_annotations := st_annotations st2;
        cat_id_to_name := cat_id_to_name st2;
        st_image_id := st_image_id st2 + 1;
        st_ann_id := st_ann_id st2 |}.

(** [for anno_path in _iter_annos(annos_dir)], with its [continue] for a
    missing image and its [break] at [--limit]. *)
Fixpoint convert_docs (dir : ImageDir) (limit : Z) (docs : list (pystr * json)) (st : State)
  : result State :=
  match docs with
  | [] => Ok st
  | (anno_name, anno) :: rest =>
      match paired_image dir (stem anno_name) with
      | None => convert_docs dir limit rest st
      | Some img_name =>
          st' ← convert_doc dir img_name anno st;
          if negb (limit =? 0) && (limit <=? st_image_id st') then Ok st'
          else convert_docs dir limit rest st'
      end
  end.

(** [sorted(cat_id_to_name.keys())], each with its name. *)
Definition sorted_classes (reg : list (Z * pystr)) : list (Z * pystr) :=
  (fun cid => (cid, default [] (reg_lookup cid reg))) <$> sorted id Z.leb (fst <$> reg).

Definition category_of (c : Z * pystr) : Category :=
  {| cat_id := c.1; cat_name := c.2; supercategory := py "clothing" |}.

(** [main]: a directory is [None] when it is missing. *)
Definition main (split : Split) (annos_dir : option (list (pystr * json)))
  (images_dir : option ImageDir) (limit : Z) : result Coco :=
  match annos_dir, images_dir with
  | None, _ =>
      match split with
      | test => Raise (SystemExit (py "Test annotations not present; cannot build COCO labels"))
      | _ => Raise (SystemExit (py "Missing annos dir"))
      end
  | Some _, None => Raise (SystemExit (py "Missing image dir"))
  | Some annos, Some dir =>
      st ← convert_docs dir limit (_iter_annos annos)
             {| st_images := []; st_annotations := []; cat_id_to_name := [];
                st_image_id := 0; st_ann_id := 0 |};
      Ok {| images := st_images st;
            annotations := st_annotations st;
            categories := category_of <$> sorted_classes (cat_id_to_name st);
            classes := sorted_classes (cat_id_to_name st) |}
  end.

(** ** Properties *)

(** An emitted annotation is well formed: its box is wider and higher
    than 1 and its area is their product. *)
Definition ann_ok (a : CanonicalAnnotation) : Prop :=
  let '(_, _, w, h) := bbox a in
  (w <=? 1)%float = false /\ (h <=? 1)%float = false /\
  (1 <? w)%float = true /\ (1 <? h)%float = true /\
  area a = (w * h)%float.

(** The structural checks of [convert_item]: an item key, a dict, a box of
    four numbers and an integer category id. *)
Definition well_formed_item (kv : pystr * json) : option (json * json * json * json * Z * json) :=
  if startswith (py "item") kv.1 then
    match kv.2 with
    | JObj d =>
        match bbox4 (default JNull (dict_lookup (py "bounding_box") d)),
              isinstance_int (default JNull (dict_lookup (py "category_id") d)) with
        | Some (x1, y1, x2, y2), Some cid =>
            Some (x1, y1, x2, y2, cid, default JNull (dict_lookup (py "category_name") d))
        | _, _ => None
        end
    | _ => None
    end
  else None.

(** The registry after an item that passed the structural checks. *)
Definition register (cid : Z) (name : json) (reg : list (Z * pystr)) : list (Z * pystr) :=
  match name with
  | JStr n => setdefault cid n reg
  | _ => reg
  end.

(** An item the degeneracy filter drops. *)
Definition degenerate (kv : pystr * json) : Prop :=
  exists x1 y1 x2 y2 cid nm w h,
    well_formed_item kv = Some (x1, y1, x2, y2, cid, nm) /\
    box_size x1 y1 x2 y2 = Ok (w, h) /\
    (w <=? 1)%float || (h <=? 1)%float = true.

Lemma box_size_max0 x1 y1 x2 y2 w h :
  box_size x1 y1 x2 y2 = Ok (w, h) -> exists dw dh, w = max0 dw /\ h = max0 dh.
Proof.
  unfold box_size. intros H.
  apply bind_Ok in H as (fx2 & _ & H). apply bind_Ok in H as (fx1 & _ & H).
  apply bind_Ok in H as (fy2 & _ & H). apply bind_Ok in H as (fy1 & _ & H).
  inversion H. eauto.
Qed.

(** [convert_item] by cases: a malformed item changes nothing; a well
    formed one registers its category and, unless degenerate, appends one
    annotation. *)
Lemma convert_item_cases (kv : pystr * json) (st st' : State) :
  convert_item kv st = Ok st' ->
  match well_formed_item kv with
  | None => st' = st
  | Some (x1, y1, x2, y2, cid, nm) =>
      exists w h,
        box_size x1 y1 x2 y2 = Ok (w, h) /\
        st_images st' = st_images st /\
        st_image_id st' = st_image_id st /\
        cat_id_to_name st' = register cid nm (cat_id_to_name st) /\
        if (w <=? 1)%float || (h <=? 1)%float
        then st_annotations st' = st_annotations st /\ st_ann_id st' = st_ann_id st
        else exists fx1 fy1,
            to_float x1 = Ok fx1 /\ to_float y1 = Ok fy1 /\
            st_ann_id st' = st_ann_id st + 1 /\
            st_annotations st' = st_annotations st ++
              [{| ann_id := st_ann_id st; image_id := st_image_id st;
                  category_id := cid; bbox := (fx1, fy1, w, h);
                  area := (w * h)%float; iscrowd := 0; segmentation := [] |}]
  end.
Proof.
  destruct kv as [k v]. unfold convert_item, well_formed_item. cbn [fst snd].
  destruct (startswith (py "item") k); cbn [negb];
    [|intros H; inversion H; reflexivity].
  destruct v as [| | | | | |d]; try (intros H; inversion H; reflexivity).
  destruct (bbox4 _) as [[[[x1 y1] x2] y2]|]; [|intros H; inversion H; reflexivity].
  destruct (isinstance_int _) as [cid|]; [|intros H; inversion H; reflexivity].
  intros H. apply bind_Ok in H as ([w h] & Hbox & H).
  exists w, h. split; [exact Hbox|].
  destruct ((w <=? 1)%float || (h <=? 1)%float).
  - inversion H; subst; cbn. unfold register. auto.
  - apply bind_Ok in H as (fx1 & Hx & H). apply bind_Ok in H as (fy1 & Hy & H).
    inversion H; subst; cbn. unfold register.
    split; [reflexivity|]. split; [reflexivity|]. split; [reflexivity|].
    exists fx1, fy1. auto.
Qed.

Lemma convert_item_ann_ok (kv : pystr * json) (st st' : State) :
  Forall ann_ok (st_annotations st) ->
  convert_item kv st = Ok st' ->
  Forall ann_ok (st_annotations st').
Proof.
  intros Hok H. apply convert_item_cases in H.
  destruct (well_formed_item kv) as [[[[[[x1 y1] x2] y2] cid] nm]|]; [|subst; exact Hok].
  destruct H as (w & h & Hbox & _ & _ & _ & H).
  destruct (box_size_max0 _ _ _ _ _ _ Hbox) as (dw & dh & -> & ->).
  destruct ((max0 dw <=? 1)%float) eqn:Hw; simpl in H.
  { destruct H as [-> _]. exact Hok. }
  destruct ((max0 dh <=? 1)%float) eqn:Hh; simpl in H.
  { destruct H as [-> _]. exact Hok. }
  destruct H as (fx1 & fy1 & _ & _ & _ & ->).
  apply Forall_app. split; [exact Hok|]. constructor; [|constructor].
  unfold ann_ok. simpl. repeat split; auto using max0_above_1.
Qed.

(** Invariants of the loop that do not look at the images or at the image
    counter are kept by the whole run as soon as one item keeps them. *)
Section Invariant.
Variable P : list CanonicalAnnotation -> list (Z * pystr) -> Prop.
Hypothesis P_item : forall kv st st',
  P (st_annotations st) (cat_id_to_name st) ->
  convert_item kv st = Ok st' ->
  P (st_annotations st') (cat_id_to_name st').

Lemma convert_items_inv items st st' :
  P (st_annotations st) (cat_id_to_name st) ->
  convert_items items st = Ok st' ->
  P (st_annotations st') (cat_id_to_name st').
Proof.
  revert st. induction items as [|kv items IH]; simpl; intros st HP H.
  - inversion H; subst. exact HP.
  - apply bind_Ok in H as (st1 & H1 & H). eauto.
Qed.

Lemma convert_doc_inv dir img_name anno st st' :
  P (st_annotations st) (cat_id_to_name st) ->
  convert_doc dir img_name anno st = Ok st' ->
  P (st_annotations st') (cat_id_to_name st').
Proof.
  unfold convert_doc. intros HP H.
  apply bind_Ok in H as ([w h] & _ & H). apply bind_Ok in H as (items & _ & H).
  apply bind_Ok in H as (st2 & H2 & H). inversion H; subst; simpl.
  eapply convert_items_inv; [|exact H2]. exact HP.
Qed.

Lemma convert_docs_inv dir limit docs st st' :
  P (st_annotations st) (cat_id_to_name st) ->
  convert_docs dir limit docs st = Ok st' ->
  P (st_annotations st') (cat_id_to_name st').
Proof.
  revert st. induction docs as [|[anno_name anno] docs IH]; simpl; intros st HP H.
  - inversion H; subst. exact HP.
  - destruct (paired_image dir (stem anno_name)) as [img_name|]; [|eauto].
    apply bind_Ok in H as (st1 & H1 & H).
    pose proof (convert_doc_inv _ _ _ _ _ HP H1) as HP1.
    destruct (negb (limit =? 0) && (limit <=? st_image_id st1)); [|eauto].
    inversion H; subst. exact HP1.
Qed.

End Invariant.

(** *** The category registry *)

Lemma reg_lookup_None (cid : Z) (reg : list (Z * pystr)) :
  reg_lookup cid reg = None <-> cid ∉ (fst <$> reg).
Proof.
  induction reg as [|[c n] reg IH]; simpl.
  - split; [intros _; apply not_elem_of_nil | reflexivity].
  - rewrite not_elem_of_cons. destruct (Z.eqb_spec c cid) as [->|Hne].
    + split; [discriminate | intros [H _]; congruence].
    + rewrite IH. split; [intros H; split; [congruence | exact H] | intros [_ H]; exact H].
Qed.

Lemma reg_lookup_app (cid : Z) (r1 r2 : list (Z * pystr)) :
  reg_lookup cid (r1 ++ r2) =
  match reg_lookup cid r1 with Some n => Some n | None => reg_lookup cid r2 end.
Proof.
  induction r1 as [|[c n] r1 IH]; simpl; [reflexivity|].
  destruct (c =? cid); [reflexivity | exact IH].
Qed.

(** First writer wins: a recorded name survives every later [setdefault]. *)
Lemma setdefault_keeps (c cid : Z) (n nm : pystr) (reg : list (Z * pystr)) :
  reg_lookup c reg = Some n -> reg_lookup c (setdefault cid nm reg) = Some n.
Proof.
  intros H. unfold setdefault. destruct (reg_lookup cid reg); [exact H|].
  rewrite reg_lookup_app, H. reflexivity.
Qed.

Lemma setdefault_NoDup (cid : Z) (nm : pystr) (reg : list (Z * pystr)) :
  NoDup (fst <$> reg) -> NoDup (fst <$> setdefault cid nm reg).
Proof.
  intros H. unfold setdefault. destruct (reg_lookup cid reg) eqn:Hl; [exact H|].
  rewrite fmap_app. apply NoDup_app. split; [exact H|]. split.
  - intros x Hx Hin. simpl in Hin. apply list_elem_of_singleton in Hin. subst x.
    apply reg_lookup_None in Hl. contradiction.
  - simpl. apply NoDup_singleton.
Qed.

Lemma register_keeps (c cid : Z) (n : pystr) (nm : json) (reg : list (Z * pystr)) :
  reg_lookup c reg = Some n -> reg_lookup c (register cid nm reg) = Some n.
Proof. destruct nm; simpl; auto using setdefault_keeps. Qed.

Lemma register_NoDup (cid : Z) (nm : json) (reg : list (Z * pystr)) :
  NoDup (fst <$> reg) -> NoDup (fst <$> register cid nm reg).
Proof. destruct nm; simpl; auto using setdefault_NoDup. Qed.

(** With distinct keys, a lookup finds exactly the items of the dict. *)
Lemma reg_lookup_Some (cid : Z) (n : pystr) (reg : list (Z * pystr)) :
  NoDup (fst <$> reg) -> reg_lookup cid reg = Some n <-> (cid, n) ∈ reg.
Proof.
  induction reg as [|[c m] reg IH]; simpl; intros Hnd.
  - split; [discriminate | intros H; apply elem_of_nil in H as []].
  - apply NoDup_cons in Hnd as [Hc Hnd]. rewrite elem_of_cons.
    destruct (Z.eqb_spec c cid) as [->|Hne].
    + split.
      * intros H. inversion H. left. reflexivity.
      * intros [H|H]; [inversion H; reflexivity|].
        exfalso. apply Hc. apply list_elem_of_fmap. exists (cid, n). auto.
    + rewrite (IH Hnd). split; [auto|]. intros [H|H]; [inversion H; congruence | exact H].
Qed.

Lemma reg_lookup_Permutation (cid : Z) (r1 r2 : list (Z * pystr)) :
  NoDup (fst <$> r1) -> r1 ≡ₚ r2 -> reg_lookup cid r1 = reg_lookup cid r2.
Proof.
  intros Hnd Hp.
  assert (Hnd2 : NoDup (fst <$> r2)) by (rewrite <- Hp; exact Hnd).
  destruct (reg_lookup cid r1) as [n|] eqn:H1.
  - symmetry. apply reg_lookup_Some; [exact Hnd2|]. rewrite <- Hp.
    apply reg_lookup_Some; assumption.
  - symmetry. apply reg_lookup_None. rewrite <- Hp. apply reg_lookup_None, H1.
Qed.

Lemma Z_leb_total (a b : Z) : (a <=? b) = true \/ (b <=? a) = true.
Proof. rewrite !Z.leb_le. lia. Qed.

Lemma sorted_keys_le (keys : list Z) : Sorted Z.le (sorted id Z.leb keys).
Proof.
  pose proof (Sorted_sorted id Z.leb Z_leb_total keys) as H.
  induction H as [|x l Hl IH Hx]; constructor; [exact IH|].
  destruct Hx as [|y l' Hxy]; constructor. apply Z.leb_le, Hxy.
Qed.

(** The sorted keys: ascending, and strictly so when they are distinct. *)
Lemma sorted_keys_ascending (keys : list Z) :
  NoDup keys -> StronglySorted Z.lt (sorted id Z.leb keys).
Proof.
  intros Hnd.
  assert (Hs : StronglySorted Z.le (sorted id Z.leb keys)).
  { apply Sorted_StronglySorted; [intros x y z; apply Z.le_trans|].
    apply sorted_keys_le. }
  assert (Hnd' : NoDup (sorted id Z.leb keys)).
  { rewrite sorted_Permutation. exact Hnd. }
  induction Hs as [|x l Hl IH Hx]; constructor.
  - apply IH. apply NoDup_cons in Hnd' as [_ H]. exact H.
  - apply NoDup_cons in Hnd' as [Hx' _].
    rewrite Forall_forall in Hx |- *. intros y Hy.
    specialize (Hx y Hy). assert (x <> y) by (intros ->; contradiction). lia.
Qed.

Lemma sorted_classes_keys (reg : list (Z * pystr)) :
  fst <$> sorted_classes reg = sorted id Z.leb (fst <$> reg).
Proof.
  unfold sorted_classes. rewrite <- list_fmap_compose. apply list_fmap_id.
Qed.

Lemma sorted_classes_Permutation (r1 r2 : list (Z * pystr)) :
  NoDup (fst <$> r1) -> r1 ≡ₚ r2 -> sorted_classes r1 = sorted_classes r2.
Proof.
  intros Hnd Hp. unfold sorted_classes.
  assert (Hk : sorted id Z.leb (fst <$> r1) = sorted id Z.leb (fst <$> r2)).
  { apply (Sorted_unique Z.le); [apply sorted_keys_le | apply sorted_keys_le |].
    rewrite !sorted_Permutation, Hp. reflexivity. }
  rewrite Hk. apply list_fmap_ext. intros i cid _.
  rewrite (reg_lookup_Permutation cid r1 r2 Hnd Hp). reflexivity.
Qed.

(** *** Items that are dropped *)

Lemma convert_item_malformed (kv : pystr * json) (st : State) :
  well_formed_item kv = None -> convert_item kv st = Ok st.
Proof.
  destruct kv as [k v]. unfold convert_item, well_formed_item. cbn [fst snd].
  destruct (startswith (py "item") k); cbn [negb]; [|reflexivity].
  destruct v as [| | | | | |d]; try reflexivity.
  destruct (bbox4 _) as [[[[x1 y1] x2] y2]|]; [|reflexivity].
  destruct (isinstance_int _) as [cid|]; [discriminate | reflexivity].
Qed.

Lemma convert_item_degenerate (kv : pystr * json) (st : State) :
  degenerate kv ->
  exists st',
    convert_item kv st = Ok st' /\
    st_images st' = st_images st /\
    st_annotations st' = st_annotations st /\
    st_image_id st' = st_image_id st /\
    st_ann_id st' = st_ann_id st.
Proof.
  intros (x1 & y1 & x2 & y2 & cid & nm & w & h & Hwf & Hbox & Hdeg).
  destruct kv as [k v]. unfold convert_item. unfold well_formed_item in Hwf.
  cbn [fst snd] in Hwf.
  destruct (startswith (py "item") k); cbn [negb]; [|discriminate].
  destruct v as [| | | | | |d]; try discriminate.
  destruct (bbox4 _) as [[[[a1 b1] a2] b2]|]; [|discriminate].
  destruct (isinstance_int _) as [c|]; [|discriminate].
  inversion Hwf; subst. rewrite Hbox. cbn. rewrite Hdeg.
  eexists. split; [reflexivity|]. cbn. auto.
Qed.

Lemma convert_items_dropped (items : list (pystr * json)) (st : State) :
  Forall (fun kv => well_formed_item kv = None \/ degenerate kv) items ->
  exists st',
    convert_items items st = Ok st' /\
    st_images st' = st_images st /\
    st_annotations st' = st_annotations st /\
    st_image_id st' = st_image_id st /\
    st_ann_id st' = st_ann_id st.
Proof.
  intros Hall. revert st. induction Hall as [|kv items Hkv _ IH]; intros st; simpl.
  - exists st. auto.
  - destruct Hkv as [Hkv|Hkv].
    + rewrite (convert_item_malformed _ _ Hkv). cbn. apply IH.
    + destruct (convert_item_degenerate kv st Hkv) as (st1 & -> & H1 & H2 & H3 & H4).
      cbn. destruct (IH st1) as (st2 & -> & H5 & H6 & H7 & H8).
      exists st2. split; [reflexivity|]. repeat split; congruence.
Qed.

(** The document of the specification's scenarios; [x2] is the right edge
    of the box. *)
Definition scenario_item (x2 : json) : json :=
  JObj [(py "bounding_box", JList [JInt 10; JInt 10; x2; JInt 60]);
        (py "category_id", JInt 3);
        (py "category_name", JStr (py "top"))].

Definition scenario_doc (x2 : json) : json :=
  JObj [(py "height", JInt 300); (py "width", JInt 200);
        (py "item1", scenario_item x2)].

(** An image directory holding [000001.jpg], which cannot be decoded. *)
Definition dir_000001 : ImageDir :=
  {| img_exists := fun n => str_eqb n (py "000001.jpg");
     pil_size := fun _ => Raise FileNotFoundError |}.

Definition st0 : State :=
  {| st_images := []; st_annotations := []; cat_id_to_name := [];
     st_image_id := 0; st_ann_id := 0 |}.

(** Every annotation of a finished run has width > 1, height > 1 and
    area = width * height. *)
Lemma main_annotations_ok split annos dir limit coco :
  main split annos dir limit = Ok coco -> Forall ann_ok (annotations coco).
Proof.
  intros H. unfold main in H.
  destruct annos as [annos|]; [|destruct split; discriminate].
  destruct dir as [dir|]; [|discriminate].
  apply bind_Ok in H as (st & Hrun & H). inversion H; subst; cbn.
  apply (convert_docs_inv (fun anns _ => Forall ann_ok anns)) in Hrun.
  - exact Hrun.
  - intros kv s s'. apply convert_item_ann_ok.
  - constructor.
Qed.

(** A document all of whose items are dropped still gets its image
    record, with no annotation added. *)
Lemma dropped_items_keep_image dir img_name d st w h :
  image_size dir img_name (JObj d) = Ok (w, h) ->
  Forall (fun kv => well_formed_item kv = None \/ degenerate kv) d ->
  exists st',
    convert_doc dir img_name (JObj d) st = Ok st' /\
    st_images st' = st_images st ++
      [{| img_id := st_image_id st; file_name := img_name;
          width := w; height := h |}] /\
    st_annotations st' = st_annotations st /\
    st_image_id st' = st_image_id st + 1.
Proof.
  intros Hsize Hall. unfold convert_doc.
  rewrite Hsize. cbn.
  destruct (convert_items_dropped d
              {| st_images := st_images st ++
                   [{| img_id := st_image_id st; file_name := img_name;
                       width := w; height := h |}];
                 st_annotations := st_annotations st;
                 cat_id_to_name := cat_id_to_name st;
                 st_image_id := st_image_id st;
                 st_ann_id := st_ann_id st |} Hall)
    as (st2 & -> & H1 & H2 & H3 & H4).
  cbn. eexists. split; [reflexivity|]. cbn.
  split; [exact H1|]. split; [exact H2|]. rewrite H3. reflexivity.
Qed.

Lemma _iter_annos_single (anno_name : pystr) (anno : json) :
  endswith (py ".json") anno_name = true ->
  _iter_annos [(anno_name, anno)] = [(anno_name, anno)].
Proof.
  intros H. unfold _iter_annos. rewrite filter_cons. cbn [fst].
  destruct (decide (endswith (py ".json") anno_name = true)); [reflexivity | contradiction].
Qed.

(** C8.  The document
    {"height":300,"width":200,"item1":{"bounding_box":[10,10,50,60],
    "category_id":3,"category_name":"top"}} with its image on disk yields
    one image record with width 200 and height 300, whatever decoding the
    file would give, and one annotation with category 3, box
    (10, 10, 40, 50) and area 2000. *)
Theorem scenario_conversion :
  forall (split : Split) (anno_name img_name : pystr) (dir : ImageDir) (limit : Z),
    endswith (py ".json") anno_name = true ->
    paired_image dir (stem anno_name) = Some img_name ->
    main split (Some [(anno_name, scenario_doc (JInt 50))]) (Some dir) limit =
    Ok {| images := [{| img_id := 0; file_name := img_name;
                        width := 200; height := 300 |}];
          annotations := [{| ann_id := 0; image_id := 0; category_id := 3;
                             bbox := (10%float, 10%float, 40%float, 50%float);
                             area := 2000%float; iscrowd := 0; segmentation := [] |}];
          categories := [{| cat_id := 3; cat_name := py "top";
                            supercategory := py "clothing" |}];
          classes := [(3, py "top")] |}.
Proof.
  intros split anno_name img_name dir limit Hjson Himg.
  unfold main. rewrite (_iter_annos_single _ _ Hjson).
  cbn [convert_docs]. rewrite Himg.
  assert (Hdoc : convert_doc dir img_name (scenario_doc (JInt 50))
                   {| st_images := []; st_annotations := []; cat_id_to_name := [];
                      st_image_id := 0; st_ann_id := 0 |} =
                 Ok {| st_images := [{| img_id := 0; file_name := img_name;
                                        width := 200; height := 300 |}];
                       st_annotations :=
                         [{| ann_id := 0; image_id := 0; category_id := 3;
                             bbox := (10%float, 10%float, 40%float, 50%float);
                             area := 2000%float; iscrowd := 0; segmentation := [] |}];
                       cat_id_to_name := [(3, py "top")];
                       st_image_id := 1; st_ann_id := 1 |}).
  { vm_compute. reflexivity. }
  rewrite Hdoc. cbn [mbind result_bind st_image_id].
  destruct (negb (limit =? 0) && (limit <=? 1)); vm_compute; reflexivity.
Qed.

Lemma scenario_conversion_witness :
  main train (Some [(py "000001.json", scenario_doc (JInt 50))]) (Some dir_000001) 0 =
  Ok {| images := [{| img_id := 0; file_name := py "000001.jpg";
                      width := 200; height := 300 |}];
        annotations := [{| ann_id := 0; image_id := 0; category_id := 3;
                           bbox := (10%float, 10%float, 40%float, 50%float);
                           area := 2000%float; iscrowd := 0; segmentation := [] |}];
        categories := [{| cat_id := 3; cat_name := py "top";
                          supercategory := py "clothing" |}];
        classes := [(3, py "top")] |}.
Proof.
  apply scenario_conversion; vm_compute; reflexivity.
Defined.

(** C6 (amended).  An item that fails the structural checks leaves the
    state, and so the registry, untouched.  An item that passes them
    registers its category name, when it is a string, by [setdefault]:
    this happens before the degeneracy filter, so also for an item the
    filter then drops.  A name once recorded for an id is kept to the end
    of the run, whatever names follow.  The emitted categories are
    strictly ascending by id, and registries with the same entries in
    different insertion orders emit the same list. *)
Theorem category_registry :
  (forall kv st, well_formed_item kv = None -> convert_item kv st = Ok st)
  /\
  (forall kv st st' x1 y1 x2 y2 cid nm,
      well_formed_item kv = Some (x1, y1, x2, y2, cid, nm) ->
      convert_item kv st = Ok st' ->
      cat_id_to_name st' = register cid nm (cat_id_to_name st))
  /\
  (forall dir limit docs st st' cid n,
      reg_lookup cid (cat_id_to_name st) = Some n ->
      convert_docs dir limit docs st = Ok st' ->
      reg_lookup cid (cat_id_to_name st') = Some n)
  /\
  (forall split annos dir limit coco,
      main split annos dir limit = Ok coco ->
      StronglySorted Z.lt (cat_id <$> categories coco))
  /\
  (forall r1 r2 : list (Z * pystr),
      NoDup (fst <$> r1) -> r1 ≡ₚ r2 -> sorted_classes r1 = sorted_classes r2).
Proof.
  split; [exact convert_item_malformed|].
  split; [|split; [|split; [|exact sorted_classes_Permutation]]].
  - intros kv st st' x1 y1 x2 y2 cid nm Hwf H.
    apply convert_item_cases in H. rewrite Hwf in H.
    destruct H as (w & h & _ & _ & _ & H & _). exact H.
  - intros dir limit docs st st' cid n Hl H.
    apply (convert_docs_inv (fun _ reg => reg_lookup cid reg = Some n)) in H;
      [exact H | | exact Hl].
    intros kv s s' Hs Hc. apply convert_item_cases in Hc.
    destruct (well_formed_item kv) as [[[[[[x1 y1] x2] y2] c] nm]|]; [|subst; exact Hs].
    destruct Hc as (w & h & _ & _ & _ & -> & _). apply register_keeps, Hs.
  - intros split annos dir limit coco H. unfold main in H.
    destruct annos as [annos|]; [|destruct split; discriminate].
    destruct dir as [dir|]; [|discriminate].
    apply bind_Ok in H as (st & Hrun & H). inversion H; subst; cbn.
    rewrite <- list_fmap_compose.
    change (cat_id ∘ category_of) with (@fst Z pystr).
    rewrite sorted_classes_keys. apply sorted_keys_ascending.
    apply (convert_docs_inv (fun _ reg => NoDup (fst <$> reg))) in Hrun;
      [exact Hrun | | constructor].
    intros kv s s' Hs Hc. apply convert_item_cases in Hc.
    destruct (well_formed_item kv) as [[[[[[x1 y1] x2] y2] c] nm]|]; [|subst; exact Hs].
    destruct Hc as (w & h & _ & _ & _ & -> & _). apply register_NoDup, Hs.
Qed.

(** The degenerate item of the scenario still registers category 3. *)
Lemma category_registry_witness :
  cat_id_to_name
    {| st_images := []; st_annotations := [];
       cat_id_to_name := [(3, py "top")];
       st_image_id := 0; st_ann_id := 0 |} =
  register 3 (JStr (py "top")) (cat_id_to_name st0).
Proof.
  apply (proj1 (proj2 category_registry)
           (py "item1", scenario_item (JFloat 10.5)) st0 _
           (JInt 10) (JInt 10) (JFloat 10.5) (JInt 60)).
  - reflexivity.
  - vm_compute. reflexivity.
Defined.

(** C6 as stated fails: the item with box [10, 10, 10.5, 60] is dropped by
    the degeneracy filter (no annotation is emitted), yet its category is
    in the emitted registry. *)
Lemma degenerate_item_registers_category :
  degenerate (py "item1", scenario_item (JFloat 10.5)) /\
  main train (Some [(py "000001.json", scenario_doc (JFloat 10.5))])
       (Some dir_000001) 0 =
  Ok {| images := [{| img_id := 0; file_name := py "000001.jpg";
                      width := 200; height := 300 |}];
        annotations := [];
        categories := [{| cat_id := 3; cat_name := py "top";
                          supercategory := py "clothing" |}];
        classes := [(3, py "top")] |}.
Proof.
  split; [|vm_compute; reflexivity].
  exists (JInt 10), (JInt 10), (JFloat 10.5), (JInt 60), 3,
    (JStr (py "top")), 0.5%float, 50%float.
  split; [reflexivity|]. split; vm_compute; reflexivity.
Qed.

End ConvertDeepFashion2ToCoco.

(* ===================================================================== *)
(** * tools/ml/ingest_deep_fashion.py                                     *)
(* ===================================================================== *)

Module IngestDeepFashion.

Record ImageRecord := {
  outfit_uid : pystr;
  image_id : pystr;
  split : pystr;
  image_relpath : pystr
}.

(** The record [_iter_images] builds for the file [name] of a split. *)
Definition image_record (split name : pystr) : ImageRecord :=
  {| outfit_uid := split ++ py ":" ++ stem name;
     image_id := stem name;
     split := split;
     image_relpath := py "images/" ++ split ++ py "/" ++ name |}.

(** [_iter_images]: [images_dir split] lists the names in
    [images/<split>], in the order the file system yields them, and is
    [None] when the directory is missing. *)
Definition _iter_images (images_dir : pystr -> option (list pystr)) : list ImageRecord :=
  split ← [py "train"; py "val"; py "test"];
  match images_dir split with
  | None => []
  | Some names =>
      image_record split <$>
        sorted id str_leb (filter (fun n => endswith (py ".jpg") n = true) names)
  end.

(** ** The header repair *)

(** The characters at which [str.splitlines] ends a line. *)
Definition is_linebreak (c : N) : bool :=
  match c with
  | 10 | 11 | 12 | 13 | 28 | 29 | 30 | 133 | 8232 | 8233 => true
  | _ => false
  end%N.

(** [s.splitlines(keepends=True)]: [cur] is the line being read.  A
    carriage return followed by a line feed does not end the line; the
    line feed does. *)
Fixpoint splitlines_go (cur s : pystr) : list pystr :=
  match s with
  | [] => match cur with [] => [] | _ => [cur] end
  | c :: s' =>
      if is_linebreak c &&
         negb ((c =? CR)%N && match s' with d :: _ => (d =? LF)%N | [] => false end)
      then (cur ++ [c]) :: splitlines_go [] s'
      else splitlines_go (cur ++ [c]) s'
  end.

Definition splitlines (s : pystr) : list pystr := splitlines_go [] s.

(** The header with its known corruption, and repaired. *)
Definition BROKEN : pystr := py "rati" ++ [LF] ++ py "ng".
Definition FIXED : pystr := py "rating".

(** The test on a header candidate: all four column names occur. *)
Definition has_markers (candidate : pystr) : bool :=
  contains (py "user_id") candidate && contains (py "image_id") candidate &&
  contains (py "rating") candidate && contains (py "occasion") candidate.

(** The [while lines and len(header_lines) < 5] loop: [Some] is the value
    it returns, [None] means it ran out. *)
Fixpoint scan (header_lines lines : list pystr) : option pystr :=
  match lines with
  | [] => None
  | l :: rest =>
      if len header_lines <? 5 then
        let header_lines' := header_lines ++ [l] in
        let candidate := concat header_lines' in
        if has_markers candidate then
          let header_one_line := replace [LF] [] (replace [CR] [] candidate) in
          Some (header_one_line ++ [LF] ++ concat rest)
        else scan header_lines' rest
      else None
  end.

(** The fast path: a first line that has "rating" and "occasion". *)
Definition header_fine (text : pystr) : bool :=
  let first_line_end := find [LF] text in
  negb (first_line_end =? -1) &&
  (let header := slice_to first_line_end text in
   contains (py "rating") header && contains (py "occasion") header).

(** [_repair_purchase_history_csv] after the decoding. *)
Definition repair_text (text : pystr) : pystr :=
  if header_fine text then text
  else
    let text := replace BROKEN FIXED text in
    let lines := splitlines text in
    match lines with
    | [] => []
    | _ => match scan [] lines with
           | Some repaired => repaired
           | None => text
           end
    end.

(** ** The manifest *)

(** A row of [purchase_history.csv] as [_load_purchase_history] returns
    it: column name to stripped value. *)
Abbreviation row := (gmap pystr pystr).

(** [r.get(k, "")]; a missing key and an empty value test alike. *)
Definition row_get (r : row) (k : pystr) : pystr := default [] (r !! k).

(** [c.isspace()] *)
Definition isspace (c : N) : bool :=
  ((9 <=? c) && (c <=? 13) || (28 <=? c) && (c <=? 32) || (c =? 133) || (c =? 160) ||
   (c =? 5760) || (8192 <=? c) && (c <=? 8202) || (c =? 8232) || (c =? 8233) ||
   (c =? 8239) || (c =? 8287) || (c =? 12288))%N.

(** [not s.strip()] *)
Definition is_blank (s : pystr) : bool := forallb isspace s.

Record ManifestRecord := {
  m_source : pystr;
  m_outfit_uid : pystr;
  m_image_id : pystr;
  m_split : pystr;
  m_image_relpath : pystr;
  m_dataset_root : pystr;
  user_ids : list pystr;
  items : list (pystr * pystr);
  seasons : list pystr;
  occasions : list pystr;
  ratings : list pystr
}.

(** The five lists [main] fills from the rows of one image. *)
Record Meta := {
  meta_user_ids : list pystr;
  meta_items : list (pystr * pystr);
  meta_seasons : list pystr;
  meta_occasions : list pystr;
  meta_ratings : list pystr
}.

Definition append_if (v : pystr) (l : list pystr) : list pystr :=
  if truthy_str v then l ++ [v] else l.

(** The body of [for m in meta_rows]. *)
Definition add_meta (acc : Meta) (m : row) : Meta :=
  let uid := row_get m (py "user_id") in
  let cat := row_get m (py "category") in
  let sty := row_get m (py "style") in
  {| meta_user_ids :=
       if truthy_str uid && negb (bool_decide (uid ∈ meta_user_ids acc))
       then meta_user_ids acc ++ [uid] else meta_user_ids acc;
     meta_items :=
       if truthy_str cat || truthy_str sty
       then meta_items acc ++ [(cat, sty)] else meta_items acc;
     meta_seasons := append_if (row_get m (py "season")) (meta_seasons acc);
     meta_occasions := append_if (row_get m (py "occasion")) (meta_occasions acc);
     meta_ratings := append_if (row_get m (py "rating")) (meta_ratings acc) |}.

(** [by_image]: the rows grouped by their [image_id], in file order. *)
Definition group_by_image (rows : list row) : gmap pystr (list row) :=
  foldl (fun by_image r =>
           let image_id := row_get r (py "image_id") in
           if truthy_str image_id
           then <[image_id := default [] (by_image !! image_id) ++ [r]]> by_image
           else by_image)
        ∅ rows.

(** The record written for one image. *)
Definition manifest_record (dataset_root : pystr) (by_image : gmap pystr (list row))
  (img : ImageRecord) : ManifestRecord :=
  let meta_rows := default [] (by_image !! image_id img) in
  let meta := foldl add_meta
                {| meta_user_ids := []; meta_items := []; meta_seasons := [];
                   meta_occasions := []; meta_ratings := [] |} meta_rows in
  {| m_source := py "deep_fashion";
     m_outfit_uid := outfit_uid img;
     m_image_id := image_id img;
     m_split := split img;
     m_image_relpath := image_relpath img;
     m_dataset_root := dataset_root;
     user_ids := meta_user_ids meta;
     items := meta_items meta;
     seasons := meta_seasons meta;
     occasions := meta_occasions meta;
     ratings := meta_ratings meta |}.

(** The sort key [(r.split, r.image_id)] and the order of such tuples. *)
Definition sort_key (r : ImageRecord) : pystr * pystr := (split r, image_id r).

Definition tuple_leb (a b : pystr * pystr) : bool :=
  match str_compare a.1 b.1 with
  | Lt => true
  | Gt => false
  | Eq => str_leb a.2 b.2
  end.

(** The lines written to [--out-manifest]: one per image, in the order of
    [sorted(images, key=lambda r: (r.split, r.image_id))]. *)
Definition write_manifest (dataset_root : pystr) (by_image : gmap pystr (list row))
  (images : list ImageRecord) : list ManifestRecord :=
  manifest_record dataset_root by_image <$> sorted sort_key tuple_leb images.

(** The dataset folder: its path, the listings of [images/<split>], and
    the bytes of [purchase_history.csv] if the file exists. *)
Record DatasetRoot := {
  root_path : pystr;
  images_dir : pystr -> option (list pystr);
  purchase_history : option (list N)
}.

Section Decoding.

(** [raw.decode("utf-8", errors="replace")] *)
Variable decode : list N -> pystr.

Definition _repair_purchase_history_csv (raw : list N) : pystr :=
  repair_text (decode raw).

(** [csv.DictReader] over the repaired text, with the normalisation of
    [_load_purchase_history] applied to each row. *)
Variable csv_rows : pystr -> list row.

Definition _load_purchase_history (root : DatasetRoot) : result (list row) :=
  match purchase_history root with
  | None => Raise FileNotFoundError
  | Some raw =>
      let repaired := _repair_purchase_history_csv raw in
      if is_blank repaired then Ok [] else Ok (csv_rows repaired)
  end.

(** [main]: the manifest lines; [None] is a dataset root that does not
    exist.  The statistics are not part of the model. *)
Definition main (root : option DatasetRoot) : result (list ManifestRecord) :=
  match root with
  | None => Raise (SystemExit (py "Dataset root not found"))
  | Some r =>
      let images := _iter_images (images_dir r) in
      match images with
      | [] => Raise (SystemExit (py "No images found under: images"))
      | _ =>
          rows ← _load_purchase_history r;
          mret (write_manifest (root_path r) (group_by_image rows) images)
      end
  end.

End Decoding.


(** ** Properties of the header repair *)



Lemma splitlines_go_nil (cur s : pystr) :
  splitlines_go cur s = [] -> cur = [] /\ s = [].
Proof.
  revert cur. induction s as [|c s IH]; intros cur; simpl.
  - destruct cur; [auto | discriminate].
  - destruct (is_linebreak c && _); [discriminate|].
    intros H. apply IH in H as [H _]. destruct cur; discriminate.
Qed.






(** Collapsing the line breaks of a candidate. *)
Definition one_line (candidate : pystr) : pystr :=
  replace [LF] [] (replace [CR] [] candidate).






(** *** The replacement of the split fragment *)






Section Repair.
Variable decode : list N -> pystr.

(** C5 (amended).  When the fast path is not taken and the bounded scan
    finds no candidate with the four markers, the function returns the
    text after the replacement of the split fragment; that is the decoded
    input itself whenever the input holds no such fragment. *)
Theorem repair_fallback :
  forall raw : list N,
    header_fine (decode raw) = false ->
    scan [] (splitlines (replace BROKEN FIXED (decode raw))) = None ->
    _repair_purchase_history_csv decode raw = replace BROKEN FIXED (decode raw) /\
    (contains BROKEN (decode raw) = false ->
     _repair_purchase_history_csv decode raw = decode raw).
Proof.
  intros raw Hfine Hscan.
  assert (H : _repair_purchase_history_csv decode raw = replace BROKEN FIXED (decode raw)).
  { unfold _repair_purchase_history_csv, repair_text. rewrite Hfine, Hscan.
    destruct (splitlines (replace BROKEN FIXED (decode raw))) eqn:Hl; [|reflexivity].
    apply splitlines_go_nil in Hl as [_ ->]. reflexivity. }
  split; [exact H|]. intros Hno. rewrite H. apply replace_absent, Hno.
Qed.


End Repair.

(** Texts are given by their code points; an ASCII file decodes to itself. *)
Definition ascii_decode (raw : list N) : pystr := raw.

(** A file without the four columns and without the split fragment. *)
Definition plain_csv : pystr := py "a,b" ++ [LF] ++ py "1,2" ++ [LF].

Lemma repair_fallback_witness :
  _repair_purchase_history_csv ascii_decode plain_csv =
    replace BROKEN FIXED (ascii_decode plain_csv) /\
  (contains BROKEN (ascii_decode plain_csv) = false ->
   _repair_purchase_history_csv ascii_decode plain_csv = ascii_decode plain_csv).
Proof.
  apply (repair_fallback ascii_decode plain_csv); vm_compute; reflexivity.
Defined.

(** C5 as stated fails: on "id,rati\nng\n1,5\n" the scan finds no
    candidate, and the text returned is "id,rating\n1,5\n", not the
    input. *)
Definition split_without_markers : pystr :=
  py "id,rati" ++ [LF] ++ py "ng" ++ [LF] ++ py "1,5" ++ [LF].

Lemma fallback_returns_replaced_text :
  header_fine (ascii_decode split_without_markers) = false /\
  scan [] (splitlines (replace BROKEN FIXED (ascii_decode split_without_markers))) = None /\
  _repair_purchase_history_csv ascii_decode split_without_markers =
    py "id,rating" ++ [LF] ++ py "1,5" ++ [LF] /\
  _repair_purchase_history_csv ascii_decode split_without_markers <>
    ascii_decode split_without_markers.
Proof.
  repeat split; try (vm_compute; reflexivity).
  vm_compute. discriminate.
Qed.






(** ** Properties of the manifest *)

Lemma tuple_leb_spec (a b : pystr * pystr) :
  tuple_leb a b = true <->
  str_compare a.1 b.1 = Lt \/ (a.1 = b.1 /\ str_leb a.2 b.2 = true).
Proof.
  unfold tuple_leb. rewrite <- str_compare_eq.
  destruct (str_compare a.1 b.1); split; intros H; auto; try discriminate;
    destruct H as [H|[H H']]; auto; discriminate.
Qed.

Lemma tuple_leb_total (a b : pystr * pystr) :
  tuple_leb a b = true \/ tuple_leb b a = true.
Proof.
  unfold tuple_leb. rewrite (str_compare_antisym a.1 b.1).
  destruct (str_compare a.1 b.1); simpl; auto using str_leb_total.
Qed.

Lemma tuple_leb_trans (a b c : pystr * pystr) :
  tuple_leb a b = true -> tuple_leb b c = true -> tuple_leb a c = true.
Proof.
  rewrite !tuple_leb_spec. intros [H1|[E1 H1]] [H2|[E2 H2]].
  - left. exact (str_compare_lt_trans _ _ _ H1 H2).
  - left. rewrite <- E2. exact H1.
  - left. rewrite E1. exact H2.
  - right. split; [congruence | exact (str_leb_trans _ _ _ H1 H2)].
Qed.

Lemma tuple_leb_antisym (a b : pystr * pystr) :
  tuple_leb a b = true -> tuple_leb b a = true -> a = b.
Proof.
  rewrite !tuple_leb_spec. destruct a as [a1 a2], b as [b1 b2]. simpl.
  intros [H1|[E1 H1]] [H2|[E2 H2]].
  - rewrite (str_compare_antisym a1 b1), H1 in H2. discriminate.
  - subst. rewrite (proj2 (str_compare_eq a1 a1) eq_refl) in H1. discriminate.
  - subst. rewrite (proj2 (str_compare_eq b1 b1) eq_refl) in H2. discriminate.
  - subst. f_equal. exact (str_leb_antisym _ _ H1 H2).
Qed.

(** The order of the manifest lines: by (split, image id). *)
Definition manifest_le (r1 r2 : ManifestRecord) : Prop :=
  tuple_leb (m_split r1, m_image_id r1) (m_split r2, m_image_id r2) = true.

(** Two listings of the same image folders, each in its own order. *)
Definition same_files (d1 d2 : pystr -> option (list pystr)) : Prop :=
  forall split,
    match d1 split, d2 split with
    | Some a, Some b => a ≡ₚ b
    | None, None => True
    | _, _ => False
    end.

Lemma _iter_images_same_files (d1 d2 : pystr -> option (list pystr)) :
  same_files d1 d2 -> _iter_images d1 = _iter_images d2.
Proof.
  intros H.
  assert (Hs : forall split,
             match d1 split with
             | None => []
             | Some names =>
                 image_record split <$>
                   sorted id str_leb (filter (fun n => endswith (py ".jpg") n = true) names)
             end =
             match d2 split with
             | None => []
             | Some names =>
                 image_record split <$>
                   sorted id str_leb (filter (fun n => endswith (py ".jpg") n = true) names)
             end).
  { intros split. specialize (H split).
    destruct (d1 split) as [a|], (d2 split) as [b|]; try contradiction; [|reflexivity].
    f_equal. apply sorted_unique.
    - exact str_leb_total.
    - exact str_leb_trans.
    - rewrite H. reflexivity.
    - intros x y _ _. apply str_leb_antisym. }
  unfold _iter_images. cbn [mbind list_bind]. rewrite !Hs. reflexivity.
Qed.

Section Manifest.
Variable decode : list N -> pystr.
Variable csv_rows : pystr -> list row.

(** C3.  The manifest lines are sorted ascending by (split, image id),
    whatever the dataset folder holds; the output does not depend on the
    order in which the file system lists the image folders; and sorting
    makes the lines independent of the order in which the image records
    are enumerated, as long as (split, image id) identifies a record. *)
Theorem manifest_sorted :
  (forall root recs,
      main decode csv_rows root = Ok recs -> StronglySorted manifest_le recs)
  /\
  (forall r1 r2 : DatasetRoot,
      root_path r1 = root_path r2 ->
      purchase_history r1 = purchase_history r2 ->
      same_files (images_dir r1) (images_dir r2) ->
      main decode csv_rows (Some r1) = main decode csv_rows (Some r2))
  /\
  (forall dataset_root by_image (imgs1 imgs2 : list ImageRecord),
      imgs1 ≡ₚ imgs2 ->
      (forall a b, a ∈ imgs1 -> b ∈ imgs1 -> sort_key a = sort_key b -> a = b) ->
      write_manifest dataset_root by_image imgs1 =
      write_manifest dataset_root by_image imgs2).
Proof.
  split; [|split].
  - intros root recs H. unfold main in H. destruct root as [r|]; [|discriminate].
    destruct (_iter_images (images_dir r)) as [|img imgs] eqn:Himgs; [discriminate|].
    apply bind_Ok in H as (rows & _ & H). inversion H. unfold write_manifest.
    apply (StronglySorted_fmap _ (key_le sort_key tuple_leb)).
    + intros x y Hxy. exact Hxy.
    + apply StronglySorted_sorted; [exact tuple_leb_total | exact tuple_leb_trans].
  - intros r1 r2 Hpath Hph Hfiles. unfold main, _load_purchase_history.
    rewrite (_iter_images_same_files _ _ Hfiles), Hpath, Hph. reflexivity.
  - intros dataset_root by_image imgs1 imgs2 Hp Hkey. unfold write_manifest.
    f_equal. apply sorted_unique.
    + exact tuple_leb_total.
    + exact tuple_leb_trans.
    + exact Hp.
    + intros x y Hx Hy H1 H2. apply Hkey; [exact Hx | exact Hy|].
      exact (tuple_leb_antisym _ _ H1 H2).
Qed.

End Manifest.

(** A dataset folder listed in two orders. *)
Definition listing_1 (split : pystr) : option (list pystr) :=
  if str_eqb split (py "train") then Some [py "000152.jpg"; py "000007.jpg"]
  else if str_eqb split (py "val") then Some [py "000152.jpg"]
  else None.

Definition listing_2 (split : pystr) : option (list pystr) :=
  if str_eqb split (py "train") then Some [py "000007.jpg"; py "000152.jpg"]
  else if str_eqb split (py "val") then Some [py "000152.jpg"]
  else None.

Definition root_with (listing : pystr -> option (list pystr)) : DatasetRoot :=
  {| root_path := py "/data/deep_fashion";
     images_dir := listing;
     purchase_history := Some plain_csv |}.

Lemma manifest_sorted_witness :
  main ascii_decode (fun _ => []) (Some (root_with listing_1)) =
  main ascii_decode (fun _ => []) (Some (root_with listing_2)).
Proof.
  apply (proj1 (proj2 (manifest_sorted ascii_decode (fun _ => [])))).
  - reflexivity.
  - reflexivity.
  - intros split. unfold root_with, listing_1, listing_2. simpl.
    destruct (str_eqb split (py "train")); [apply Permutation_swap|].
    destruct (str_eqb split (py "val")); [reflexivity | exact I].
Defined.

End IngestDeepFashion.

(* ===================================================================== *)
(** * tools/deepfashion2/check_deepfashion2_zips.py                       *)
(* ===================================================================== *)

Module CheckDeepFashion2Zips.

(** An entry of the archive's directory listing. *)
Record ZipInfo := {
  filename : pystr;
  info_is_dir : bool;
  flag_bits : Z
}.

(** An archive as [pyzipper] presents it: [infolist] is what opening the
    file and listing it gives (the listing, or the exception raised), and
    [read target password] is [zf.read(target)] after
    [zf.setpassword(password)]. *)
Record Archive := {
  infolist : result (list ZipInfo);
  read : pystr -> list N -> result (list N)
}.

Definition ZIP_NAMES : list pystr :=
  [py "train.zip"; py "validation.zip"; py "test.zip"].

Definition OPTIONAL_ZIPS : list pystr := [py "json_for_validation.zip"].

(** [except Exception] catches everything but [SystemExit]. *)
Definition is_Exception (e : exn) : bool :=
  match e with
  | SystemExit _ => false
  | _ => true
  end.

(** [type(e).__name__] *)
Definition exn_name (e : exn) : pystr :=
  match e with
  | SystemExit _ => py "SystemExit"
  | RuntimeError _ => py "RuntimeError"
  | AttributeError => py "AttributeError"
  | TypeError => py "TypeError"
  | OverflowError => py "OverflowError"
  | NotADirectoryError => py "NotADirectoryError"
  | FileNotFoundError => py "FileNotFoundError"
  | OtherException n _ => n
  end.

(** [str(e)] *)
Definition exn_str (e : exn) : pystr :=
  match e with
  | SystemExit m | RuntimeError m | OtherException _ m => m
  | _ => []
  end.

(** [_pick_encrypted_json] *)
Fixpoint _pick_encrypted_json (infos : list ZipInfo) : option pystr :=
  match infos with
  | [] => None
  | info :: rest =>
      if info_is_dir info then _pick_encrypted_json rest
      else if negb (endswith (py ".json") (filename info)) then _pick_encrypted_json rest
      else if negb (Z.land (flag_bits info) 1 =? 0) then Some (filename info)
      else _pick_encrypted_json rest
  end.

(** [data.lstrip()] on bytes: ASCII white space is dropped. *)
Fixpoint lstrip (data : list N) : list N :=
  match data with
  | c :: rest =>
      if ((c =? 32) || (9 <=? c) && (c <=? 13))%N then lstrip rest else data
  | [] => []
  end.

(** The body of the [try] in [_check_zip]. *)
Definition check_body (a : Archive) (password : list N) : result (bool * pystr) :=
  infos ← infolist a;
  match _pick_encrypted_json infos with
  | None => Ok (false, py "no encrypted json entries found (unexpected)")
  | Some target =>
      if negb (truthy_str target)
      then Ok (false, py "no encrypted json entries found (unexpected)")
      else
        data ← read a target password;
        match data with
        | [] => Ok (false, py "read 0 bytes from " ++ target)
        | _ =>
            let head := take 1 (lstrip data) in
            if negb (bool_decide (head ∈ [py "{"; py "["]))
            then Ok (false, py "decrypted bytes do not look like JSON for " ++ target)
            else Ok (true, py "ok (sample=" ++ target ++ py ")")
        end
  end.

(** [_check_zip]: [zip] is [None] when the path does not exist. *)
Definition _check_zip (zip : option Archive) (name : pystr) (password : list N)
  : result (bool * pystr) :=
  match zip with
  | None => Ok (false, py "missing: " ++ name)
  | Some a =>
      match check_body a password with
      | Ok r => Ok r
      | Raise (RuntimeError msg) => Ok (false, py "decrypt/read failed: " ++ msg)
      | Raise e =>
          if is_Exception e
          then Ok (false, py "error: " ++ exn_name e ++ py ": " ++ exn_str e)
          else Raise e
      end
  end.

Inductive verdict :=
| OK (msg : pystr)
| SKIP
| FAIL (msg : pystr).

(** A line [main] prints. *)
Inductive line :=
| NotADirectory
| Verdict (name : pystr) (v : verdict).

Definition print_line (l : line) : pystr :=
  match l with
  | NotADirectory => py "Not a directory: src"
  | Verdict name (OK msg) => name ++ py ": OK - " ++ msg
  | Verdict name SKIP => name ++ py ": SKIP (not present)"
  | Verdict name (FAIL msg) => name ++ py ": FAIL - " ++ msg
  end.

Definition is_fail (v : verdict) : bool :=
  match v with FAIL _ => true | _ => false end.

(** The body of [for name in ZIP_NAMES + OPTIONAL_ZIPS], up to the line it
    prints; [src name] is the archive at [src / name], if it exists. *)
Definition classify (src : pystr -> option Archive) (password : list N) (name : pystr)
  : result verdict :=
  '(passed, msg) ← _check_zip (src name) name password;
  if passed : bool then Ok (OK msg)
  else if bool_decide (name ∈ OPTIONAL_ZIPS) &&
          negb (match src name with Some _ => true | None => false end)
       then Ok SKIP
       else Ok (FAIL msg).

Fixpoint check_names (src : pystr -> option Archive) (password : list N)
  (names : list pystr) (printed : list line) (failed : bool)
  : result (list line * bool) :=
  match names with
  | [] => Ok (printed, failed)
  | name :: rest =>
      v ← classify src password name;
      check_names src password rest (printed ++ [Verdict name v]) (failed || is_fail v)
  end.

(** [main]: the lines printed and the exit code; [src] is [None] when
    [src_dir] is not a directory. *)
Definition main (src : option (pystr -> option Archive)) (password : list N)
  : result (list line * Z) :=
  match src with
  | None => Ok ([NotADirectory], 2)
  | Some dir =>
      '(printed, failed) ← check_names dir password (ZIP_NAMES ++ OPTIONAL_ZIPS) [] false;
      Ok (printed, if failed : bool then 3 else 0)
  end.

(** ** Properties *)





Lemma pick_truthy (infos : list ZipInfo) (target : pystr) :
  _pick_encrypted_json infos = Some target -> truthy_str target = true.
Proof.
  induction infos as [|info rest IH]; simpl; [discriminate|].
  destruct (info_is_dir info); [exact IH|].
  destruct (endswith (py ".json") (filename info)) eqn:He; simpl; [|exact IH].
  destruct (negb (Z.land (flag_bits info) 1 =? 0)); [|exact IH].
  destruct (filename info) as [|c f]; [discriminate He|].
  intros H. inversion H. reflexivity.
Qed.






(** The three required archives are absent but [train.zip], which is
    checked with a wrong password; the optional one is absent. *)
Definition train_zip : Archive :=
  {| infolist := Ok [{| filename := py "train/annos/000001.json";
                        info_is_dir := false; flag_bits := 1 |}];
     read := fun _ password =>
               if bool_decide (password = py "2019Deepfashion2**")
               then Ok (py "{}")
               else Raise (RuntimeError (py "Bad password for file")) |}.

Definition only_train (name : pystr) : option Archive :=
  if str_eqb name (py "train.zip") then Some train_zip else None.


(** What that run prints. *)
Example wrong_password_run :
  main (Some only_train) (py "wrong") =
  Ok ([Verdict (py "train.zip") (FAIL (py "decrypt/read failed: Bad password for file"));
       Verdict (py "validation.zip") (FAIL (py "missing: validation.zip"));
       Verdict (py "test.zip") (FAIL (py "missing: test.zip"));
       Verdict (py "json_for_validation.zip") SKIP], 3).
Proof. vm_compute. reflexivity. Qed.

End CheckDeepFashion2Zips.

(* ===================================================================== *)
(** * More on tools/ml/convert_deepfashion2_to_coco.py                    *)
(* ===================================================================== *)

Module ConvertIdentifiers.

Import ConvertDeepFashion2ToCoco.

(** A box that passes the filter was not clamped. *)
Lemma max0_not_clamped (d : float) :
  (max0 d <=? 1)%float = false -> max0 d = d.
Proof.
  unfold max0. destruct (0 <? d)%float; [reflexivity|].
  intros H. vm_compute in H. discriminate.
Qed.

(** What the items of one document add: annotations numbered from the
    current counter, all owned by the current image. *)
Definition appended (st st' : State) (new : list CanonicalAnnotation) : Prop :=
  st_images st' = st_images st /\
  st_image_id st' = st_image_id st /\
  st_annotations st' = st_annotations st ++ new /\
  st_ann_id st' = st_ann_id st + len new /\
  ann_id <$> new = seqZ (st_ann_id st) (len new) /\
  Forall (fun a => image_id a = st_image_id st) new.

Lemma appended_nil (st st' : State) :
  st_images st' = st_images st -> st_image_id st' = st_image_id st ->
  st_annotations st' = st_annotations st -> st_ann_id st' = st_ann_id st ->
  appended st st' [].
Proof.
  intros H1 H2 H3 H4. unfold appended, len. simpl.
  rewrite app_nil_r, Z.add_0_r, seqZ_nil by lia.
  split; [exact H1|]. split; [exact H2|]. split; [exact H3|]. split; [exact H4|].
  split; [reflexivity | constructor].
Qed.

Lemma convert_item_appended (kv : pystr * json) (st st' : State) :
  convert_item kv st = Ok st' -> exists new, appended st st' new.
Proof.
  intros H. apply convert_item_cases in H.
  destruct (well_formed_item kv) as [[[[[[x1 y1] x2] y2] cid] nm]|].
  - destruct H as (w & h & _ & Hi & Hid & _ & H).
    destruct ((w <=? 1)%float || (h <=? 1)%float).
    + destruct H as [Ha Hn]. exists []. apply appended_nil; assumption.
    + destruct H as (fx1 & fy1 & _ & _ & Hn & Ha). eexists. unfold appended, len.
      split; [exact Hi|]. split; [exact Hid|]. split; [exact Ha|]. simpl length.
      split; [exact Hn|]. split.
      * cbn [fmap list_fmap ann_id]. rewrite seqZ_cons by lia.
        rewrite seqZ_nil by lia. reflexivity.
      * repeat constructor.
  - subst st'. exists []. apply appended_nil; reflexivity.
Qed.

Lemma appended_trans (st1 st2 st3 : State) (n1 n2 : list CanonicalAnnotation) :
  appended st1 st2 n1 -> appended st2 st3 n2 -> appended st1 st3 (n1 ++ n2).
Proof.
  unfold appended, len.
  intros (Hi1 & Hid1 & Ha1 & Hn1 & Hs1 & Hf1) (Hi2 & Hid2 & Ha2 & Hn2 & Hs2 & Hf2).
  rewrite length_app, Nat2Z.inj_add.
  split; [congruence|]. split; [congruence|].
  split; [rewrite Ha2, Ha1, app_assoc; reflexivity|].
  split; [lia|]. split.
  - rewrite fmap_app, Hs1, Hs2, Hn1. symmetry. apply seqZ_app; lia.
  - apply Forall_app. split; [exact Hf1|].
    eapply Forall_impl; [exact Hf2|]. simpl. intros a Ha. congruence.
Qed.

Lemma convert_items_appended (items : list (pystr * json)) (st st' : State) :
  convert_items items st = Ok st' -> exists new, appended st st' new.
Proof.
  revert st. induction items as [|kv items IH]; simpl; intros st H.
  - inversion H; subst. exists []. apply appended_nil; reflexivity.
  - apply bind_Ok in H as (st1 & H1 & H).
    destruct (convert_item_appended _ _ _ H1) as [n1 Hn1].
    destruct (IH _ H) as [n2 Hn2].
    exists (n1 ++ n2). exact (appended_trans _ _ _ _ _ Hn1 Hn2).
Qed.

(** The state between two documents: images and annotations carry the
    identifiers 0, 1, 2, ... in order, and every annotation is owned by an
    image already emitted. *)
Definition numbered (st : State) : Prop :=
  0 <= st_image_id st /\
  0 <= st_ann_id st /\
  img_id <$> st_images st = seqZ 0 (st_image_id st) /\
  ann_id <$> st_annotations st = seqZ 0 (st_ann_id st) /\
  Forall (fun a => 0 <= image_id a < st_image_id st) (st_annotations st).

Lemma convert_doc_numbered dir img_name anno (st st' : State) :
  numbered st ->
  convert_doc dir img_name anno st = Ok st' ->
  numbered st' /\ st_image_id st' = st_image_id st + 1.
Proof.
  unfold convert_doc. intros (H0 & H1 & Hi & Ha & Hown) H.
  apply bind_Ok in H as ([w h] & _ & H). apply bind_Ok in H as (items & _ & H).
  apply bind_Ok in H as (st2 & H2 & H). inversion H; subst; clear H.
  destruct (convert_items_appended _ _ _ H2) as (new & Hi2 & Hid2 & Ha2 & Hn2 & Hs2 & Hf2).
  cbn in Hi2, Hid2, Ha2, Hn2, Hs2, Hf2. unfold numbered. cbn.
  rewrite Hi2, Hid2, Ha2, Hn2. unfold len in *.
  split; [|reflexivity]. split; [lia|]. split; [lia|]. split; [|split].
  - rewrite fmap_app, Hi. cbn. symmetry.
    rewrite (seqZ_app 0 (st_image_id st) 1) by lia.
    rewrite (seqZ_cons _ 1) by lia. rewrite (seqZ_nil _ (Z.pred 1)) by lia.
    rewrite Z.add_0_l. reflexivity.
  - rewrite fmap_app, Ha, Hs2. symmetry. apply seqZ_app; lia.
  - apply Forall_app. split.
    + eapply Forall_impl; [exact Hown|]. simpl. intros a Hr. lia.
    + eapply Forall_impl; [exact Hf2|]. simpl. intros a Hr. lia.
Qed.

(** The loop keeps the numbering, and with a positive limit it stops no
    later than at that many images. *)
Lemma convert_docs_numbered dir limit docs (st st' : State) :
  numbered st ->
  convert_docs dir limit docs st = Ok st' ->
  numbered st' /\
  (0 < limit -> st_image_id st < limit -> st_image_id st' <= limit).
Proof.
  revert st. induction docs as [|[anno_name anno] docs IH]; simpl; intros st Hn H.
  - inversion H; subst. split; [exact Hn | lia].
  - destruct (paired_image dir (stem anno_name)) as [img_name|]; [|eauto].
    apply bind_Ok in H as (st1 & H1 & H).
    destruct (convert_doc_numbered _ _ _ _ _ Hn H1) as [Hn1 Hid].
    destruct (negb (limit =? 0) && (limit <=? st_image_id st1)) eqn:Hbreak.
    + inversion H; subst. split; [exact Hn1 | lia].
    + destruct (IH _ Hn1 H) as [Hn' Hlim]. split; [exact Hn'|].
      intros Hpos Hlt. apply Hlim; [exact Hpos|].
      apply andb_false_iff in Hbreak as [Hb|Hb].
      * apply negb_false_iff, Z.eqb_eq in Hb. lia.
      * apply Z.leb_gt in Hb. exact Hb.
Qed.

Lemma main_numbered split annos dir limit coco :
  main split annos dir limit = Ok coco ->
  exists st,
    numbered st /\
    images coco = st_images st /\ annotations coco = st_annotations st /\
    (0 < limit -> st_image_id st <= limit).
Proof.
  unfold main. intros H.
  destruct annos as [annos|]; [|destruct split; discriminate].
  destruct dir as [dir|]; [|discriminate].
  apply bind_Ok in H as (st & Hrun & H). inversion H; subst; cbn.
  apply convert_docs_numbered in Hrun as [Hn Hlim].
  - exists st. repeat split; try apply Hn. intros Hpos. apply Hlim; [exact Hpos|]. cbn. lia.
  - unfold numbered. cbn. repeat split; try lia; constructor.
Qed.

(** Two documents with one item each, all images present. *)
Definition two_docs : list (pystr * json) :=
  [(py "000001.json", scenario_doc (JInt 50));
   (py "000002.json", scenario_doc (JInt 50))].

Definition dir_all : ImageDir :=
  {| img_exists := fun _ => true; pil_size := fun _ => Raise FileNotFoundError |}.

(** X1.  In the bundle of a finished run the images carry the identifiers
    0, 1, ..., n-1 in order and the annotations 0, 1, ..., m-1 in order. *)
Theorem identifiers_sequential :
  forall split annos dir limit coco,
    main split annos dir limit = Ok coco ->
    img_id <$> images coco = seqZ 0 (len (images coco)) /\
    ann_id <$> annotations coco = seqZ 0 (len (annotations coco)).
Proof.
  intros split annos dir limit coco H.
  destruct (main_numbered _ _ _ _ _ H) as (st & (H0 & H1 & Hi & Ha & _) & -> & -> & _).
  assert (Hl1 : len (st_images st) = st_image_id st).
  { apply (f_equal length) in Hi. rewrite length_fmap, length_seqZ in Hi.
    unfold len. lia. }
  assert (Hl2 : len (st_annotations st) = st_ann_id st).
  { apply (f_equal length) in Ha. rewrite length_fmap, length_seqZ in Ha.
    unfold len. lia. }
  rewrite Hl1, Hl2. auto.
Qed.

Lemma identifiers_sequential_witness :
  exists coco,
    main train (Some two_docs) (Some dir_all) 0 = Ok coco /\
    img_id <$> images coco = [0; 1] /\
    img_id <$> images coco = seqZ 0 (len (images coco)) /\
    ann_id <$> annotations coco = seqZ 0 (len (annotations coco)).
Proof.
  eexists. split; [vm_compute; reflexivity|]. split; [reflexivity|].
  apply (identifiers_sequential train (Some two_docs) (Some dir_all) 0).
  vm_compute. reflexivity.
Defined.

(** X2.  Every annotation of a finished run is owned by an image of the
    same bundle. *)
Theorem annotation_owner_emitted :
  forall split annos dir limit coco a,
    main split annos dir limit = Ok coco ->
    a ∈ annotations coco ->
    exists im, im ∈ images coco /\ img_id im = image_id a.
Proof.
  intros split annos dir limit coco a H Ha.
  destruct (main_numbered _ _ _ _ _ H) as (st & (H0 & H1 & Hi & _ & Hown) & -> & Hanns & _).
  rewrite Hanns in Ha. rewrite Forall_forall in Hown. specialize (Hown a Ha).
  assert (Hin : image_id a ∈ img_id <$> st_images st).
  { rewrite Hi. apply elem_of_seqZ. lia. }
  apply list_elem_of_fmap in Hin as (im & Heq & Him). eauto.
Qed.

Definition second_annotation : CanonicalAnnotation :=
  {| ann_id := 1; image_id := 1; category_id := 3;
     bbox := (10%float, 10%float, 40%float, 50%float);
     area := 2000%float; iscrowd := 0; segmentation := [] |}.

Lemma annotation_owner_emitted_witness :
  exists coco,
    main train (Some two_docs) (Some dir_all) 0 = Ok coco /\
    second_annotation ∈ annotations coco /\
    exists im, im ∈ images coco /\ img_id im = image_id second_annotation.
Proof.
  eexists. split; [vm_compute; reflexivity|].
  split; [apply list_elem_of_further, list_elem_of_here|].
  apply (annotation_owner_emitted train (Some two_docs) (Some dir_all) 0).
  - vm_compute. reflexivity.
  - apply list_elem_of_further, list_elem_of_here.
Defined.

(** X3.  With a positive [--limit] the bundle holds at most that many
    images. *)
Theorem limit_caps_images :
  forall split annos dir limit coco,
    0 < limit ->
    main split annos dir limit = Ok coco ->
    len (images coco) <= limit.
Proof.
  intros split annos dir limit coco Hpos H.
  destruct (main_numbered _ _ _ _ _ H) as (st & (H0 & _ & Hi & _ & _) & -> & _ & Hlim).
  apply (f_equal length) in Hi. rewrite length_fmap, length_seqZ in Hi.
  specialize (Hlim Hpos). unfold len. lia.
Qed.

Lemma limit_caps_images_witness :
  exists coco,
    main train (Some two_docs) (Some dir_all) 1 = Ok coco /\
    len (images coco) <= 1.
Proof.
  eexists. split; [vm_compute; reflexivity|].
  apply (limit_caps_images train (Some two_docs) (Some dir_all) 1); [lia|].
  vm_compute. reflexivity.
Defined.

(** X4.  An annotation that is emitted has the box of its item unclamped:
    (x1, y1, x2 - x1, y2 - y1) in binary64, with their product as area. *)
Theorem emitted_box_geometry :
  forall kv st st' x1 y1 x2 y2 cid nm,
    well_formed_item kv = Some (x1, y1, x2, y2, cid, nm) ->
    convert_item kv st = Ok st' ->
    st_annotations st' <> st_annotations st ->
    exists fx1 fy1 fx2 fy2,
      to_float x1 = Ok fx1 /\ to_float y1 = Ok fy1 /\
      to_float x2 = Ok fx2 /\ to_float y2 = Ok fy2 /\
      st_annotations st' = st_annotations st ++
        [{| ann_id := st_ann_id st; image_id := st_image_id st; category_id := cid;
            bbox := (fx1, fy1, (fx2 - fx1)%float, (fy2 - fy1)%float);
            area := ((fx2 - fx1) * (fy2 - fy1))%float;
            iscrowd := 0; segmentation := [] |}].
Proof.
  intros kv st st' x1 y1 x2 y2 cid nm Hwf H Hne.
  apply convert_item_cases in H. rewrite Hwf in H.
  destruct H as (w & h & Hbox & _ & _ & _ & H).
  unfold box_size in Hbox.
  apply bind_Ok in Hbox as (fx2 & Hx2 & Hbox). apply bind_Ok in Hbox as (fx1 & Hx1 & Hbox).
  apply bind_Ok in Hbox as (fy2 & Hy2 & Hbox). apply bind_Ok in Hbox as (fy1 & Hy1 & Hbox).
  inversion Hbox; subst w h; clear Hbox.
  destruct ((max0 (fx2 - fx1) <=? 1)%float) eqn:Hw; simpl in H.
  { destruct H as [H _]. contradiction. }
  destruct ((max0 (fy2 - fy1) <=? 1)%float) eqn:Hh; simpl in H.
  { destruct H as [H _]. contradiction. }
  destruct H as (gx1 & gy1 & Hgx & Hgy & _ & Ha).
  rewrite Hx1 in Hgx. rewrite Hy1 in Hgy. inversion Hgx; inversion Hgy; subst gx1 gy1.
  rewrite (max0_not_clamped _ Hw), (max0_not_clamped _ Hh) in Ha.
  exists fx1, fy1, fx2, fy2. auto 10.
Qed.

Lemma emitted_box_geometry_witness :
  exists fx1 fy1 fx2 fy2,
    to_float (JInt 10) = Ok fx1 /\ to_float (JInt 10) = Ok fy1 /\
    to_float (JInt 50) = Ok fx2 /\ to_float (JInt 60) = Ok fy2 /\
    [{| ann_id := 0; image_id := 0; category_id := 3;
        bbox := (10%float, 10%float, 40%float, 50%float);
        area := 2000%float; iscrowd := 0; segmentation := [] |}] =
    st_annotations st0 ++
      [{| ann_id := st_ann_id st0; image_id := st_image_id st0; category_id := 3;
          bbox := (fx1, fy1, (fx2 - fx1)%float, (fy2 - fy1)%float);
          area := ((fx2 - fx1) * (fy2 - fy1))%float;
          iscrowd := 0; segmentation := [] |}].
Proof.
  apply (emitted_box_geometry (py "item1", scenario_item (JInt 50)) st0
           {| st_images := [];
              st_annotations :=
                [{| ann_id := 0; image_id := 0; category_id := 3;
                    bbox := (10%float, 10%float, 40%float, 50%float);
                    area := 2000%float; iscrowd := 0; segmentation := [] |}];
              cat_id_to_name := [(3, py "top")];
              st_image_id := 0; st_ann_id := 1 |}
           (JInt 10) (JInt 10) (JInt 50) (JInt 60) 3 (JStr (py "top"))).
  - reflexivity.
  - vm_compute. reflexivity.
  - discriminate.
Defined.

End ConvertIdentifiers.

(* ===================================================================== *)
(** * More on tools/deepfashion2/check_deepfashion2_zips.py               *)
(* ===================================================================== *)

Module ZipVerdicts.

Import CheckDeepFashion2Zips.

(** An entry the checker may sample: a file named [*.json] whose
    general-purpose flags have bit 0 (encryption) set. *)
Definition encrypted_json (info : ZipInfo) : bool :=
  negb (info_is_dir info) && endswith (py ".json") (filename info) &&
  Z.odd (flag_bits info).

Lemma land_1_odd (x : Z) : negb (Z.land x 1 =? 0) = Z.odd x.
Proof.
  change 1 with (Z.ones 1). rewrite Z.land_ones by lia.
  change (2 ^ 1) with 2. rewrite Zmod_odd.
  destruct (Z.odd x); reflexivity.
Qed.

(** X5.  [_pick_encrypted_json] returns the name of the first entry, in
    listing order, that is an encrypted [.json] file, and nothing when the
    listing has none. *)
Theorem pick_first_encrypted_json :
  forall infos : list ZipInfo,
    _pick_encrypted_json infos =
    filename <$> head (filter (fun info => encrypted_json info = true) infos).
Proof.
  induction infos as [|info rest IH]; [reflexivity|].
  cbn [_pick_encrypted_json]. rewrite filter_cons.
  destruct (decide (encrypted_json info = true)) as [He|He];
    unfold encrypted_json in He; rewrite <- (land_1_odd (flag_bits info)) in He.
  - apply andb_true_iff in He as [He H3]. apply andb_true_iff in He as [H1 H2].
    apply negb_true_iff in H1. rewrite H1, H2, H3. reflexivity.
  - rewrite IH.
    destruct (info_is_dir info); [reflexivity|].
    destruct (endswith (py ".json") (filename info)); [|reflexivity].
    destruct (negb (Z.land (flag_bits info) 1 =? 0)); [|reflexivity].
    exfalso. apply He. reflexivity.
Qed.

(** X6.  A check passes exactly when the archive exists, it lists an
    encrypted [.json] entry, reading that entry with the password
    succeeds, and the first byte after leading white space is an opening
    brace or bracket; the message names the sampled entry. *)
Theorem check_passes_iff :
  forall (zip : option Archive) (name : pystr) (password : list N) (msg : pystr),
    _check_zip zip name password = Ok (true, msg) <->
    exists a infos target data,
      zip = Some a /\
      infolist a = Ok infos /\
      _pick_encrypted_json infos = Some target /\
      read a target password = Ok data /\
      take 1 (lstrip data) ∈ [py "{"; py "["] /\
      msg = py "ok (sample=" ++ target ++ py ")".
Proof.
  intros zip name password msg. split.
  - destruct zip as [a|]; cbn [_check_zip]; [|discriminate].
    unfold check_body.
    destruct (infolist a) as [infos|e] eqn:Hi; cbn [mbind result_bind].
    2: { destruct e; cbn [is_Exception]; discriminate. }
    destruct (_pick_encrypted_json infos) as [target|] eqn:Hp; [|discriminate].
    rewrite (pick_truthy _ _ Hp). cbn [negb].
    destruct (read a target password) as [data|e] eqn:Hr; cbn [mbind result_bind].
    2: { destruct e; cbn [is_Exception]; discriminate. }
    destruct data as [|c data]; [discriminate|].
    destruct (bool_decide (take 1 (lstrip (c :: data)) ∈ [py "{"; py "["])) eqn:Hh;
      cbn [negb]; [|discriminate].
    intros H. inversion H. apply bool_decide_eq_true_1 in Hh.
    exists a, infos, target, (c :: data). auto 10.
  - intros (a & infos & target & data & -> & Hi & Hp & Hr & Hh & ->).
    cbn [_check_zip]. unfold check_body. rewrite Hi. cbn [mbind result_bind].
    rewrite Hp, (pick_truthy _ _ Hp). cbn [negb]. rewrite Hr. cbn [mbind result_bind].
    destruct data as [|c data].
    + exfalso. apply list_elem_of_In in Hh. vm_compute in Hh.
      destruct Hh as [Hh|[Hh|[]]]; discriminate.
    + rewrite (bool_decide_eq_true_2 _ Hh). reflexivity.
Qed.

Lemma check_passes_iff_witness :
  _check_zip (Some train_zip) (py "train.zip") (py "2019Deepfashion2**") =
    Ok (true, py "ok (sample=train/annos/000001.json)").
Proof.
  apply (proj2 (check_passes_iff _ _ _ _)).
  exists train_zip, [{| filename := py "train/annos/000001.json";
                        info_is_dir := false; flag_bits := 1 |}],
    (py "train/annos/000001.json"), (py "{}").
  repeat split; try reflexivity. apply list_elem_of_here.
Defined.

(** X7.  An archive is reported as skipped only if it is one of the
    optional archives and it is absent: a required archive, or an optional
    one that exists but cannot be read, is never skipped. *)
Theorem skip_only_absent_optional :
  forall src password name,
    classify src password name = Ok SKIP ->
    name ∈ OPTIONAL_ZIPS /\ src name = None.
Proof.
  intros src password name. unfold classify.
  destruct (_check_zip (src name) name password) as [[passed msg]|e]; cbn;
    [|discriminate].
  destruct passed; [discriminate|].
  destruct (bool_decide (name ∈ OPTIONAL_ZIPS)) eqn:Hopt; cbn [andb]; [|discriminate].
  destruct (src name); cbn [negb]; [discriminate|].
  intros _. split; [exact (bool_decide_eq_true_1 _ Hopt) | reflexivity].
Qed.

Lemma skip_only_absent_optional_witness :
  py "json_for_validation.zip" ∈ OPTIONAL_ZIPS /\
  only_train (py "json_for_validation.zip") = None.
Proof.
  apply (skip_only_absent_optional only_train (py "wrong")).
  vm_compute. reflexivity.
Defined.

End ZipVerdicts.

(* ===================================================================== *)
(** * More on the Polyvore image index and the join                       *)
(* ===================================================================== *)

Module IndexAndJoin.

Import IndexPolyvoreImages AugmentPolyvore.

(** ** [index_polyvore_images.py] *)

Lemma rfind_from_absent (c : N) (s : pystr) (i last : Z) :
  c ∉ s -> rfind_from c s i last = last.
Proof.
  revert i last. induction s as [|a s IH]; intros i last Hc; [reflexivity|].
  apply not_elem_of_cons in Hc as [Hne Hc]. cbn [rfind_from].
  destruct (N.eqb_spec a c) as [->|_]; [congruence|]. apply IH, Hc.
Qed.

Lemma rfind_from_last (c : N) (a b : pystr) (i last : Z) :
  c ∉ b -> rfind_from c (a ++ c :: b) i last = i + len a.
Proof.
  intros Hb. revert i last. induction a as [|x a IH]; intros i last.
  - cbn [app rfind_from]. rewrite N.eqb_refl, rfind_from_absent by exact Hb.
    unfold len. simpl. lia.
  - cbn [app rfind_from]. rewrite IH. unfold len. simpl length. lia.
Qed.

(** The stem of a name ending in [.jpg] is the name without that suffix,
    except for the name [.jpg] itself, which is its own stem. *)
Lemma stem_of_jpg :
  forall t : pystr,
    stem (t ++ py ".jpg") = match t with [] => py ".jpg" | _ => t end.
Proof.
  intros t. unfold stem, rfind.
  change (t ++ py ".jpg") with (t ++ DOT :: py "jpg").
  rewrite rfind_from_last.
  2: { intros H. apply list_elem_of_In in H. vm_compute in H.
       repeat (destruct H as [H|H]; [discriminate|]). exact H. }
  destruct t as [|c t]; [reflexivity|].
  assert (Hlen : len ((c :: t) ++ DOT :: py "jpg") = len (c :: t) + 4).
  { unfold len. rewrite length_app. simpl length. lia. }
  rewrite Hlen, Z.add_0_l.
  assert (H0 : (0 <? len (c :: t)) = true) by (apply Z.ltb_lt; unfold len; simpl; lia).
  assert (H1 : (len (c :: t) <? len (c :: t) + 4 - 1) = true) by (apply Z.ltb_lt; lia).
  rewrite H0, H1. cbn [andb]. unfold slice_to, len. rewrite Nat2Z.id.
  apply take_app_length.
Qed.

(** X8.  In every index entry the path is rebuilt from the collection and
    the index: it is "<prefix><set_id>/<index>.jpg", or
    "<prefix><set_id>/.jpg" for the file named [.jpg], whose index is
    ".jpg". *)
Theorem entry_path_from_index :
  forall prefix es e,
    e ∈ index_base prefix es ->
    item_uid e = item_uid_of (set_id e) (index e) /\
    (image_relpath e = prefix ++ set_id e ++ py "/" ++ index e ++ py ".jpg" \/
     (index e = py ".jpg" /\ image_relpath e = prefix ++ set_id e ++ py "/" ++ py ".jpg")).
Proof.
  intros prefix es e He.
  apply elem_of_index_base in He as (s & n & _ & Hjpg & ->).
  split; [reflexivity|].
  apply endswith_spec in Hjpg as [t ->]. unfold entry_of. cbn [image_relpath index set_id].
  rewrite stem_of_jpg. destruct t as [|c t]; [right; split; reflexivity | left; reflexivity].
Qed.

Lemma entry_path_from_index_witness :
  exists e,
    e ∈ index_base (py "images/") images_123 /\
    item_uid e = py "polyvore:123_0" /\
    image_relpath e = py "images/123/0.jpg".
Proof.
  exists (entry_of (py "images/") (py "123") (py "0.jpg")).
  assert (He : entry_of (py "images/") (py "123") (py "0.jpg")
               ∈ index_base (py "images/") images_123) by apply list_elem_of_here.
  split; [exact He|].
  destruct (entry_path_from_index _ _ _ He) as [Hu _]. split; [exact Hu | reflexivity].
Defined.

(** The same directory tree listed in another order: the entries of the
    base directory are permuted, and so are the names inside each
    collection directory. *)
Definition same_node (p q : pystr * fsnode) : Prop :=
  p.1 = q.1 /\
  match p.2, q.2 with
  | Dir a, Dir b => fst <$> a ≡ₚ fst <$> b
  | File, File => True
  | _, _ => False
  end.

Definition relisted (es1 es2 : list (pystr * fsnode)) : Prop :=
  exists es, es1 ≡ₚ es /\ Forall2 same_node es es2.

Lemma insert_sorted_Forall2 {A} (R : A -> A -> Prop) (key : A -> pystr) x y l1 l2 :
  (forall a b, R a b -> key a = key b) ->
  R x y -> Forall2 R l1 l2 ->
  Forall2 R (insert_sorted key str_leb x l1) (insert_sorted key str_leb y l2).
Proof.
  intros Hkey Hxy Hl. induction Hl as [|a b l1 l2 Hab Hl IH]; simpl.
  - repeat constructor. exact Hxy.
  - rewrite (Hkey _ _ Hxy), (Hkey _ _ Hab).
    destruct (str_leb (key y) (key b)); repeat constructor; assumption.
Qed.

Lemma sorted_Forall2 {A} (R : A -> A -> Prop) (key : A -> pystr) l1 l2 :
  (forall a b, R a b -> key a = key b) ->
  Forall2 R l1 l2 ->
  Forall2 R (sorted key str_leb l1) (sorted key str_leb l2).
Proof.
  intros Hkey Hl. induction Hl; simpl; [constructor|].
  apply insert_sorted_Forall2; assumption.
Qed.

Lemma index_set_same_node prefix p q :
  same_node p q -> index_set prefix p = index_set prefix q.
Proof.
  destruct p as [n1 [|a]], q as [n2 [|b]]; intros [Hn Hc]; simpl in *;
    try contradiction; subst n2; [reflexivity|].
  unfold index_set. cbn [fst snd glob_jpg]. f_equal.
  apply sorted_unique.
  - exact str_leb_total.
  - exact str_leb_trans.
  - rewrite Hc. reflexivity.
  - intros x y _ _. apply str_leb_antisym.
Qed.

Lemma bind_Forall2_eq {A B} (R : A -> A -> Prop) (f : A -> list B) l1 l2 :
  (forall a b, R a b -> f a = f b) -> Forall2 R l1 l2 -> l1 ≫= f = l2 ≫= f.
Proof.
  intros Hf Hl. induction Hl as [|a b l1 l2 Hab _ IH]; [reflexivity|].
  cbn [mbind list_bind]. cbn [mbind list_bind] in IH. rewrite (Hf _ _ Hab), IH.
  reflexivity.
Qed.

Lemma filter_dirs_Forall2 es1 es2 :
  Forall2 same_node es1 es2 ->
  Forall2 same_node (filter (fun p => is_dir p.2 = true) es1)
                    (filter (fun p => is_dir p.2 = true) es2).
Proof.
  induction 1 as [|p q es1 es2 Hpq _ IH]; [constructor|].
  rewrite !filter_cons.
  assert (Hd : is_dir p.2 = is_dir q.2).
  { destruct Hpq as [_ H]. destruct p.2, q.2; try contradiction; reflexivity. }
  rewrite Hd. destruct (decide (is_dir q.2 = true)); [constructor|]; assumption.
Qed.

(** X9.  The index does not depend on the order in which the file system
    lists the directories and the files: two listings of the same tree,
    with distinct names in the base directory, give the same index. *)
Theorem index_listing_order :
  forall prefix es1 es2,
    NoDup (fst <$> es1) ->
    relisted es1 es2 ->
    index_base prefix es1 = index_base prefix es2.
Proof.
  intros prefix es1 es2 Hnd (es & Hp & Hall). unfold index_base.
  assert (H1 : sorted fst str_leb (filter (fun p => is_dir p.2 = true) es1) =
               sorted fst str_leb (filter (fun p => is_dir p.2 = true) es)).
  { apply sorted_unique.
    - exact str_leb_total.
    - exact str_leb_trans.
    - rewrite Hp. reflexivity.
    - intros x y Hx Hy Hxy Hyx.
      apply list_elem_of_filter in Hx as [_ Hx]. apply list_elem_of_filter in Hy as [_ Hy].
      pose proof (str_leb_antisym _ _ Hxy Hyx) as Hk.
      apply list_elem_of_lookup in Hx as [i Hi]. apply list_elem_of_lookup in Hy as [j Hj].
      assert (i = j).
      { apply (NoDup_lookup _ i j x.1 Hnd); rewrite list_lookup_fmap.
        - rewrite Hi. reflexivity.
        - rewrite Hj, Hk. reflexivity. }
      subst j. congruence. }
  rewrite H1.
  apply (bind_Forall2_eq same_node); [apply index_set_same_node|].
  apply sorted_Forall2; [intros a b [H _]; exact H|].
  apply filter_dirs_Forall2, Hall.
Qed.

Definition images_two_sets : list (pystr * fsnode) :=
  [(py "124", Dir [(py "1.jpg", File); (py "0.jpg", File)]);
   (py "123", Dir [(py "0.jpg", File)])].

Definition images_two_sets_relisted : list (pystr * fsnode) :=
  [(py "123", Dir [(py "0.jpg", File)]);
   (py "124", Dir [(py "0.jpg", File); (py "1.jpg", File)])].

Lemma index_listing_order_witness :
  index_base (py "images/") images_two_sets =
  index_base (py "images/") images_two_sets_relisted.
Proof.
  apply index_listing_order.
  - repeat constructor; intros H; apply list_elem_of_In in H; vm_compute in H;
      repeat (destruct H as [H|H]; [discriminate|]); exact H.
  - exists [(py "123", Dir [(py "0.jpg", File)]);
            (py "124", Dir [(py "1.jpg", File); (py "0.jpg", File)])].
    split; [apply Permutation_swap|].
    repeat constructor.
Defined.

End IndexAndJoin.

(* ===================================================================== *)
(** * The join: what it binds, what it keeps, what it counts              *)
(* ===================================================================== *)

Module JoinShape.

Import IndexPolyvoreImages AugmentPolyvore.

(** The index lines that bind identifier [u]: both fields are non-empty. *)
Definition binds (u : pystr) (e : ImageIndexEntry) : Prop :=
  item_uid e = u /\ truthy_str (item_uid e) && truthy_str (image_relpath e) = true.

#[local] Instance binds_dec u e : Decision (binds u e).
Proof. unfold binds. apply _. Defined.

(** X10.  The loaded map binds an identifier to the path of the last index
    line that carries it with both fields non-empty, and leaves it unbound
    when there is no such line. *)
Theorem load_item_map_last_wins :
  forall (index : list ImageIndexEntry) (u : pystr),
    _load_item_map index !! u = image_relpath <$> last (filter (binds u) index).
Proof.
  intros index u. unfold _load_item_map.
  induction index as [|e index IH] using rev_ind; [reflexivity|].
  rewrite foldl_snoc, filter_app, filter_cons, filter_nil.
  destruct (decide (binds u e)) as [[Hu Hv]|Hn].
  - rewrite Hv, last_snoc. subst u. rewrite lookup_insert.
    case_decide; [reflexivity | congruence].
  - rewrite app_nil_r.
    destruct (truthy_str (item_uid e) && truthy_str (image_relpath e)) eqn:Hv;
      [|exact IH].
    rewrite lookup_insert. case_decide as Heq; [|exact IH].
    exfalso. apply Hn. split; [exact Heq | exact Hv].
Qed.

Definition has_path (a : AugItem) : Prop := is_Some (local_image_relpath a).

#[local] Instance has_path_dec a : Decision (has_path a).
Proof. unfold has_path. apply _. Defined.

(** The number of items of the output that carry a local path. *)
Definition with_path (out : list AugOutfit) : Z :=
  foldr (fun a n => len (filter has_path (aug_items a)) + n) 0 out.

Section Shape.
Variable abspath : pystr -> pystr.
Variable index : list ImageIndexEntry.

(** What the join does to one item reference. *)
Definition joined (a : AugItem) : Prop :=
  local_image_relpath a = _load_item_map index !! IngestPolyvore.item_uid (ref a) /\
  local_image_abspath a = abspath <$> local_image_relpath a.

Lemma join_items_shape (c : Counters) (its : list IngestPolyvore.NormItem) :
  let r := join_items abspath (_load_item_map index) c its in
  ref <$> r.2 = its /\
  Forall joined r.2 /\
  total_outfits r.1 = total_outfits c /\
  total_items r.1 = total_items c + len its /\
  resolved r.1 = resolved c + len (filter has_path r.2).
Proof.
  revert c. induction its as [|it its IH]; intros c; cbn [join_items].
  - cbn. unfold len. cbn. repeat split; [constructor | lia | lia].
  - destruct (_load_item_map index !! IngestPolyvore.item_uid it) as [rel|] eqn:Hl.
    + rewrite (join_item_present abspath index c it rel Hl).
      specialize (IH {| total_outfits := total_outfits c;
                        total_items := total_items c + 1;
                        resolved := resolved c + 1 |}).
      destruct (join_items abspath (_load_item_map index) _ its) as [c2 l].
      cbn [fst snd total_outfits total_items resolved] in *.
      destruct IH as (H1 & H2 & H3 & H4 & H5).
      rewrite fmap_cons, filter_cons. cbn [ref].
      destruct (decide (has_path _)) as [_|Hn].
      2: { exfalso. apply Hn. eexists. reflexivity. }
      unfold len in *. cbn [length]. repeat split; [congruence | | lia | lia | lia].
      constructor; [|exact H2]. split; cbn; [congruence | reflexivity].
    + rewrite (join_item_absent abspath index c it Hl).
      specialize (IH {| total_outfits := total_outfits c;
                        total_items := total_items c + 1;
                        resolved := resolved c |}).
      destruct (join_items abspath (_load_item_map index) _ its) as [c2 l].
      cbn [fst snd total_outfits total_items resolved] in *.
      destruct IH as (H1 & H2 & H3 & H4 & H5).
      rewrite fmap_cons, filter_cons. cbn [ref].
      destruct (decide (has_path _)) as [[x Hx]|_]; [discriminate|].
      unfold len in *. cbn [length]. repeat split; [congruence | | lia | lia | lia].
      constructor; [|exact H2]. split; cbn; [congruence | reflexivity].
Qed.

Lemma join_outfits_shape (c : Counters) (os : list IngestPolyvore.OutfitRecord) :
  let r := join_outfits abspath (_load_item_map index) c os in
  outfit <$> r.2 = os /\
  Forall (fun a => ref <$> aug_items a = IngestPolyvore.items (outfit a) /\
                   Forall joined (aug_items a)) r.2 /\
  total_outfits r.1 = total_outfits c + len os /\
  total_items r.1 =
    total_items c + foldr (fun o n => len (IngestPolyvore.items o) + n) 0 os /\
  resolved r.1 = resolved c + with_path r.2.
Proof.
  revert c. induction os as [|o os IH]; intros c; cbn [join_outfits].
  - cbn. unfold len. cbn. repeat split; [constructor | lia | lia | lia].
  - unfold join_outfit.
    pose proof (join_items_shape c (IngestPolyvore.items o)) as Hi.
    destruct (join_items abspath (_load_item_map index) c (IngestPolyvore.items o))
      as [c1 l]. cbn [fst snd] in Hi. destruct Hi as (Hi1 & Hi2 & Hi3 & Hi4 & Hi5).
    specialize (IH {| total_outfits := total_outfits c1 + 1;
                      total_items := total_items c1;
                      resolved := resolved c1 |}).
    destruct (join_outfits abspath (_load_item_map index) _ os) as [c2 l2].
    cbn [fst snd total_outfits total_items resolved] in *.
    destruct IH as (H1 & H2 & H3 & H4 & H5).
    rewrite fmap_cons. cbn [outfit foldr with_path aug_items].
    fold (with_path l2).
    unfold len in *. cbn [length].
    repeat split; [congruence | | lia | lia | lia].
    constructor; [|exact H2]. cbn [aug_items outfit]. split; assumption.
Qed.

End Shape.

Lemma with_path_le (out : list AugOutfit) :
  Forall (fun a => ref <$> aug_items a = IngestPolyvore.items (outfit a)) out ->
  0 <= with_path out <=
    foldr (fun o n => len (IngestPolyvore.items o) + n) 0 (outfit <$> out).
Proof.
  induction 1 as [|a out Ha _ IH]; cbn [with_path foldr fmap list_fmap]; [lia|].
  fold (with_path out).
  pose proof (length_filter has_path (aug_items a)) as Hf.
  rewrite <- Ha. unfold len in *. rewrite length_fmap. lia.
Qed.

Lemma pct_bounds (c : Counters) :
  0 <= resolved c <= total_items c -> (0 <= pct c /\ pct c <= 100)%Q.
Proof.
  intros [H0 H1]. unfold pct.
  destruct (Z.eqb_spec (total_items c) 0) as [Ht|Ht].
  - split; [apply Qle_refl | discriminate].
  - assert (Hpos : (0 < inject_Z (total_items c))%Q).
    { rewrite <- (Zlt_Qlt 0). lia. }
    split.
    + apply Qmult_le_0_compat; [|discriminate].
      apply Qle_shift_div_l; [exact Hpos|]. rewrite Qmult_0_l.
      rewrite <- (Zle_Qle 0). exact H0.
    + apply (Qle_trans _ (1 * 100)%Q); [|unfold Qle; simpl; lia].
      apply Qmult_le_compat_r; [|discriminate].
      apply Qle_shift_div_r; [exact Hpos|]. rewrite Qmult_1_l.
      rewrite <- Zle_Qle. exact H1.
Qed.

(** X11.  The join only adds the two path fields: the output holds the
    input outfits in order, each with its item references in order, and an
    item carries a local path exactly when the loaded map binds its
    identifier, the absolute path being derived from that binding. *)
Theorem join_keeps_records :
  forall (abspath : pystr -> pystr) (root_exists : bool)
         (index : list ImageIndexEntry) (outfits : list IngestPolyvore.OutfitRecord)
         out c,
    main abspath root_exists index outfits = Ok (out, c) ->
    outfit <$> out = outfits /\
    Forall (fun a => ref <$> aug_items a = IngestPolyvore.items (outfit a) /\
                     Forall (joined abspath index) (aug_items a)) out.
Proof.
  intros abspath root_exists index outfits out c. unfold main.
  destruct root_exists; cbn [negb]; [|discriminate].
  pose proof (join_outfits_shape abspath index
                {| total_outfits := 0; total_items := 0; resolved := 0 |} outfits) as H.
  destruct (join_outfits abspath (_load_item_map index) _ outfits) as [c' out'].
  cbn [fst snd] in H. intros Heq. inversion Heq; subst.
  destruct H as (H1 & H2 & _). split; assumption.
Qed.

Lemma join_keeps_records_witness :
  exists out c,
    main (fun rel => py "/data/" ++ rel) true (index_base (py "images/") images_123)
         [outfit_with (py "polyvore:a") [item_123_0]] = Ok (out, c) /\
    outfit <$> out = [outfit_with (py "polyvore:a") [item_123_0]].
Proof.
  eexists _, _. split; [vm_compute; reflexivity|].
  refine (proj1 (join_keeps_records (fun rel => py "/data/" ++ rel) true
                   (index_base (py "images/") images_123)
                   [outfit_with (py "polyvore:a") [item_123_0]] _ _ _)).
  vm_compute. reflexivity.
Defined.

(** X12.  The counters the join reports: the number of outfits read, the
    number of item references in them, and the number of items that were
    given a local path, which never exceeds the number of references; the
    percentage lies between 0 and 100. *)
Theorem join_counters :
  forall (abspath : pystr -> pystr) (root_exists : bool)
         (index : list ImageIndexEntry) (outfits : list IngestPolyvore.OutfitRecord)
         out c,
    main abspath root_exists index outfits = Ok (out, c) ->
    total_outfits c = len outfits /\
    total_items c = foldr (fun o n => len (IngestPolyvore.items o) + n) 0 outfits /\
    resolved c = with_path out /\
    0 <= resolved c <= total_items c /\
    (0 <= pct c /\ pct c <= 100)%Q.
Proof.
  intros abspath root_exists index outfits out c. unfold main.
  destruct root_exists; cbn [negb]; [|discriminate].
  pose proof (join_outfits_shape abspath index
                {| total_outfits := 0; total_items := 0; resolved := 0 |} outfits) as H.
  destruct (join_outfits abspath (_load_item_map index) _ outfits) as [c' out'].
  cbn [fst snd total_outfits total_items resolved] in H.
  intros Heq. inversion Heq; subst.
  destruct H as (H1 & H2 & H3 & H4 & H5).
  assert (Hb : 0 <= resolved c <= total_items c).
  { pose proof (with_path_le out (Forall_impl _ _ _ H2 (fun a H => proj1 H))) as Hle.
    rewrite H1 in Hle. lia. }
  repeat split; try lia; apply pct_bounds; exact Hb.
Qed.

Definition item_999_7 : IngestPolyvore.NormItem :=
  {| IngestPolyvore.item_uid := py "polyvore:999_7";
     IngestPolyvore.item_set_id := py "999";
     IngestPolyvore.index := JInt 7;
     IngestPolyvore.categoryid := JNull;
     IngestPolyvore.name := JNull;
     IngestPolyvore.price := JNull;
     IngestPolyvore.likes := JNull;
     IngestPolyvore.image_url := JNull |}.

Lemma join_counters_witness :
  exists out c,
    main (fun rel => py "/data/" ++ rel) true (index_base (py "images/") images_123)
         [outfit_with (py "polyvore:a") [item_123_0; item_999_7]] = Ok (out, c) /\
    total_items c = 2 /\ resolved c = 1.
Proof.
  eexists _, _. split; [vm_compute; reflexivity|].
  destruct (join_counters (fun rel => py "/data/" ++ rel) true
              (index_base (py "images/") images_123)
              [outfit_with (py "polyvore:a") [item_123_0; item_999_7]] _ _
              ltac:(vm_compute; reflexivity)) as (_ & H2 & H3 & _).
  split; [exact H2 | exact H3].
Defined.

End JoinShape.

(* ===================================================================== *)
(** * The Polyvore ingestion: the records, the counters, the questions *)
(* ===================================================================== *)

Module PolyvoreRecords.

Import IngestPolyvore.

(** A line of the [--out-fitb] file. *)
Record FitbRecord := {
  fitb_source : pystr;
  question_id : json;
  blank_position : json;
  answers : json;
  correct_answer : json
}.

(** The dataset directory: the three split files, which other names
    exist, and what [_read_json] loads from a name. *)
Record PolyvoreRoot := {
  splits : PolyvoreDir;
  exists_ : pystr -> bool;
  _read_json : pystr -> json
}.

(** What a run leaves behind: the two output files and the exception that
    ended it, if any. *)
Record Output := {
  out_outfits : Written;
  out_fitb : list FitbRecord;
  raised : option exn
}.

(** [_pick_fitb_file] *)
Definition _pick_fitb_file (root : PolyvoreRoot) : result pystr :=
  if exists_ root (py "fill_in_blank_test.json") then Ok (py "fill_in_blank_test.json")
  else if exists_ root (py "fill_in_the_blank_test.json")
       then Ok (py "fill_in_the_blank_test.json")
       else Raise FileNotFoundError.

(** [_pick_compat_file] *)
Definition _pick_compat_file (root : PolyvoreRoot) : result pystr :=
  if exists_ root (py "fashion_compatibility_prediction.txt")
  then Ok (py "fashion_compatibility_prediction.txt")
  else if exists_ root (py "fashion-compatibility-prediction.txt")
       then Ok (py "fashion-compatibility-prediction.txt")
       else Raise FileNotFoundError.

(** The values [for q in fitb] visits: the elements of a list, the
    characters of a string, the keys of a dict. *)
Definition iterate (v : json) : result (list json) :=
  match v with
  | JList l => Ok l
  | JStr s => Ok ((fun c => JStr [c]) <$> s)
  | JObj d => Ok (JStr <$> d.*1)
  | _ => Raise TypeError
  end.

(** [answers[0] if answers else None] *)
Definition first_answer (answers : json) : result json :=
  if truthy answers then
    match answers with
    | JList (a :: _) => Ok a
    | JStr (c :: _) => Ok (JStr [c])
    | JObj _ => Raise (OtherException (py "KeyError") (py "0"))
    | _ => Raise TypeError
    end
  else Ok JNull.

(** The body of [for q in fitb]. *)
Definition fitb_record (q : json) : result FitbRecord :=
  qid ← get q (py "question");
  blank_pos ← get q (py "blank_position");
  raw ← get q (py "answers");
  let answers := if truthy raw then raw else JList [] in
  correct ← first_answer answers;
  mret {| fitb_source := py "polyvore";
          question_id := qid;
          blank_position := blank_pos;
          answers := answers;
          correct_answer := correct |}.

(** [for q in fitb]: the lines written before an exception stay. *)
Fixpoint write_fitb (qs : list json) (acc : list FitbRecord)
  : list FitbRecord * option exn :=
  match qs with
  | [] => (acc, None)
  | q :: rest =>
      match fitb_record q with
      | Raise e => (acc, Some e)
      | Ok r => write_fitb rest (acc ++ [r])
      end
  end.

Section Main.
Variable repr_other : json -> pystr.

(** [main]; [None] stands for a [--polyvore-dir] that does not exist. *)
Definition main (root : option PolyvoreRoot) : Output :=
  let w0 := {| lines := []; outfits_written := 0; items_written := 0 |} in
  match root with
  | None => {| out_outfits := w0; out_fitb := [];
               raised := Some (SystemExit (py "Not found: root")) |}
  | Some r =>
      match main_outfits repr_other (splits r) with
      | (w, Some e) => {| out_outfits := w; out_fitb := []; raised := Some e |}
      | (w, None) =>
          match _pick_fitb_file r with
          | Raise e => {| out_outfits := w; out_fitb := []; raised := Some e |}
          | Ok fitb_path =>
              match iterate (_read_json r fitb_path) with
              | Raise e => {| out_outfits := w; out_fitb := []; raised := Some e |}
              | Ok qs =>
                  match write_fitb qs [] with
                  | (l, Some e) => {| out_outfits := w; out_fitb := l; raised := Some e |}
                  | (l, None) =>
                      match _pick_compat_file r with
                      | Raise e => {| out_outfits := w; out_fitb := l; raised := Some e |}
                      | Ok _ => {| out_outfits := w; out_fitb := l; raised := None |}
                      end
                  end
              end
          end
      end
  end.

(** ** The outfit records *)

Lemma norm_item_fields sid it n :
  norm_item repr_other sid it = Ok n ->
  item_set_id n = sid /\ item_uid n = compose_uid sid (py_str repr_other (index n)).
Proof.
  unfold norm_item. intros H.
  repeat match type of H with
         | context [get it ?k] => destruct (get it k); cbn [mbind result_bind] in H;
                                  [|discriminate]
         end.
  inversion H; subst. split; reflexivity.
Qed.

Lemma norm_items_fields sid its ns :
  norm_items repr_other sid its = Ok ns ->
  Forall (fun n => item_set_id n = sid /\
                   item_uid n = compose_uid sid (py_str repr_other (index n))) ns.
Proof.
  intros H. apply norm_items_Forall2 in H.
  induction H as [|it n its ns Hn _ IH]; constructor; [|exact IH].
  exact (norm_item_fields _ _ _ Hn).
Qed.

(** The fields of a record agree with each other. *)
Definition consistent (r : OutfitRecord) : Prop :=
  source r = py "polyvore" /\
  set_id r <> [] /\
  outfit_uid r = py "polyvore:" ++ set_id r /\
  Forall (fun n => item_set_id n = set_id r /\
                   item_uid n = compose_uid (set_id r) (py_str repr_other (index n)))
         (items r).

Lemma outfit_record_consistent s o r :
  outfit_record repr_other s o = Ok (Some r) ->
  (consistent r /\ (length (items r) <= 8)%nat) /\ split r = s.
Proof.
  intros H. pose proof (outfit_record_le8 repr_other _ _ _ H) as H8.
  pose proof (outfit_record_items repr_other _ _ _ H) as (raw & its & _ & _ & Hn).
  apply norm_items_fields in Hn.
  unfold outfit_record in H.
  destruct (get_default o (py "set_id") (JStr [])) as [sid|e];
    cbn [mbind result_bind] in H; [|discriminate].
  destruct (truthy_str (py_str repr_other sid)) eqn:Ht; cbn [negb] in H; [|discriminate].
  destruct (get_default o (py "items") (JList [])) as [raw'|e];
    cbn [mbind result_bind] in H; [|discriminate].
  destruct (first8 _) as [its'|e]; cbn [mbind result_bind] in H; [|discriminate].
  destruct (norm_items _ _ _) as [ns|e]; cbn [mbind result_bind] in H; [|discriminate].
  destruct (get o (py "set_url")) as [su|e]; cbn [mbind result_bind] in H; [|discriminate].
  destruct (get o (py "date")) as [da|e]; cbn [mbind result_bind] in H; [|discriminate].
  destruct (get o (py "desc")) as [de|e]; cbn [mbind result_bind] in H; [|discriminate].
  inversion H; subst r. cbn [set_id items] in Hn.
  split; [|reflexivity]. split; [|exact H8]. repeat split; [|exact Hn].
  cbn [set_id]. intros Hnil. rewrite Hnil in Ht. discriminate.
Qed.

(** The lines a loop appends to the output. *)
Definition extends (w w' : Written) (new : list OutfitRecord) : Prop :=
  lines w' = lines w ++ new /\
  outfits_written w' = outfits_written w + len new /\
  items_written w' =
    items_written w + foldr (fun r n => len (items r) + n) 0 new.

Lemma write_outfits_extends s outfits w :
  exists new,
    extends w (write_outfits repr_other s outfits w).1 new /\
    Forall (fun r => (consistent r /\ (length (items r) <= 8)%nat) /\ split r = s) new.
Proof.
  revert w. induction outfits as [|o rest IH]; intros w; cbn [write_outfits].
  - exists []. split; [|constructor]. unfold extends, len. cbn. rewrite app_nil_r.
    repeat split; lia.
  - destruct (outfit_record repr_other s o) as [[r|]|e] eqn:Ho.
    + destruct (IH {| lines := lines w ++ [r];
                      outfits_written := outfits_written w + 1;
                      items_written := items_written w + len (items r) |})
        as (new & (H1 & H2 & H3) & Hall).
      exists (r :: new). split.
      * unfold extends. cbn [lines outfits_written items_written] in *.
        rewrite H1, H2, H3, <- app_assoc. unfold len. cbn [app length foldr].
        repeat split; lia.
      * constructor; [exact (outfit_record_consistent _ _ _ Ho) | exact Hall].
    + apply IH.
    + exists []. split; [|constructor]. unfold extends, len. cbn. rewrite app_nil_r.
      repeat split; lia.
Qed.

Lemma write_split_extends s path file w :
  exists new,
    extends w (write_split repr_other s path file w).1 new /\
    Forall (fun r => (consistent r /\ (length (items r) <= 8)%nat) /\ split r = s) new.
Proof.
  destruct file as [[]|]; cbn [write_split fst];
    try (exists []; split; [|constructor]; unfold extends, len; cbn;
         rewrite app_nil_r; repeat split; lia).
  apply write_outfits_extends.
Qed.

Lemma items_sum_app (a b : list OutfitRecord) :
  foldr (fun r n => len (items r) + n) 0 (a ++ b) =
  foldr (fun r n => len (items r) + n) 0 a +
  foldr (fun r n => len (items r) + n) 0 b.
Proof. induction a; cbn [foldr app]; [lia | rewrite IHa; lia]. Qed.

Lemma extends_trans w w1 w2 a b :
  extends w w1 a -> extends w1 w2 b -> extends w w2 (a ++ b).
Proof.
  intros (a1 & a2 & a3) (b1 & b2 & b3). unfold extends.
  rewrite b1, b2, b3, a1, a2, a3, items_sum_app, app_assoc.
  unfold len. rewrite length_app. repeat split; lia.
Qed.

Lemma main_outfits_extends (d : PolyvoreDir) :
  exists l1 l2 l3,
    extends {| lines := []; outfits_written := 0; items_written := 0 |}
            (main_outfits repr_other d).1 (l1 ++ l2 ++ l3) /\
    Forall (fun r => (consistent r /\ (length (items r) <= 8)%nat) /\ split r = py "train") l1 /\
    Forall (fun r => (consistent r /\ (length (items r) <= 8)%nat) /\ split r = py "val") l2 /\
    Forall (fun r => (consistent r /\ (length (items r) <= 8)%nat) /\ split r = py "test") l3.
Proof.
  unfold main_outfits.
  set (w0 := {| lines := []; outfits_written := 0; items_written := 0 |}).
  destruct (write_split_extends (py "train") (py "train_no_dup.json") (train_no_dup d) w0)
    as (l1 & E1 & A1).
  destruct (write_split repr_other (py "train") _ (train_no_dup d) w0) as [w1 [e|]].
  { exists l1, [], []. cbn [app fst] in *. rewrite app_nil_r.
    split; [exact E1|]. split; [exact A1|]. split; constructor. }
  destruct (write_split_extends (py "val") (py "valid_no_dup.json") (valid_no_dup d) w1)
    as (l2 & E2 & A2).
  destruct (write_split repr_other (py "val") _ (valid_no_dup d) w1) as [w2 [e|]].
  { exists l1, l2, []. rewrite app_nil_r. cbn [fst] in *.
    split; [exact (extends_trans _ _ _ _ _ E1 E2)|].
    split; [exact A1|]. split; [exact A2 | constructor]. }
  destruct (write_split_extends (py "test") (py "test_no_dup.json") (test_no_dup d) w2)
    as (l3 & E3 & A3).
  exists l1, l2, l3. cbn [fst] in *.
  split; [exact (extends_trans _ _ _ _ _ E1 (extends_trans _ _ _ _ _ E2 E3))|].
  split; [exact A1|]. split; [exact A2 | exact A3].
Qed.

(** The outfit file is the same whatever ends the run afterwards. *)
Lemma main_out_outfits (r : PolyvoreRoot) :
  out_outfits (main (Some r)) = (main_outfits repr_other (splits r)).1.
Proof.
  unfold main. destruct (main_outfits repr_other (splits r)) as [w [e|]]; [reflexivity|].
  destruct (_pick_fitb_file r); [|reflexivity].
  destruct (iterate _); [|reflexivity].
  destruct (write_fitb _ _) as [l [e|]]; [reflexivity|].
  destruct (_pick_compat_file r); reflexivity.
Qed.

Lemma main_written (root : option PolyvoreRoot) :
  exists l1 l2 l3,
    extends {| lines := []; outfits_written := 0; items_written := 0 |}
            (out_outfits (main root)) (l1 ++ l2 ++ l3) /\
    Forall (fun r => (consistent r /\ (length (items r) <= 8)%nat) /\ split r = py "train") l1 /\
    Forall (fun r => (consistent r /\ (length (items r) <= 8)%nat) /\ split r = py "val") l2 /\
    Forall (fun r => (consistent r /\ (length (items r) <= 8)%nat) /\ split r = py "test") l3.
Proof.
  destruct root as [r|].
  - rewrite main_out_outfits. apply main_outfits_extends.
  - exists [], [], []. split; [|repeat split; constructor].
    unfold extends, len. cbn. repeat split; lia.
Qed.

(** X13.  Every outfit line written, also by a run that fails later, is
    consistent: its source is "polyvore", its set id is not empty, its
    outfit identifier is "polyvore:<set_id>", and each of its items
    carries the outfit's set id and the identifier
    "polyvore:<set_id>_<index>" of its own index. *)
Theorem written_records_consistent :
  forall root : option PolyvoreRoot,
    Forall consistent (lines (out_outfits (main root))).
Proof.
  intros root. destruct (main_written root) as (l1 & l2 & l3 & (E & _) & A1 & A2 & A3).
  rewrite E. cbn [lines app]. rewrite !Forall_app.
  repeat split; eapply Forall_impl; eauto; cbn; tauto.
Qed.

(** X14.  The counters printed at the end agree with the file: the number
    of outfits is the number of lines written, the number of items is the
    total number of item references in those lines, and it is at most 8
    times the number of outfits. *)
Theorem written_counters :
  forall root : option PolyvoreRoot,
    let w := out_outfits (main root) in
    outfits_written w = len (lines w) /\
    items_written w = foldr (fun r n => len (items r) + n) 0 (lines w) /\
    items_written w <= 8 * outfits_written w.
Proof.
  intros root w. subst w.
  destruct (main_written root) as (l1 & l2 & l3 & (E1 & E2 & E3) & A1 & A2 & A3).
  rewrite E1, E2, E3. cbn [lines outfits_written items_written app].
  split; [lia|]. split; [lia|].
  assert (Hall : Forall (fun r => (length (items r) <= 8)%nat) (l1 ++ l2 ++ l3)).
  { rewrite !Forall_app. repeat split; eapply Forall_impl; eauto; cbn; tauto. }
  clear -Hall. induction Hall as [|r l Hr _ IH]; cbn [foldr]; unfold len in *;
    cbn [length]; lia.
Qed.

(** X15.  The outfit file holds the lines of the training split first,
    then those of the validation split, then those of the test split, each
    line tagged with the name of its split. *)
Theorem splits_in_order :
  forall root : option PolyvoreRoot,
    exists l1 l2 l3,
      lines (out_outfits (main root)) = l1 ++ l2 ++ l3 /\
      Forall (fun r => split r = py "train") l1 /\
      Forall (fun r => split r = py "val") l2 /\
      Forall (fun r => split r = py "test") l3.
Proof.
  intros root. destruct (main_written root) as (l1 & l2 & l3 & (E & _) & A1 & A2 & A3).
  exists l1, l2, l3. split; [exact E|].
  repeat split; eapply Forall_impl; eauto; cbn; tauto.
Qed.

(** ** The questions *)

(** How the stored answer follows from the stored choices. *)
Definition answered (r : FitbRecord) : Prop :=
  match answers r with
  | JList [] => correct_answer r = JNull
  | JList (a :: _) => correct_answer r = a
  | JStr (c :: _) => correct_answer r = JStr [c]
  | _ => False
  end.

Lemma fitb_record_answered q r :
  fitb_record q = Ok r -> fitb_source r = py "polyvore" /\ answered r.
Proof.
  unfold fitb_record. intros H.
  destruct (get q (py "question")) as [qid|e]; cbn [mbind result_bind] in H; [|discriminate].
  destruct (get q (py "blank_position")) as [bp|e]; cbn [mbind result_bind] in H;
    [|discriminate].
  destruct (get q (py "answers")) as [raw|e]; cbn [mbind result_bind] in H; [|discriminate].
  destruct (first_answer _) as [c|e] eqn:Hc; cbn [mbind result_bind] in H; [|discriminate].
  inversion H; subst r. split; [reflexivity|].
  unfold answered. cbn [answers correct_answer].
  destruct (truthy raw) eqn:Ht.
  - unfold first_answer in Hc. rewrite Ht in Hc.
    destruct raw as [| | | |[|ch s]|[|a l]|]; try discriminate; congruence.
  - cbn in Hc. congruence.
Qed.

Lemma write_fitb_spec qs acc :
  exists new,
    (write_fitb qs acc).1 = acc ++ new /\
    Forall (fun r => fitb_source r = py "polyvore" /\ answered r) new /\
    ((write_fitb qs acc).2 = None ->
     Forall2 (fun q r => fitb_record q = Ok r) qs new).
Proof.
  revert acc. induction qs as [|q qs IH]; intros acc; cbn [write_fitb].
  - exists []. rewrite app_nil_r. repeat split; constructor.
  - destruct (fitb_record q) as [r|e] eqn:Hq.
    + destruct (IH (acc ++ [r])) as (new & H1 & H2 & H3).
      exists (r :: new). rewrite H1, <- app_assoc. split; [reflexivity|].
      split; [constructor; [exact (fitb_record_answered _ _ Hq) | exact H2]|].
      intros Hn. constructor; [exact Hq | exact (H3 Hn)].
    + exists []. rewrite app_nil_r. split; [reflexivity|]. split; [constructor|].
      discriminate.
Qed.

(** X16.  In every question line written the correct answer is the first
    of the stored answers, and None when the stored answers are the empty
    list; what is stored as answers is a list or a non-empty string. *)
Theorem correct_answer_is_first :
  forall root : option PolyvoreRoot,
    Forall (fun r => fitb_source r = py "polyvore" /\ answered r) (out_fitb (main root)).
Proof.
  intros [r|]; [|constructor]. unfold main.
  destruct (main_outfits repr_other (splits r)) as [w [e|]]; [constructor|].
  destruct (_pick_fitb_file r); [|constructor].
  destruct (iterate _) as [qs|]; [|constructor].
  destruct (write_fitb_spec qs []) as (new & H1 & H2 & _).
  destruct (write_fitb qs []) as [l [e|]]; cbn [fst app] in H1; subst l;
    [exact H2|].
  destruct (_pick_compat_file r); exact H2.
Qed.

(** X17.  A run ends without an exception only if the directory exists,
    the three split files hold lists, a question file and a compatibility
    file are present under one of their two names each; the question file
    then holds one line per question, in order. *)
Theorem run_completes_only_if :
  forall root : option PolyvoreRoot,
    raised (main root) = None ->
    exists r l1 l2 l3 fitb_path qs,
      root = Some r /\
      train_no_dup (splits r) = Some (JList l1) /\
      valid_no_dup (splits r) = Some (JList l2) /\
      test_no_dup (splits r) = Some (JList l3) /\
      _pick_fitb_file r = Ok fitb_path /\
      iterate (_read_json r fitb_path) = Ok qs /\
      Forall2 (fun q rec => fitb_record q = Ok rec) qs (out_fitb (main root)) /\
      is_Some (head (filter (fun n => exists_ r n = true)
                            [py "fashion_compatibility_prediction.txt";
                             py "fashion-compatibility-prediction.txt"])).
Proof.
  intros [r|]; [|discriminate]. unfold main.
  destruct (main_outfits repr_other (splits r)) as [w [e|]] eqn:Hm; [discriminate|].
  destruct (_pick_fitb_file r) as [path|] eqn:Hp; [|discriminate].
  destruct (iterate _) as [qs|] eqn:Hi; [|discriminate].
  destruct (write_fitb_spec qs []) as (new & H1 & _ & H3).
  destruct (write_fitb qs []) as [l [e|]]; [discriminate|].
  cbn [fst snd app] in *. subst l.
  destruct (_pick_compat_file r) as [c|] eqn:Hc; [|discriminate].
  intros _. cbn [out_fitb].
  assert (Hs : exists l1 l2 l3,
             train_no_dup (splits r) = Some (JList l1) /\
             valid_no_dup (splits r) = Some (JList l2) /\
             test_no_dup (splits r) = Some (JList l3)).
  { unfold main_outfits in Hm.
    destruct (train_no_dup (splits r)) as [[| | | | |l1|]|]; cbn [write_split] in Hm;
      try discriminate.
    destruct (write_outfits repr_other (py "train") l1 _) as [w1 [e|]]; [discriminate|].
    destruct (valid_no_dup (splits r)) as [[| | | | |l2|]|]; cbn [write_split] in Hm;
      try discriminate.
    destruct (write_outfits repr_other (py "val") l2 _) as [w2 [e|]]; [discriminate|].
    destruct (test_no_dup (splits r)) as [[| | | | |l3|]|]; cbn [write_split] in Hm;
      try discriminate.
    exists l1, l2, l3. repeat split. }
  destruct Hs as (l1 & l2 & l3 & S1 & S2 & S3).
  exists r, l1, l2, l3, path, qs.
  repeat (split; [first [reflexivity | assumption | exact (H3 eq_refl)]|]).
  unfold _pick_compat_file in Hc. rewrite !filter_cons, filter_nil.
  destruct (exists_ r (py "fashion_compatibility_prediction.txt")) eqn:E1.
  - rewrite decide_True by reflexivity. eexists. reflexivity.
  - rewrite decide_False by discriminate.
    destruct (exists_ r (py "fashion-compatibility-prediction.txt")) eqn:E2; [|discriminate].
    rewrite decide_True by reflexivity. eexists. reflexivity.
Qed.

End Main.

(** A complete directory with one outfit and one question. *)
Definition question_1 : json :=
  JObj [(py "question", JList [JStr (py "123_1")]);
        (py "blank_position", JInt 2);
        (py "answers", JList [JStr (py "123_2"); JStr (py "124_1")])].

Definition complete_root : PolyvoreRoot :=
  {| splits := {| train_no_dup := Some (JList [JObj outfit9]);
                  valid_no_dup := Some (JList []);
                  test_no_dup := Some (JList []) |};
     exists_ := fun n => bool_decide (n ∈ [py "fill_in_blank_test.json";
                                            py "fashion-compatibility-prediction.txt"]);
     _read_json := fun _ => JList [question_1] |}.

Lemma run_completes_only_if_witness :
  raised (main (fun _ => []) (Some complete_root)) = None /\
  exists rec,
    out_fitb (main (fun _ => []) (Some complete_root)) = [rec] /\
    fitb_record question_1 = Ok rec.
Proof.
  split; [vm_compute; reflexivity|].
  destruct (run_completes_only_if (fun _ => []) (Some complete_root)
              ltac:(vm_compute; reflexivity))
    as (r & l1 & l2 & l3 & path & qs & Hr & _ & _ & _ & Hp & Hi & Hq & _).
  inversion Hr; subst r.
  assert (path = py "fill_in_blank_test.json") by (vm_compute in Hp; inversion Hp; reflexivity).
  subst path. assert (qs = [question_1]) by (vm_compute in Hi; inversion Hi; reflexivity). subst qs.
  apply Forall2_cons_inv_l in Hq as (rec & l & Hrec & Hrest & Heq).
  apply Forall2_nil_inv_l in Hrest. subst l.
  exists rec. split; [exact Heq | exact Hrec].
Defined.

End PolyvoreRecords.

(* ===================================================================== *)
(** * The DeepFashion ingestion: the repaired text and the manifest records *)
(* ===================================================================== *)

Module DeepFashionManifest.

Import IngestDeepFashion.

(** ** The repair keeps the rows *)

Lemma concat_splitlines_go (cur s : pystr) :
  concat (splitlines_go cur s) = cur ++ s.
Proof.
  revert cur. induction s as [|c s IH]; intros cur; cbn [splitlines_go].
  - destruct cur; cbn; [reflexivity | rewrite !app_nil_r; reflexivity].
  - destruct (_ && _).
    + cbn [concat]. rewrite IH, <- app_assoc. reflexivity.
    + rewrite IH, <- app_assoc. reflexivity.
Qed.

(** [splitlines(keepends=True)] loses nothing. *)
Lemma concat_splitlines (s : pystr) : concat (splitlines s) = s.
Proof. apply concat_splitlines_go. Qed.

Lemma scan_split (header_lines lines : list pystr) (out : pystr) :
  scan header_lines lines = Some out ->
  exists k,
    (0 < k)%nat /\ (length header_lines + k <= 5)%nat /\ (k <= length lines)%nat /\
    has_markers (concat (header_lines ++ take k lines)) = true /\
    out = one_line (concat (header_lines ++ take k lines)) ++ [LF] ++ concat (drop k lines).
Proof.
  revert header_lines. induction lines as [|l rest IH]; intros hl; cbn [scan];
    [discriminate|].
  destruct (Z.ltb_spec (len hl) 5) as [Hlt|_]; [|discriminate].
  destruct (has_markers (concat (hl ++ [l]))) eqn:Hm.
  - intros H. inversion H; subst out. exists 1%nat. unfold len in Hlt.
    cbn [take drop length]. rewrite take_0. repeat split; [lia | lia | lia | exact Hm].
  - intros H. destruct (IH _ H) as (k & Hk & Hle & Hlen & Hmk & ->).
    rewrite length_app in Hle. cbn [length] in Hle.
    exists (S k). cbn [take drop length]. rewrite <- app_assoc in Hmk |- *.
    repeat split; [lia | lia | lia | exact Hmk].
Qed.

Section Repair.
Variable decode : list N -> pystr.

(** X18.  The repair returns the decoded text itself, or the text with
    every "rati\nng" mended, or that mended text with the line breaks
    removed from its first one to five lines and one line feed put after
    them; in each case everything after those lines is kept as it is. *)
Theorem repair_keeps_rows :
  forall raw : list N,
    let text := replace BROKEN FIXED (decode raw) in
    let out := _repair_purchase_history_csv decode raw in
    (header_fine (decode raw) = true /\ out = decode raw) \/
    (header_fine (decode raw) = false /\
     (out = text \/
      exists k,
        (1 <= k <= 5)%nat /\
        has_markers (concat (take k (splitlines text))) = true /\
        out = one_line (concat (take k (splitlines text))) ++ [LF] ++
              concat (drop k (splitlines text)) /\
        concat (take k (splitlines text)) ++ concat (drop k (splitlines text)) = text)).
Proof.
  intros raw text out. subst out. unfold _repair_purchase_history_csv, repair_text.
  destruct (header_fine (decode raw)); [left; split; reflexivity|].
  right. split; [reflexivity|]. fold text.
  destruct (splitlines text) as [|l ls] eqn:Hs.
  { left. rewrite <- (concat_splitlines text), Hs. reflexivity. }
  destruct (scan [] (l :: ls)) as [out|] eqn:Hscan; [|left; reflexivity].
  right. apply scan_split in Hscan as (k & Hk & Hle & _ & Hm & ->).
  cbn [length app] in Hle, Hm |- *. exists k.
  repeat split; [lia | lia | exact Hm|].
  rewrite <- concat_app, take_drop, <- Hs. apply concat_splitlines.
Qed.

End Repair.

(** ** The rows of an image *)

(** The purchase rows that name image [k], in file order. *)
Definition rows_of (rows : list row) (k : pystr) : list row :=
  if truthy_str k then filter (fun r => row_get r (py "image_id") = k) rows else [].

Lemma group_by_image_rows_aux (rows : list row) (k : pystr) :
  default [] (group_by_image rows !! k) = rows_of rows k.
Proof.
  unfold group_by_image, rows_of.
  induction rows as [|r rows IH] using rev_ind.
  - cbn. rewrite lookup_empty. destruct (truthy_str k); reflexivity.
  - rewrite foldl_snoc. cbv zeta.
    set (m := foldl _ ∅ rows) in *.
    destruct (truthy_str (row_get r (py "image_id"))) eqn:Ht.
    + rewrite lookup_insert. case_decide as Heq.
      * subst k. rewrite Ht in *. cbn [default]. rewrite IH, filter_app, filter_cons, filter_nil.
        rewrite decide_True by reflexivity. reflexivity.
      * rewrite IH. destruct (truthy_str k); [|reflexivity].
        rewrite filter_app, filter_cons, filter_nil, decide_False by exact Heq.
        rewrite app_nil_r. reflexivity.
    + rewrite IH. destruct (truthy_str k) eqn:Hk; [|reflexivity].
      rewrite filter_app, filter_cons, filter_nil, decide_False, app_nil_r; [reflexivity|].
      intros Heq. rewrite Heq, Hk in Ht. discriminate.
Qed.

Lemma group_by_image_nonempty (rows : list row) (k : pystr) (l : list row) :
  group_by_image rows !! k = Some l -> l <> [].
Proof.
  unfold group_by_image. revert l.
  induction rows as [|r rows IH] using rev_ind; intros l.
  - cbn. rewrite lookup_empty. discriminate.
  - rewrite foldl_snoc. cbv zeta.
    destruct (truthy_str (row_get r (py "image_id"))); [|apply IH].
    rewrite lookup_insert. case_decide as Heq; [|apply IH].
    intros H. inversion H. intros Hnil. apply app_eq_nil in Hnil as [_ Hnil]. discriminate.
Qed.

(** X19.  Grouping binds every image id to the rows that name it, in the
    order of the file, and binds nothing to an image id that no row
    names; rows with an empty image id are in no group. *)
Theorem group_by_image_rows :
  forall (rows : list row) (k : pystr),
    group_by_image rows !! k =
      match rows_of rows k with
      | [] => None
      | l => Some l
      end.
Proof.
  intros rows k. pose proof (group_by_image_rows_aux rows k) as Ha.
  destruct (group_by_image rows !! k) as [l|] eqn:Hl; cbn [default] in Ha.
  - apply group_by_image_nonempty in Hl. rewrite <- Ha.
    destruct l; [contradiction | reflexivity].
  - rewrite <- Ha. reflexivity.
Qed.

(** ** The fields gathered from the rows *)

Definition nonempty (l : list pystr) : list pystr := filter (fun v => v <> []) l.

Lemma append_if_nonempty v l : append_if v l = l ++ nonempty [v].
Proof.
  unfold append_if, nonempty. rewrite filter_cons, filter_nil.
  destruct v; cbn [truthy_str].
  - rewrite decide_False by (intros H; apply H; reflexivity). rewrite app_nil_r. reflexivity.
  - rewrite decide_True by discriminate. reflexivity.
Qed.

Lemma nonempty_app a b : nonempty (a ++ b) = nonempty a ++ nonempty b.
Proof. apply filter_app. Qed.

Definition has_item (p : pystr * pystr) : Prop := p.1 <> [] \/ p.2 <> [].

Lemma truthy_str_ne (v : pystr) : truthy_str v = true <-> v <> [].
Proof. destruct v; cbn; split; intros H; congruence. Qed.

Lemma foldl_add_meta (acc : Meta) (ms : list row) :
  let r := foldl add_meta acc ms in
  meta_seasons r = meta_seasons acc ++ nonempty ((fun m => row_get m (py "season")) <$> ms) /\
  meta_occasions r =
    meta_occasions acc ++ nonempty ((fun m => row_get m (py "occasion")) <$> ms) /\
  meta_ratings r = meta_ratings acc ++ nonempty ((fun m => row_get m (py "rating")) <$> ms) /\
  meta_items r =
    meta_items acc ++
    filter has_item ((fun m => (row_get m (py "category"), row_get m (py "style"))) <$> ms) /\
  (NoDup (meta_user_ids acc) -> NoDup (meta_user_ids r)) /\
  (forall u, u ∈ meta_user_ids r <->
             u ∈ meta_user_ids acc \/
             (u <> [] /\ u ∈ (fun m => row_get m (py "user_id")) <$> ms)).
Proof.
  revert acc. induction ms as [|m ms IH]; intros acc; cbn [foldl].
  - cbn. rewrite !app_nil_r. repeat split; auto.
    intros [H|[_ H]]; [exact H | apply elem_of_nil in H as []].
  - specialize (IH (add_meta acc m)). cbv zeta in IH.
    destruct IH as (H1 & H2 & H3 & H4 & H5 & H6).
    rewrite H1, H2, H3, H4. cbn [add_meta meta_seasons meta_occasions meta_ratings meta_items].
    rewrite !append_if_nonempty, <- !app_assoc, <- !nonempty_app, !fmap_cons.
    split; [reflexivity|]. split; [reflexivity|]. split; [reflexivity|].
    split.
    { rewrite filter_cons.
      destruct (truthy_str (row_get m (py "category"))) eqn:Hc;
        destruct (truthy_str (row_get m (py "style"))) eqn:Hs; cbn [orb].
      - rewrite decide_True by (left; cbn [fst]; apply truthy_str_ne, Hc).
        rewrite <- app_assoc. reflexivity.
      - rewrite decide_True by (left; cbn [fst]; apply truthy_str_ne, Hc).
        rewrite <- app_assoc. reflexivity.
      - rewrite decide_True by (right; cbn [snd]; apply truthy_str_ne, Hs).
        rewrite <- app_assoc. reflexivity.
      - rewrite decide_False; [reflexivity|].
        intros [H|H]; cbn [fst snd] in H; apply truthy_str_ne in H; congruence. }
    assert (Hu : meta_user_ids (add_meta acc m) =
                 if truthy_str (row_get m (py "user_id")) &&
                    negb (bool_decide (row_get m (py "user_id") ∈ meta_user_ids acc))
                 then meta_user_ids acc ++ [row_get m (py "user_id")]
                 else meta_user_ids acc) by reflexivity.
    split.
    { intros Hnd. apply H5. rewrite Hu.
      destruct (truthy_str _) eqn:Ht; cbn [andb]; [|exact Hnd].
      case_bool_decide as Hin; cbn [negb]; [exact Hnd|].
      apply NoDup_app. split; [exact Hnd|]. split; [|apply NoDup_singleton].
      intros x Hx Hx'. apply list_elem_of_singleton in Hx'. subst x. exact (Hin Hx). }
    intros u. rewrite H6, Hu, elem_of_cons.
    destruct (truthy_str (row_get m (py "user_id"))) eqn:Ht; cbn [andb].
    + case_bool_decide as Hin; cbn [negb].
      * split; [tauto|]. intros [H|[Hne [->|H]]]; auto.
      * rewrite elem_of_app, list_elem_of_singleton. split; [|tauto].
        intros [[H| ->]|H]; [tauto | | tauto].
        right. split; [apply truthy_str_ne, Ht | left; reflexivity].
    + split; [tauto|]. intros [H|[Hne [->|H]]]; auto.
      apply truthy_str_ne in Hne. congruence.
Qed.

(** X20.  What a manifest record gathers from the purchase rows of its
    image: the non-empty seasons, occasions and ratings in file order, a
    (category, style) pair for every row that has one of the two, and the
    distinct non-empty user ids. *)
Theorem record_fields_from_rows :
  forall (dataset_root : pystr) (rows : list row) (img : ImageRecord),
    let ms := rows_of rows (image_id img) in
    let rec := manifest_record dataset_root (group_by_image rows) img in
    seasons rec = nonempty ((fun m => row_get m (py "season")) <$> ms) /\
    occasions rec = nonempty ((fun m => row_get m (py "occasion")) <$> ms) /\
    ratings rec = nonempty ((fun m => row_get m (py "rating")) <$> ms) /\
    items rec =
      filter has_item
        ((fun m => (row_get m (py "category"), row_get m (py "style"))) <$> ms) /\
    NoDup (user_ids rec) /\
    (forall u, u ∈ user_ids rec <->
               u <> [] /\ u ∈ (fun m => row_get m (py "user_id")) <$> ms).
Proof.
  intros dataset_root rows img ms rec. subst ms rec. unfold manifest_record.
  cbn [seasons occasions ratings items user_ids].
  rewrite group_by_image_rows_aux.
  destruct (foldl_add_meta
              {| meta_user_ids := []; meta_items := []; meta_seasons := [];
                 meta_occasions := []; meta_ratings := [] |}
              (rows_of rows (image_id img))) as (H1 & H2 & H3 & H4 & H5 & H6).
  cbn [meta_user_ids meta_items meta_seasons meta_occasions meta_ratings app] in *.
  repeat split; auto.
  - apply H5. constructor.
  - apply H6 in H. destruct H as [H|[H _]]; [apply elem_of_nil in H as [] | exact H].
  - apply H6 in H. destruct H as [H|[_ H]]; [apply elem_of_nil in H as [] | exact H].
  - intros [Hne Hin]. apply H6. right. split; assumption.
Qed.

(** ** One record per image file *)

Definition jpg_names (names : list pystr) : list pystr :=
  filter (fun n => endswith (py ".jpg") n = true) names.

Lemma stem_jpg_inj (n1 n2 : pystr) :
  endswith (py ".jpg") n1 = true -> endswith (py ".jpg") n2 = true ->
  n1 <> py ".jpg" -> n2 <> py ".jpg" ->
  stem n1 = stem n2 -> n1 = n2.
Proof.
  intros H1 H2 N1 N2. apply endswith_spec in H1 as [t1 ->]. apply endswith_spec in H2 as [t2 ->].
  rewrite !IndexAndJoin.stem_of_jpg.
  destruct t1 as [|c1 t1]; [contradiction N1; reflexivity|].
  destruct t2 as [|c2 t2]; [contradiction N2; reflexivity|].
  intros ->. reflexivity.
Qed.

Lemma split_records (images_dir : pystr -> option (list pystr)) :
  _iter_images images_dir =
    (image_record (py "train") <$>
       sorted id str_leb (jpg_names (default [] (images_dir (py "train"))))) ++
    (image_record (py "val") <$>
       sorted id str_leb (jpg_names (default [] (images_dir (py "val"))))) ++
    (image_record (py "test") <$>
       sorted id str_leb (jpg_names (default [] (images_dir (py "test"))))).
Proof.
  unfold _iter_images. cbn [mbind list_bind]. rewrite app_nil_r.
  destruct (images_dir (py "train")), (images_dir (py "val")), (images_dir (py "test"));
    reflexivity.
Qed.

Lemma uids_of_split (s : pystr) (names : list pystr) :
  NoDup names -> py ".jpg" ∉ names ->
  NoDup (outfit_uid <$> (image_record s <$> sorted id str_leb (jpg_names names))).
Proof.
  intros Hnd Hno. rewrite <- list_fmap_compose.
  apply NoDup_fmap_2_strong.
  - intros n1 n2 H1 H2 Heq.
    apply (proj1 (elem_of_sorted id str_leb _ _)) in H1.
    apply (proj1 (elem_of_sorted id str_leb _ _)) in H2.
    apply list_elem_of_filter in H1 as [J1 I1]. apply list_elem_of_filter in H2 as [J2 I2].
    unfold compose, image_record in Heq. cbn [outfit_uid] in Heq.
    apply app_inv_head, app_inv_head in Heq.
    apply stem_jpg_inj; auto; intros ->; contradiction.
  - rewrite (sorted_Permutation id str_leb). apply NoDup_filter, Hnd.
Qed.

Lemma uid_prefix (s : pystr) (names : list pystr) (u : pystr) :
  u ∈ outfit_uid <$> (image_record s <$> names) -> exists t, u = s ++ py ":" ++ t.
Proof.
  rewrite <- list_fmap_compose. intros H. apply list_elem_of_fmap in H as (n & -> & _).
  eexists. reflexivity.
Qed.

(** X21.  Images of different splits never share an outfit identifier,
    also when they share a file name; and with distinct file names in each
    split directory, none of them the bare [.jpg], no two records of the
    listing share one. *)
Theorem outfit_uid_unique :
  forall images_dir : pystr -> option (list pystr),
    (forall s names, images_dir s = Some names -> NoDup names /\ (py ".jpg" ∉ names)) ->
    NoDup (outfit_uid <$> _iter_images images_dir).
Proof.
  intros images_dir Hdir.
  assert (Hd : forall s, NoDup (default [] (images_dir s)) /\
                         (py ".jpg" ∉ default [] (images_dir s))).
  { intros s. destruct (images_dir s) as [names|] eqn:H; cbn [default].
    - exact (Hdir _ _ H).
    - split; [constructor | apply not_elem_of_nil]. }
  rewrite split_records, !fmap_app.
  apply NoDup_app. split; [apply uids_of_split; apply Hd|]. split.
  - intros u Hu Hu'. apply uid_prefix in Hu as [t ->].
    apply elem_of_app in Hu' as [Hu'|Hu']; apply uid_prefix in Hu' as [t' Ht'];
      vm_compute in Ht'; discriminate.
  - apply NoDup_app. split; [apply uids_of_split; apply Hd|].
    split; [|apply uids_of_split; apply Hd].
    intros u Hu Hu'. apply uid_prefix in Hu as [t ->].
    apply uid_prefix in Hu' as [t' Ht']. vm_compute in Ht'. discriminate.
Qed.

Lemma outfit_uid_unique_witness :
  NoDup (outfit_uid <$> _iter_images listing_1) /\
  outfit_uid <$> _iter_images listing_1 =
    [py "train:000007"; py "train:000152"; py "val:000152"].
Proof.
  split; [|vm_compute; reflexivity].
  apply outfit_uid_unique. intros s names. unfold listing_1.
  destruct (str_eqb s (py "train")); [|destruct (str_eqb s (py "val"))];
    intros H; inversion H; subst names.
  - split.
    + repeat constructor; intros Hin; apply list_elem_of_In in Hin; vm_compute in Hin;
        repeat (destruct Hin as [Hin|Hin]; [discriminate|]); exact Hin.
    + intros Hin; apply list_elem_of_In in Hin; vm_compute in Hin;
        repeat (destruct Hin as [Hin|Hin]; [discriminate|]); exact Hin.
  - split.
    + repeat constructor; intros Hin; apply list_elem_of_In in Hin; vm_compute in Hin;
        repeat (destruct Hin as [Hin|Hin]; [discriminate|]); exact Hin.
    + intros Hin; apply list_elem_of_In in Hin; vm_compute in Hin;
        repeat (destruct Hin as [Hin|Hin]; [discriminate|]); exact Hin.
Defined.

(** The four fields a manifest record copies from its image. *)
Definition image_fields (m : ManifestRecord) : ImageRecord :=
  {| outfit_uid := m_outfit_uid m; image_id := m_image_id m;
     split := m_split m; image_relpath := m_image_relpath m |}.

Section Manifest.
Variable decode : list N -> pystr.
Variable csv_rows : pystr -> list row.

(** X22.  A run that writes a manifest found at least one image and the
    purchase history, and the manifest holds exactly one record for each
    image file of the listing, carrying that image's identifiers, the
    source name and the dataset root. *)
Theorem one_record_per_image :
  forall root recs,
    main decode csv_rows root = Ok recs ->
    exists r,
      root = Some r /\
      is_Some (purchase_history r) /\
      recs <> [] /\
      image_fields <$> recs ≡ₚ _iter_images (images_dir r) /\
      Forall (fun m => m_source m = py "deep_fashion" /\ m_dataset_root m = root_path r) recs.
Proof.
  intros [r|] recs; [|discriminate]. unfold main.
  destruct (_iter_images (images_dir r)) as [|i imgs] eqn:Hi; [discriminate|].
  unfold _load_purchase_history.
  destruct (purchase_history r) as [raw|] eqn:Hph; [|discriminate].
  assert (Hw : forall rows,
             image_fields <$> write_manifest (root_path r) (group_by_image rows) (i :: imgs)
               ≡ₚ i :: imgs /\
             Forall (fun m => m_source m = py "deep_fashion" /\ m_dataset_root m = root_path r)
                    (write_manifest (root_path r) (group_by_image rows) (i :: imgs)) /\
             write_manifest (root_path r) (group_by_image rows) (i :: imgs) <> []).
  { intros rows. unfold write_manifest. split; [|split].
    - rewrite <- list_fmap_compose.
      assert (Hid : forall l : list ImageRecord,
                 (image_fields ∘ manifest_record (root_path r) (group_by_image rows)) <$> l = l).
      { induction l as [|[] l IH]; [reflexivity|]. rewrite fmap_cons, IH. reflexivity. }
      rewrite Hid. apply sorted_Permutation.
    - apply Forall_fmap, Forall_forall. intros x _. split; reflexivity.
    - intros H. apply fmap_nil_inv in H.
      pose proof (sorted_Permutation sort_key tuple_leb (i :: imgs)) as Hp.
      rewrite H in Hp. apply Permutation_nil_l in Hp. discriminate. }
  intros H. exists r. rewrite Hi. split; [reflexivity|]. split; [rewrite Hph; eexists; reflexivity|].
  destruct (is_blank _); cbn [mbind result_bind mret result_ret] in H; inversion H; subst recs.
  - destruct (Hw []) as (A & B & C). repeat split; assumption.
  - destruct (Hw (csv_rows (_repair_purchase_history_csv decode raw))) as (A & B & C).
    repeat split; assumption.
Qed.

End Manifest.

Lemma one_record_per_image_witness :
  exists recs,
    main ascii_decode (fun _ => []) (Some (root_with listing_1)) = Ok recs /\
    image_fields <$> recs ≡ₚ _iter_images listing_1.
Proof.
  eexists. split; [vm_compute; reflexivity|].
  destruct (one_record_per_image ascii_decode (fun _ => []) (Some (root_with listing_1)) _
              ltac:(vm_compute; reflexivity)) as (r & Hr & _ & _ & Hp & _).
  inversion Hr; subst r. exact Hp.
Defined.

End DeepFashionManifest.

(* ===================================================================== *)
(** * The SOP ingestion *)
(* ===================================================================== *)

Module IngestSop.

(** A line of the interaction manifest; [None] is written as [null]. *)
Record SopRecord := {
  source : pystr;
  split : option pystr;
  file : pystr;
  user_id : option pystr;
  outfit_id : option pystr;
  matched : option pystr
}.

(** A row as [_iter_csv_rows] yields it: the named columns, stripped. *)
Abbreviation row := (gmap pystr pystr).

(** The names [root.glob("user_outfit_*_*.csv")] keeps: the prefix, then
    any text with an underscore in it, then the suffix. *)
Definition glob_match (name : pystr) : bool :=
  startswith (py "user_outfit_") name &&
  (let rest := drop 12 name in
   endswith (py ".csv") rest && contains (py "_") (take (length rest - 4) rest)).

Definition SPLITS : list pystr :=
  [py "train"; py "val"; py "test"; py "testing"; py "testing100"].

(** The loop that infers the split from the file name. *)
Fixpoint infer_split_from (ss : list pystr) (name : pystr) : option pystr :=
  match ss with
  | [] => None
  | s :: rest =>
      if endswith (py "_" ++ s ++ py ".csv") name then Some s
      else infer_split_from rest name
  end.

Definition infer_split (name : pystr) : option pystr := infer_split_from SPLITS name.

(** [a or b] for the results of two [row.get] *)
Definition or_else (a b : option pystr) : option pystr :=
  match a with
  | Some (_ :: _) => a
  | _ => b
  end.

(** The record of one row. *)
Definition record (name : pystr) (split : option pystr) (r : row) : SopRecord :=
  {| source := py "sop";
     split := split;
     file := name;
     user_id := or_else (r !! py "user_id") (r !! py "user_idx");
     outfit_id := r !! py "outfit_id";
     matched := r !! py "matched" |}.

(** The body of [for p in candidates]. *)
Definition file_records (p : pystr * list row) : list SopRecord :=
  record p.1 (infer_split p.1) <$> p.2.

(** [main] on the files of [--sop-dir], each with the rows it holds;
    [None] stands for a directory that does not exist. *)
Definition main (root : option (list (pystr * list row))) : result (list SopRecord) :=
  match root with
  | None => Raise (SystemExit (py "Not found: root"))
  | Some entries =>
      let candidates := sorted fst str_leb (filter (fun p => glob_match p.1 = true) entries) in
      match candidates with
      | [] => Raise (SystemExit (py "No SOP CSVs found under: root"))
      | _ => Ok (candidates ≫= file_records)
      end
  end.

(** ** Properties *)

Lemma glob_match_spec (name : pystr) :
  glob_match name = true <->
  exists a b, name = py "user_outfit_" ++ a ++ py "_" ++ b ++ py ".csv".
Proof.
  unfold glob_match. rewrite andb_true_iff, startswith_spec. split.
  - intros [[t ->] H]. rewrite drop_app_length' in H by reflexivity.
    apply andb_true_iff in H as [He Hc].
    apply endswith_spec in He as [m ->].
    rewrite length_app, Nat.add_sub in Hc. rewrite take_app_length in Hc.
    apply contains_spec in Hc as (a & b & ->).
    exists a, b. rewrite <- !app_assoc. reflexivity.
  - intros (a & b & ->). split; [eexists; reflexivity|].
    rewrite drop_app_length' by reflexivity.
    apply andb_true_iff. split.
    + apply endswith_spec. exists (a ++ py "_" ++ b). rewrite <- !app_assoc. reflexivity.
    + replace (a ++ py "_" ++ b ++ py ".csv") with ((a ++ py "_" ++ b) ++ py ".csv")
        by (rewrite <- !app_assoc; reflexivity).
      rewrite length_app, Nat.add_sub, take_app_length.
      apply contains_spec. exists a, b. reflexivity.
Qed.

Lemma startswith_both (p q s : pystr) :
  startswith p s = true -> startswith q s = true -> (length p <= length q)%nat ->
  startswith p q = true.
Proof.
  revert q s. induction p as [|a p IH]; intros q s Hp Hq Hlen; [reflexivity|].
  destruct q as [|b q]; [cbn in Hlen; lia|].
  destruct s as [|c s]; [discriminate|].
  cbn [startswith] in *.
  apply andb_true_iff in Hp as [Hac Hp]. apply andb_true_iff in Hq as [Hbc Hq].
  apply N.eqb_eq in Hac, Hbc. subst. rewrite N.eqb_refl. cbn [andb].
  apply (IH q s); [assumption | assumption | cbn in Hlen; lia].
Qed.

(** Two suffixes of one name: one of them is a suffix of the other. *)
Lemma suffixes_nest (p q name : pystr) :
  endswith p name = true -> endswith q name = true ->
  endswith p q = true \/ endswith q p = true.
Proof.
  unfold endswith. intros Hp Hq.
  destruct (Nat.le_ge_cases (length (rev p)) (length (rev q))) as [H|H].
  - left. exact (startswith_both _ _ _ Hp Hq H).
  - right. exact (startswith_both _ _ _ Hq Hp H).
Qed.

Lemma infer_split_from_Some (ss : list pystr) (name s : pystr) :
  infer_split_from ss name = Some s ->
  s ∈ ss /\ endswith (py "_" ++ s ++ py ".csv") name = true.
Proof.
  induction ss as [|s' ss IH]; cbn [infer_split_from]; [discriminate|].
  destruct (endswith (py "_" ++ s' ++ py ".csv") name) eqn:He.
  - intros H. inversion H; subst. split; [apply list_elem_of_here | exact He].
  - intros H. destruct (IH H) as [Hin Hs]. split; [apply list_elem_of_further, Hin | exact Hs].
Qed.

(** X23.  The split inferred from a file name is the one whose suffix
    "_<split>.csv" ends the name; no name ends in two of the five
    suffixes, so the order in which they are tried does not matter. *)
Theorem split_inference_unambiguous :
  forall name s : pystr,
    infer_split name = Some s <->
    (s ∈ SPLITS) /\ endswith (py "_" ++ s ++ py ".csv") name = true.
Proof.
  intros name s. split; [apply infer_split_from_Some|].
  intros [Hin H]. unfold infer_split, SPLITS in *.
  repeat (apply elem_of_cons in Hin as [->|Hin]);
    [| | | | | apply elem_of_nil in Hin as []];
    cbn [infer_split_from];
    repeat match goal with
           | |- context [if endswith ?p name then _ else _] =>
               first [ rewrite H; reflexivity
                     | let E := fresh "E" in
                       destruct (endswith p name) eqn:E;
                       [ exfalso; destruct (suffixes_nest _ _ _ E H) as [X|X];
                         vm_compute in X; discriminate | ] ]
           end.
Qed.

Lemma split_inference_unambiguous_witness :
  infer_split (py "user_outfit_pos_testing.csv") = Some (py "testing").
Proof.
  apply (proj2 (split_inference_unambiguous _ _)).
  split; [|reflexivity].
  apply list_elem_of_further, list_elem_of_further, list_elem_of_further, list_elem_of_here.
Defined.

Definition file_le (a b : SopRecord) : Prop := str_leb (file a) (file b) = true.

Definition from_candidate (r : SopRecord) : Prop :=
  source r = py "sop" /\ glob_match (file r) = true /\ split r = infer_split (file r).

Lemma file_records_file p : Forall (fun r => file r = p.1) (file_records p).
Proof. apply Forall_fmap, Forall_forall. intros x _. reflexivity. Qed.

Lemma bind_sorted_by_file (l : list (pystr * list row)) :
  StronglySorted (key_le fst str_leb) l ->
  StronglySorted file_le (l ≫= file_records).
Proof.
  induction 1 as [|p l Hl IH Hall]; [constructor|].
  cbn [mbind list_bind]. change (list_bind _ _ file_records l) with (l ≫= file_records).
  pose proof (file_records_file p) as Hp.
  induction Hp as [|r rs Hr Hrs IHr]; [exact IH|].
  cbn [app]. constructor; [exact IHr|].
  apply Forall_app. split.
  - eapply Forall_impl; [exact Hrs|]. intros r' Hr'. unfold file_le.
    rewrite Hr, Hr'. destruct (str_leb_total p.1 p.1); assumption.
  - apply Forall_forall. intros r' Hin. apply list_elem_of_bind in Hin as (q & Hq & Hql).
    pose proof (file_records_file q) as Hfq. rewrite Forall_forall in Hfq.
    unfold file_le. rewrite Hr, (Hfq _ Hq).
    rewrite Forall_forall in Hall. exact (Hall _ Hql).
Qed.

Definition rows_total (l : list (pystr * list row)) : Z :=
  foldr (fun p n => len p.2 + n) 0 l.

Lemma rows_total_Permutation l1 l2 : l1 ≡ₚ l2 -> rows_total l1 = rows_total l2.
Proof. induction 1; cbn [rows_total foldr] in *; unfold rows_total in *; lia. Qed.

Lemma len_bind_records l : len (l ≫= file_records) = rows_total l.
Proof.
  induction l as [|p l IH]; [reflexivity|].
  cbn [mbind list_bind].
  change (list_bind _ _ file_records l) with (l ≫= file_records).
  unfold len in *. rewrite length_app, Nat2Z.inj_add, IH.
  unfold file_records, rows_total. rewrite length_fmap. cbn [foldr]. unfold len.
  reflexivity.
Qed.

(** X24.  A run that writes the manifest found the directory and at least
    one file matching the pattern; it writes one line per row of the
    matching files and none for other files, the lines of a file together
    and the files in the order of their names, each line tagged with its
    file and the split inferred from that file's name. *)
Theorem sop_records :
  forall root recs,
    main root = Ok recs ->
    exists entries,
      root = Some entries /\
      filter (fun p => glob_match p.1 = true) entries <> [] /\
      Forall from_candidate recs /\
      StronglySorted file_le recs /\
      len recs = rows_total (filter (fun p => glob_match p.1 = true) entries).
Proof.
  intros [entries|] recs; [|discriminate]. unfold main. cbv zeta.
  set (cands := filter (fun p => glob_match p.1 = true) entries).
  destruct (sorted fst str_leb cands) as [|c cs] eqn:Hs; [discriminate|].
  intros H. injection H as <-.
  change (file_records c ++ list_bind _ _ file_records cs)
    with ((c :: cs) ≫= file_records).
  rewrite <- Hs. subst cands.
  exists entries. split; [reflexivity|]. split; [|split; [|split]].
  - intros Hnil. rewrite Hnil in Hs. discriminate.
  - apply Forall_forall. intros r Hr. apply list_elem_of_bind in Hr as (p & Hp & Hin).
    apply (proj1 (elem_of_sorted fst str_leb _ _)) in Hin.
    apply list_elem_of_filter in Hin as [Hm _].
    apply list_elem_of_fmap in Hp as (x & -> & _).
    repeat split. exact Hm.
  - apply bind_sorted_by_file, StronglySorted_sorted.
    + exact str_leb_total.
    + exact str_leb_trans.
  - rewrite len_bind_records. apply rows_total_Permutation, sorted_Permutation.
Qed.

Definition row_1 : row := {[ py "user_idx" := py "7"; py "outfit_id" := py "o1"; py "matched" := py "1" ]}.

Definition sop_dir : list (pystr * list row) :=
  [(py "user_outfit_pos_val.csv", [row_1]);
   (py "readme.txt", [row_1]);
   (py "user_outfit_neg_train.csv", [row_1; row_1])].

Lemma sop_records_witness :
  exists recs,
    main (Some sop_dir) = Ok recs /\
    len recs = 3 /\
    StronglySorted file_le recs.
Proof.
  eexists. split; [vm_compute; reflexivity|].
  destruct (sop_records (Some sop_dir) _ ltac:(vm_compute; reflexivity))
    as (entries & He & _ & _ & Hsorted & Hlen).
  inversion He; subst entries. split; [|exact Hsorted].
  rewrite Hlen. reflexivity.
Defined.

End IngestSop.

(* ===================================================================== *)
(** * The DeepFashion2 verifier *)
(* ===================================================================== *)

Module VerifyDeepFashion2.

(** The loop of [_find_files] that drops the paths already seen. *)
Fixpoint dedupe (seen : gset pystr) (out : list pystr) : list pystr :=
  match out with
  | [] => []
  | p :: rest =>
      if bool_decide (p ∈ seen) then dedupe seen rest
      else p :: dedupe ({[p]} ∪ seen) rest
  end.

(** [_find_files]; [rglob pat] lists the paths under the root that match. *)
Definition _find_files (rglob : pystr -> list pystr) (patterns : list pystr) : list pystr :=
  dedupe ∅ (patterns ≫= rglob).

(** The two directories of a split, each with the names in it, [None]
    when the directory does not exist. *)
Record SplitDir := {
  image : option (list pystr);
  annos : option (list pystr)
}.

(** What the verifier looks at under the root. *)
Record Root := {
  train : SplitDir;
  validation : SplitDir;
  test : SplitDir;
  rglob : pystr -> list pystr;
  (* [json.load] of a path; [None] when opening or parsing raises *)
  load : pystr -> option json
}.

(** [len(list(d.glob("*" + ext)))] *)
Definition count_glob (ext : pystr) (names : list pystr) : Z :=
  len (filter (fun n => endswith ext n = true) names).

(** [count_split] *)
Definition count_split (s : SplitDir) : Z * Z :=
  let imgs :=
    match image s with
    | Some names =>
        count_glob (py ".jpg") names + count_glob (py ".jpeg") names +
        count_glob (py ".png") names
    | None => 0
    end in
  let annos :=
    match annos s with
    | Some names => count_glob (py ".json") names
    | None => 0
    end in
  (imgs, annos).

(** [any(counts)] *)
Definition any_nonzero (counts : list Z) : bool :=
  existsb (fun n => negb (n =? 0)) counts.

(** [p.name]: what follows the last slash. *)
Definition path_name (p : pystr) : pystr :=
  drop (Z.to_nat (rfind 47%N p + 1)) p.

Definition KEYWORDS : list pystr :=
  [py "coco"; py "instances"; py "annotations"; py "train"; py "val"; py "test"].

(** [isinstance(data, dict) and {"images", "annotations"}.issubset(data.keys())] *)
Definition is_coco (data : json) : bool :=
  match data with
  | JObj d => bool_decide (is_Some (dict_lookup (py "images") d)) &&
              bool_decide (is_Some (dict_lookup (py "annotations") d))
  | _ => false
  end.

(** The loop that picks the first candidate holding a COCO dict. *)
Fixpoint find_coco (load : pystr -> option json) (candidates : list pystr)
  : option (pystr * json) :=
  match candidates with
  | [] => None
  | p :: rest =>
      match load p with
      | Some data => if is_coco data then Some (p, data) else find_coco load rest
      | None => find_coco load rest
      end
  end.

(** [len(v)] *)
Definition py_len (v : json) : result Z :=
  match v with
  | JList l => Ok (len l)
  | JStr s => Ok (len s)
  | JObj d => Ok (len d)
  | _ => Raise TypeError
  end.

Section Main.
(** [str.lower] *)
Variable lower : pystr -> pystr.

Definition is_candidate (p : pystr) : bool :=
  existsb (fun k => contains k (lower (path_name p))) KEYWORDS.

(** [main]: the exit status, for the arguments [argv] and the root
    directory, [None] when it does not exist.  The messages are not
    modelled. *)
Definition main (argv : list pystr) (root : option Root) : result Z :=
  if negb (len argv =? 2) then Ok 2
  else
    match root with
    | None => Ok 2
    | Some r =>
        let '(train_imgs, train_annos) := count_split (train r) in
        let '(val_imgs, val_annos) := count_split (validation r) in
        let '(test_imgs, test_annos) := count_split (test r) in
        if any_nonzero [train_imgs; train_annos; val_imgs; val_annos; test_imgs] then
          let ok := (0 <? train_imgs) && (0 <? train_annos) &&
                    (0 <? val_imgs) && (0 <? val_annos) in
          if negb ok then Ok 1 else Ok 0
        else
          let jsons := _find_files (rglob r) [py "*.json"] in
          let candidates := filter (fun p => is_candidate p = true) jsons in
          match find_coco (load r) candidates with
          | Some (p, data) =>
              images ← get_default data (py "images") (JList []);
              annotations ← get_default data (py "annotations") (JList []);
              categories ← get_default data (py "categories") (JList []);
              _ ← py_len images;
              _ ← py_len annotations;
              _ ← py_len categories;
              Ok 0
          | None => Ok 1
          end
    end.

End Main.

(** ** Properties *)

Lemma dedupe_spec (seen : gset pystr) (out : list pystr) :
  NoDup (dedupe seen out) /\
  (forall p, p ∈ dedupe seen out <-> p ∈ out /\ p ∉ seen) /\
  sublist (dedupe seen out) out /\
  (NoDup out -> (forall p, p ∈ out -> p ∉ seen) -> dedupe seen out = out).
Proof.
  revert seen. induction out as [|x out IH]; intros seen; cbn [dedupe].
  - split; [constructor|]. split; [|split; [constructor | reflexivity]].
    intros p. rewrite elem_of_nil. tauto.
  - case_bool_decide as Hx.
    + destruct (IH seen) as (H1 & H2 & H3 & H4).
      split; [exact H1|]. split; [|split].
      * intros p. rewrite H2, elem_of_cons. split; [tauto|].
        intros [[->|H] Hn]; [contradiction | tauto].
      * apply sublist_cons, H3.
      * intros _ Hall. exfalso. apply (Hall x); [apply list_elem_of_here | exact Hx].
    + destruct (IH ({[x]} ∪ seen)) as (H1 & H2 & H3 & H4).
      assert (Hu : forall p, p ∉ {[x]} ∪ seen <-> p <> x /\ p ∉ seen).
      { intros p. rewrite elem_of_union, elem_of_singleton. tauto. }
      split; [|split; [|split]].
      * constructor; [|exact H1]. rewrite H2, Hu. tauto.
      * intros p. rewrite !elem_of_cons, H2, Hu. split.
        -- intros [->|[Hp [_ Hn]]]; tauto.
        -- intros [[->|Hp] Hn]; [tauto|].
           destruct (decide (p = x)) as [->|Hne]; tauto.
      * apply sublist_skip, H3.
      * intros Hnd Hall. apply NoDup_cons in Hnd as [Hxo Hnd]. f_equal. apply H4; [exact Hnd|].
        intros p Hp. apply Hu. split.
        -- intros ->. contradiction.
        -- apply Hall, list_elem_of_further, Hp.
Qed.

(** X25.  [_find_files] returns every path that matches one of the
    patterns, each once, in the order in which the patterns list them; a
    listing without repetition is returned as it is. *)
Theorem find_files_dedupes :
  forall (rglob : pystr -> list pystr) (patterns : list pystr),
    NoDup (_find_files rglob patterns) /\
    (forall p, p ∈ _find_files rglob patterns <->
               exists pat, pat ∈ patterns /\ p ∈ rglob pat) /\
    sublist (_find_files rglob patterns) (patterns ≫= rglob) /\
    (NoDup (patterns ≫= rglob) -> _find_files rglob patterns = patterns ≫= rglob).
Proof.
  intros rglob patterns. unfold _find_files.
  destruct (dedupe_spec ∅ (patterns ≫= rglob)) as (H1 & H2 & H3 & H4).
  split; [exact H1|]. split; [|split; [exact H3|]].
  - intros p. rewrite H2, list_elem_of_bind. split.
    + intros [(pat & Hp & Hpat) _]. eauto.
    + intros (pat & Hpat & Hp). split; [eauto | apply not_elem_of_empty].
  - intros Hnd. apply H4; [exact Hnd|]. intros p _. apply not_elem_of_empty.
Qed.

Lemma find_files_dedupes_witness :
  _find_files (fun pat => if decide (pat = py "*.json") then [py "a.json"; py "b/c.json"]
                         else [py "x.png"])
              [py "*.json"; py "*.png"] =
  [py "a.json"; py "b/c.json"; py "x.png"].
Proof.
  rewrite (proj2 (proj2 (proj2 (find_files_dedupes _ _)))); [reflexivity|].
  vm_compute. repeat constructor; intros H; apply list_elem_of_In in H; cbn in H;
    repeat (destruct H as [H|H]; [discriminate|]); exact H.
Defined.

Definition imgs (s : SplitDir) : Z := (count_split s).1.
Definition anns (s : SplitDir) : Z := (count_split s).2.




Section Exit.
Variable lower : pystr -> pystr.




End Exit.




End VerifyDeepFashion2.

(* ===================================================================== *)
(** * The conversion: which images are emitted *)
(* ===================================================================== *)

Module ConvertImages.

Import ConvertDeepFashion2ToCoco ConvertIdentifiers.

(** The annotation documents that have an image file, each with the
    name of that file, in the order of [docs]. *)
Definition paired_docs (dir : ImageDir) (docs : list (pystr * json)) : list (pystr * json) :=
  omap (fun p => (fun n => (n, p.2)) <$> paired_image dir (stem p.1)) docs.


(** What the bundle holds for a document [p.2] paired with the file
    [p.1]: an image record of that name and size, which owns none of the
    annotations [anns] when every item of the document is dropped. *)
Definition emitted_for (dir : ImageDir) (anns : list CanonicalAnnotation)
  (p : pystr * json) (im : CanonicalImage) : Prop :=
  file_name im = p.1 /\
  image_size dir p.1 p.2 = Ok (width im, height im) /\
  (forall d, p.2 = JObj d ->
             Forall (fun kv => well_formed_item kv = None \/ degenerate kv) d ->
             Forall (fun a => image_id a <> img_id im) anns).

Lemma convert_doc_step dir img_name anno (st st' : State) :
  convert_doc dir img_name anno st = Ok st' ->
  exists w h new,
    image_size dir img_name anno = Ok (w, h) /\
    st_images st' = st_images st ++
      [{| img_id := st_image_id st; file_name := img_name; width := w; height := h |}] /\
    st_annotations st' = st_annotations st ++ new /\
    Forall (fun a => image_id a = st_image_id st) new /\
    st_image_id st' = st_image_id st + 1 /\
    (forall d, anno = JObj d ->
               Forall (fun kv => well_formed_item kv = None \/ degenerate kv) d ->
               new = []).
Proof.
  intros H0. pose proof H0 as H. unfold convert_doc in H.
  apply bind_Ok in H as ([w h] & Hsize & H). apply bind_Ok in H as (items & _ & H).
  apply bind_Ok in H as (st2 & H2 & H). inversion H; subst st'; clear H.
  destruct (convert_items_appended _ _ _ H2) as (new & Hi & Hid & Ha & _ & _ & Hf).
  cbn [st_images st_annotations st_image_id] in *.
  exists w, h, new. rewrite Hi, Ha, Hid.
  repeat (split; [first [reflexivity | assumption]|]).
  intros d -> Hall.
  destruct (dropped_items_keep_image dir img_name d st w h Hsize Hall) as (st'' & Hd & _ & Hs & _).
  rewrite H0 in Hd. inversion Hd; subst st''. cbn [st_annotations] in Hs.
  rewrite Ha in Hs. rewrite <- (app_nil_r (st_annotations st)) in Hs at 2.
  apply app_inv_head in Hs. exact Hs.
Qed.

Lemma emitted_for_more dir (old anns : list CanonicalAnnotation) (k : Z)
  (l : list (pystr * json)) (ims : list CanonicalImage) :
  Forall (fun a => image_id a = k) old ->
  Forall (fun im => k + 1 <= img_id im) ims ->
  Forall2 (emitted_for dir anns) l ims ->
  Forall2 (emitted_for dir (old ++ anns)) l ims.
Proof.
  intros Hold Hims H. induction H as [|p im l ims (H1 & H2 & H3) _ IH]; [constructor|].
  apply Forall_cons in Hims as [Him Hims].
  constructor; [|exact (IH Hims)].
  split; [exact H1|]. split; [exact H2|].
  intros d Hd Hall. apply Forall_app. split; [|exact (H3 d Hd Hall)].
  eapply Forall_impl; [exact Hold|]. cbn. intros a Ha. lia.
Qed.

(** The documents the loop reaches: all of them, or with a limit only
    those up to the image at which it stops. *)
Lemma convert_docs_trace dir limit docs (st st' : State) :
  0 <= st_image_id st ->
  (limit <> 0 -> st_image_id st < Z.max 1 limit) ->
  convert_docs dir limit docs st = Ok st' ->
  exists ims more,
    st_images st' = st_images st ++ ims /\
    st_annotations st' = st_annotations st ++ more /\
    Forall (fun a => st_image_id st <= image_id a) more /\
    Forall (fun im => st_image_id st <= img_id im) ims /\
    Forall2 (emitted_for dir more)
      (if limit =? 0 then paired_docs dir docs
       else take (Z.to_nat (Z.max 1 limit - st_image_id st)) (paired_docs dir docs))
      ims.
Proof.
  revert st. induction docs as [|[anno_name anno] docs IH]; intros st H0 Hlt H.
  - cbn in H. inversion H; subst. exists [], []. rewrite !app_nil_r.
    repeat (split; [first [reflexivity | constructor]|]).
    cbn. rewrite take_nil. destruct (limit =? 0); constructor.
  - cbn [convert_docs] in H. unfold paired_docs. cbn [omap list_omap fst snd].
    fold (paired_docs dir docs).
    destruct (paired_image dir (stem anno_name)) as [img_name|];
      cbn [fmap option_fmap option_map]; [|exact (IH _ H0 Hlt H)].
    apply bind_Ok in H as (st1 & H1 & H).
    destruct (convert_doc_step _ _ _ _ _ H1) as (w & h & new & Hsize & Hi & Ha & Hf & Hid & Hdrop).
    set (im := {| img_id := st_image_id st; file_name := img_name;
                  width := w; height := h |}) in *.
    assert (Hhead : forall anns,
               Forall (fun a => st_image_id st + 1 <= image_id a) anns ->
               emitted_for dir (new ++ anns) (img_name, anno) im).
    { intros anns Hanns. split; [reflexivity|]. split; [exact Hsize|].
      intros d Hd Hall. rewrite (Hdrop d Hd Hall). cbn [app].
      eapply Forall_impl; [exact Hanns|]. cbn. intros a Hle. lia. }
    assert (Hnew : Forall (fun a => st_image_id st <= image_id a) new).
    { eapply Forall_impl; [exact Hf|]. cbn. intros a Heq. lia. }
    destruct (negb (limit =? 0) && (limit <=? st_image_id st1)) eqn:Hbreak.
    + inversion H; subst st'. exists [im], new.
      split; [exact Hi|]. split; [exact Ha|]. split; [exact Hnew|].
      split; [constructor; [cbn; lia | constructor]|].
      apply andb_true_iff in Hbreak as [Hz Hb].
      apply negb_true_iff in Hz. rewrite Hz. apply Z.eqb_neq in Hz. apply Z.leb_le in Hb.
      specialize (Hlt Hz).
      replace (Z.to_nat (Z.max 1 limit - st_image_id st)) with 1%nat by lia.
      cbn [take]. rewrite take_0. constructor; [|constructor].
      rewrite <- (app_nil_r new). apply Hhead. constructor.
    + assert (Hlt1 : limit <> 0 -> st_image_id st1 < Z.max 1 limit).
      { intros Hz. specialize (Hlt Hz).
        apply andb_false_iff in Hbreak as [Hb|Hb].
        - apply negb_false_iff, Z.eqb_eq in Hb. contradiction.
        - apply Z.leb_gt in Hb. lia. }
      destruct (IH st1 ltac:(lia) Hlt1 H) as (ims & more & Hi' & Ha' & Hm & Hims & Hall).
      rewrite Hid in Hm, Hims.
      exists (im :: ims), (new ++ more).
      split; [rewrite Hi', Hi, <- app_assoc; reflexivity|].
      split; [rewrite Ha', Ha, <- app_assoc; reflexivity|].
      split.
      { apply Forall_app. split; [exact Hnew|].
        eapply Forall_impl; [exact Hm|]. cbn. intros a Hle. lia. }
      split.
      { constructor; [cbn; lia|]. eapply Forall_impl; [exact Hims|]. cbn. intros x Hle. lia. }
      assert (Htail : forall l, Forall2 (emitted_for dir more) l ims ->
                Forall2 (emitted_for dir (new ++ more)) ((img_name, anno) :: l) (im :: ims)).
      { intros l Hl. constructor; [exact (Hhead more Hm)|].
        exact (emitted_for_more dir new more (st_image_id st) l ims Hf Hims Hl). }
      destruct (Z.eqb_spec limit 0) as [Hz|Hz].
      * apply Htail, Hall.
      * specialize (Hlt Hz). specialize (Hlt1 Hz).
        replace (Z.to_nat (Z.max 1 limit - st_image_id st))
          with (S (Z.to_nat (Z.max 1 limit - st_image_id st1))) by lia.
        cbn [take]. apply Htail, Hall.
Qed.

Lemma main_trace split annos dir limit coco :
  main split (Some annos) (Some dir) limit = Ok coco ->
  Forall2 (emitted_for dir (annotations coco))
    (if limit =? 0 then paired_docs dir (_iter_annos annos)
     else take (Z.to_nat (Z.max 1 limit)) (paired_docs dir (_iter_annos annos)))
    (images coco).
Proof.
  intros H. unfold main in H.
  apply bind_Ok in H as (st & Hrun & H). inversion H; subst coco; clear H.
  cbn [images annotations].
  apply convert_docs_trace in Hrun as (ims & more & Hi & Ha & _ & _ & Hall);
    [|cbn; lia | cbn; lia].
  cbn [st_images st_annotations st_image_id app] in *.
  rewrite Z.sub_0_r in Hall. rewrite Hi, Ha. exact Hall.
Qed.

(** C2.  No annotation with width <= 1 or height <= 1 is ever emitted:
    every annotation of a finished run has width > 1, height > 1 and
    area = width * height.  A document all of whose items are dropped
    still gets its image record: in the bundle of a run without limit,
    every annotation file of the directory that has an image file and
    whose items are all malformed or degenerate has an image record of
    that file's name and size, and no annotation of the bundle belongs to
    it; and the run on a directory with one such document returns the
    bundle with that one image and no annotation. *)
Theorem no_degenerate_annotation :
  (forall split annos dir limit coco,
      main split annos dir limit = Ok coco ->
      Forall ann_ok (annotations coco))
  /\
  (forall dir img_name d st w h,
      image_size dir img_name (JObj d) = Ok (w, h) ->
      Forall (fun kv => well_formed_item kv = None \/ degenerate kv) d ->
      exists st',
        convert_doc dir img_name (JObj d) st = Ok st' /\
        st_images st' = st_images st ++
          [{| img_id := st_image_id st; file_name := img_name;
              width := w; height := h |}] /\
        st_annotations st' = st_annotations st)
  /\
  (forall split annos dir coco anno_name d img_name,
      main split (Some annos) (Some dir) 0 = Ok coco ->
      (anno_name, JObj d) ∈ annos ->
      endswith (py ".json") anno_name = true ->
      paired_image dir (stem anno_name) = Some img_name ->
      Forall (fun kv => well_formed_item kv = None \/ degenerate kv) d ->
      exists im,
        im ∈ images coco /\
        file_name im = img_name /\
        image_size dir img_name (JObj d) = Ok (width im, height im) /\
        Forall (fun a => image_id a <> img_id im) (annotations coco))
  /\
  (forall split dir limit anno_name d img_name w h,
      endswith (py ".json") anno_name = true ->
      paired_image dir (stem anno_name) = Some img_name ->
      image_size dir img_name (JObj d) = Ok (w, h) ->
      Forall (fun kv => well_formed_item kv = None \/ degenerate kv) d ->
      exists coco,
        main split (Some [(anno_name, JObj d)]) (Some dir) limit = Ok coco /\
        images coco = [{| img_id := 0; file_name := img_name;
                          width := w; height := h |}] /\
        annotations coco = []).
Proof.
  split; [exact main_annotations_ok|]. split; [|split].
  - intros dir img_name d st w h Hsize Hall.
    destruct (dropped_items_keep_image dir img_name d st w h Hsize Hall)
      as (st' & H1 & H2 & H3 & _).
    exists st'. auto.
  - intros split annos dir coco anno_name d img_name Hrun Hin Hjson Hpair Hall.
    apply main_trace in Hrun. cbn [Z.eqb] in Hrun.
    assert (Hp : (img_name, JObj d) ∈ paired_docs dir (_iter_annos annos)).
    { apply list_elem_of_omap. exists (anno_name, JObj d). split.
      - apply elem_of_sorted, list_elem_of_filter. split; [exact Hjson | exact Hin].
      - cbn [fst snd]. rewrite Hpair. reflexivity. }
    apply list_elem_of_lookup in Hp as [i Hi].
    destruct (Forall2_lookup_l _ _ _ _ _ Hrun Hi) as (im & Him & Hname & Hsize & Hown).
    exists im. split; [apply list_elem_of_lookup; eauto|].
    split; [exact Hname|]. split; [exact Hsize|]. exact (Hown d eq_refl Hall).
  - intros split dir limit anno_name d img_name w h Hjson Hpair Hsize Hall.
    unfold main. rewrite (_iter_annos_single _ _ Hjson).
    cbn [convert_docs]. rewrite Hpair.
    destruct (dropped_items_keep_image dir img_name d
                {| st_images := []; st_annotations := []; cat_id_to_name := [];
                   st_image_id := 0; st_ann_id := 0 |} w h Hsize Hall)
      as (st' & -> & Hi & Ha & _).
    cbn [mbind result_bind].
    destruct (negb (limit =? 0) && (limit <=? st_image_id st')); cbn [mbind result_bind];
      (eexists; split; [reflexivity|]; cbn [images annotations]; split; assumption).
Qed.

(** A directory with the scenario document and, after it, the document
    with box [10, 10, 10.5, 60]. *)
Definition mixed_docs : list (pystr * json) :=
  [(py "000001.json", scenario_doc (JInt 50));
   (py "000002.json", scenario_doc (JFloat 10.5))].

Lemma scenario_item_dropped :
  Forall (fun kv => well_formed_item kv = None \/ degenerate kv)
         [(py "height", JInt 300); (py "width", JInt 200);
          (py "item1", scenario_item (JFloat 10.5))].
Proof.
  constructor; [left; reflexivity|].
  constructor; [left; reflexivity|].
  constructor; [|constructor].
  right. exists (JInt 10), (JInt 10), (JFloat 10.5), (JInt 60), 3,
           (JStr (py "top")), 0.5%float, 50%float.
  split; [reflexivity|]. split; vm_compute; reflexivity.
Qed.

(** The scenario with box [10, 10, 10.5, 60]: the annotation is dropped,
    the image is emitted, alone and after another document. *)
Lemma no_degenerate_annotation_witness :
  (exists coco,
      main train (Some [(py "000001.json", scenario_doc (JFloat 10.5))])
           (Some dir_000001) 0 = Ok coco /\
      images coco = [{| img_id := 0; file_name := py "000001.jpg";
                        width := 200; height := 300 |}] /\
      annotations coco = [])
  /\
  (exists coco,
      main train (Some mixed_docs) (Some dir_all) 0 = Ok coco /\
      exists im,
        im ∈ images coco /\
        file_name im = py "000002.jpg" /\
        image_size dir_all (py "000002.jpg") (scenario_doc (JFloat 10.5)) =
          Ok (width im, height im) /\
        Forall (fun a => image_id a <> img_id im) (annotations coco)).
Proof.
  split.
  - apply (proj2 (proj2 (proj2 no_degenerate_annotation)) train dir_000001 0
             (py "000001.json") _ (py "000001.jpg") 200 300).
    + reflexivity.
    + reflexivity.
    + reflexivity.
    + exact scenario_item_dropped.
  - eexists. split; [vm_compute; reflexivity|].
    apply (proj1 (proj2 (proj2 no_degenerate_annotation)) train mixed_docs dir_all _
             (py "000002.json") _ (py "000002.jpg")).
    + vm_compute. reflexivity.
    + apply list_elem_of_further, list_elem_of_here.
    + reflexivity.
    + reflexivity.
    + exact scenario_item_dropped.
Defined.






End ConvertImages.
